(** * Sentiment pipeline: batch classification, quarterly segmentation and
    quarterly aggregation.

    A shallow embedding of [sentiment_gpt.py], [divide_by_quarter.py] and
    [line_chart_by_quarter.py] (with the path helpers of [config.py]), and
    the properties of the three engines proved over it.

    Conventions.
    - A Python [str] is a Rocq [string]; one character of the Rocq string
      stands for one character of the Python string, its code being the
      code point (the characters up to U+00FF).
    - A Python [int] is a [Z]; list lengths and positions are [nat].
    - A statement that can raise is a value of [result]; [try ... except
      Exception] is a [match] on it.
    - The classifier service, the JSON parser and the timestamp parser are
      Section variables: every theorem holds for all of them.
    - The file system is a finite map from paths to files; a file that
      exists but cannot be read as a table is [Unreadable].
    - A binary floating point number ([numpy.float64]) is the rational
      [Q] it denotes, in lowest terms; every operation rounds its exact
      result to the nearest number with a 53-bit significand, ties to the
      even one. *)

From Stdlib Require Import ZArith QArith Qround Qpower Qabs Qreduction Lqa Lia Ascii.
From Stdlib Require Qcanon.
From Stdlib Require Import PrimFloat FloatOps SpecFloat.
From stdpp Require Import base option list sorting strings pretty gmap.

(** ** Exceptions *)

Inductive exn : Type :=
| ApiError            (* anything raised by the service call itself *)
| ValueError
| JSONDecodeError
| AttributeError
| TypeError
| KeyError
| OSError.

Inductive result (A : Type) : Type :=
| Ok (a : A)
| Raise (e : exn).
Arguments Ok {A} a.
Arguments Raise {A} e.

(** Sequencing: the first statement that raises ends the block. *)
#[global] Instance result_ret : MRet result := λ A a, Ok a.
#[global] Instance result_bind : MBind result := λ A B k r,
  match r with
  | Ok a => k a
  | Raise e => Raise e
  end.

(** ** Python built-ins used by the sources *)

Module Py.

(** [str.isspace] on one character. *)
Definition isspace (c : ascii) : bool :=
  let n := nat_of_ascii c in
  ((9 <=? n) && (n <=? 13)) || ((28 <=? n) && (n <=? 32))
  || (n =? 133) || (n =? 160).

Fixpoint lstrip (s : string) : string :=
  match s with
  | String c s' => if isspace c then lstrip s' else s
  | EmptyString => EmptyString
  end.

(** [s.strip()] *)
Definition strip (s : string) : string :=
  String.rev (lstrip (String.rev (lstrip s))).

(** [str.isdigit]: non-empty and every character a digit: [0] to [9]
    and the superscripts U+00B2, U+00B3 and U+00B9. *)
Definition isdigit_char (c : ascii) : bool :=
  let n := nat_of_ascii c in
  ((48 <=? n) && (n <=? 57)) || (n =? 178) || (n =? 179) || (n =? 185).

Fixpoint all_digits (s : string) : bool :=
  match s with
  | EmptyString => true
  | String c s' => isdigit_char c && all_digits s'
  end.

Definition isdigit (s : string) : bool :=
  match s with
  | EmptyString => false
  | _ => all_digits s
  end.

(** [s.split(sep)] for a one-character separator: the pieces between
    the separators, always at least one piece. *)
Fixpoint split (sep : ascii) (s : string) : list string :=
  match s with
  | EmptyString => [EmptyString]
  | String c s' =>
      if Ascii.eqb c sep then EmptyString :: split sep s'
      else match split sep s' with
           | p :: ps => String c p :: ps
           | [] => [String c EmptyString]
           end
  end.

(** [str.lower]: the letters A..Z and U+00C0..U+00DE (but the
    multiplication sign U+00D7) have a lower-case form. *)
Definition lower_char (c : ascii) : ascii :=
  let n := nat_of_ascii c in
  if ((65 <=? n) && (n <=? 90)) || ((192 <=? n) && (n <=? 222) && negb (n =? 215))
  then ascii_of_nat (n + 32) else c.

Fixpoint lower (s : string) : string :=
  match s with
  | EmptyString => EmptyString
  | String c s' => String (lower_char c) (lower s')
  end.

(** [str(n)] for an integer. *)
Definition str (n : Z) : string := pretty n.

(** [sep.join(parts)] *)
Fixpoint join (sep : string) (parts : list string) : string :=
  match parts with
  | [] => EmptyString
  | [p] => p
  | p :: ps => p +:+ sep +:+ join sep ps
  end.

(** [range(start, stop, step)]; a zero step raises [ValueError]. *)
Definition range (start stop step : Z) : result (list Z) :=
  if (step =? 0)%Z then Raise ValueError
  else
    let n :=
      (if 0 <? step then (stop - start + step - 1) / step
       else (start - stop - step - 1) / (- step))%Z in
    Ok ((λ k : nat, (start + Z.of_nat k * step)%Z) <$> seq 0 (Z.to_nat n)).

(** [range(start, stop)] *)
Definition range2 (start stop : Z) : list Z :=
  (λ k : nat, (start + Z.of_nat k)%Z) <$> seq 0 (Z.to_nat (stop - start)).

(** Position of a slice bound inside a list of length [len]. *)
Definition slice_bound (len : nat) (i : Z) : nat :=
  if (i <? 0)%Z then Z.to_nat (Z.max (i + Z.of_nat len) 0)
  else Z.to_nat (Z.min i (Z.of_nat len)).

(** [l[lo:hi]] *)
Definition slice {A} (l : list A) (lo hi : Z) : list A :=
  let a := slice_bound (length l) lo in
  let b := slice_bound (length l) hi in
  take (b - a) (drop a l).

(** [zip(xs, ys)] *)
Fixpoint zip {A B} (xs : list A) (ys : list B) : list (A * B) :=
  match xs, ys with
  | x :: xs', y :: ys' => (x, y) :: zip xs' ys'
  | _, _ => []
  end.

End Py.

Example strip_ex : Py.strip "  ab c  " = "ab c".
Proof. reflexivity. Qed.

Example isdigit_ex :
  Py.isdigit "2024" = true ∧ Py.isdigit "" = false ∧ Py.isdigit "20a4" = false
  ∧ Py.isdigit (String "178" EmptyString) = true.
Proof. repeat split. Qed.

Example split_ex : Py.split "_" "results_2024_sentiment.xlsx" = ["results"; "2024"; "sentiment.xlsx"].
Proof. reflexivity. Qed.

Example str_ex : Py.str 2024 = "2024" ∧ Py.str (-7) = "-7".
Proof. split; vm_compute; reflexivity. Qed.

Example range_ex : Py.range 0 5 2 = Ok [0; 2; 4]%Z ∧ Py.range 0 5 (-2) = Ok [] ∧ Py.range 0 6 2 = Ok [0; 2; 4]%Z.
Proof. repeat split; vm_compute; reflexivity. Qed.

Example slice_ex : Py.slice [1; 2; 3; 4; 5] 4 6 = [5] ∧ Py.slice [1; 2; 3; 4; 5] 0 2 = [1; 2].
Proof. split; reflexivity. Qed.

(** ** config.py *)

Module Config.

Record config : Type := {
  BASE_DATA_PATH : string;
  BATCH_SIZE : Z;
  ANALYSIS_TOPIC : string;
  ANALYSIS_YEARS : list Z
}.

(** The values written in [config.py]. *)
Definition default : config := {|
  BASE_DATA_PATH := "C:\Users\wangze\OneDrive - IAEA\Desktop\Nuclear power excel\clean data";
  BATCH_SIZE := 30;
  ANALYSIS_TOPIC := "nuclear power";
  ANALYSIS_YEARS := [2024; 2025]%Z
|}.

Definition dquote : string := String "034" EmptyString.
Definition newline : string := String "010" EmptyString.

(** [f"{cls.BASE_DATA_PATH}\\results_{year}_sentiment.xlsx"] *)
Definition get_output_file_path (cfg : config) (year : string) : string :=
  BASE_DATA_PATH cfg +:+ "\results_" +:+ year +:+ "_sentiment.xlsx".

(** [f"{cls.BASE_DATA_PATH}\\{year}_{quarter}.xlsx"]; [year] and [quarter]
    are given already formatted. *)
Definition get_quarterly_file_path (cfg : config) (year quarter : string) : string :=
  BASE_DATA_PATH cfg +:+ "\" +:+ year +:+ "_" +:+ quarter +:+ ".xlsx".

Definition get_sentiment_prompt (cfg : config) : string :=
  "You are a helpful assistant that classifies social media posts into Positive, Negative, or Neutral sentiment toward "
  +:+ ANALYSIS_TOPIC cfg +:+ ". "
  +:+ "You must output ONLY a valid JSON object in the following format:" +:+ newline
  +:+ "{" +:+ dquote +:+ "sentiments" +:+ dquote +:+ ": ["
  +:+ dquote +:+ "Positive" +:+ dquote +:+ ", "
  +:+ dquote +:+ "Negative" +:+ dquote +:+ ", "
  +:+ dquote +:+ "Neutral" +:+ dquote +:+ ", ...]}" +:+ newline
  +:+ "Ensure the number of sentiments matches the number of posts. "
  +:+ "Each sentiment corresponds exactly to one post in the order they are presented.".

End Config.

(** ** Parsed JSON values, with the operations the classifier applies to
    them.  The members of [JObj] are the items of the Python [dict] that
    [json.loads] builds, in insertion order, with distinct keys. *)

#[warnings="-register-all"] Inductive json : Type :=
| JNull
| JBool (b : bool)
| JNum (mantissa exponent : Z)
| JStr (s : string)
| JArr (items : list json)
| JObj (members : list (string * json)).

Module Pyv.

Fixpoint assoc (key : string) (members : list (string * json)) : option json :=
  match members with
  | [] => None
  | (k, v) :: rest => if String.eqb k key then Some v else assoc key rest
  end.

(** [v.get(key, default)]: only a [dict] has the method. *)
Definition get (v : json) (key : string) (default : json) : result json :=
  match v with
  | JObj members => Ok (from_option id default (assoc key members))
  | _ => Raise AttributeError
  end.

(** [len(v)] *)
Definition len (v : json) : result nat :=
  match v with
  | JArr items => Ok (length items)
  | JStr s => Ok (String.length s)
  | JObj members => Ok (length members)
  | _ => Raise TypeError
  end.

(** [v.extend(extra)]: only a [list] has the method. *)
Definition extend (v : json) (extra : list json) : result json :=
  match v with
  | JArr items => Ok (JArr (items ++ extra))
  | _ => Raise AttributeError
  end.

(** [v[:n]] for [n >= 0]; a [dict] cannot be sliced. *)
Definition slice_to (v : json) (n : nat) : result json :=
  match v with
  | JArr items => Ok (JArr (take n items))
  | JStr s => Ok (JStr (String.substring 0 n s))
  | JObj _ => Raise KeyError
  | _ => Raise TypeError
  end.

Fixpoint chars (s : string) : list json :=
  match s with
  | EmptyString => []
  | String c s' => JStr (String c EmptyString) :: chars s'
  end.

(** The elements [for x in v] yields: the items of a list, the
    characters of a string, the keys of a dict. *)
Definition iter (v : json) : result (list json) :=
  match v with
  | JArr items => Ok items
  | JStr s => Ok (chars s)
  | JObj members => Ok ((λ kv, JStr kv.1) <$> members)
  | _ => Raise TypeError
  end.

End Pyv.

(** ** sentiment_gpt.py *)

Module SentimentAnalyzer.

Definition Positive : json := JStr "Positive".
Definition Negative : json := JStr "Negative".
Definition Neutral : json := JStr "Neutral".

(** One entry of [results]: [{"text": ..., "sentiment": ...}]. *)
Record labeled : Type := { text : string; sentiment : json }.

Definition neutral_record (t : string) : labeled :=
  {| text := t; sentiment := Neutral |}.

(** What [analyze_file] did: returned early on an empty input, or
    reached the point where [results] is handed to the writer. *)
Inductive run : Type :=
| NoData
| Saved (results : list labeled).

(** ["\n".join([f"{i+1}. {text}" for i, text in enumerate(texts)])] *)
Definition formatted_texts (texts : list string) : string :=
  Py.join Config.newline
    (imap (λ i text, Py.str (Z.of_nat i + 1) +:+ ". " +:+ text) texts).

Definition user_content (texts : list string) : string :=
  "Classify the sentiment of these social media posts (Positive, Negative, or Neutral):"
  +:+ Config.newline +:+ formatted_texts texts +:+ Config.newline +:+ Config.newline
  +:+ "Return ONLY the JSON object without any extra text, and make sure the number of labels corresponds exactly to "
  +:+ Py.str (Z.of_nat (length texts)) +:+ "!!!".

Section Analyzer.

(** The chat-completion service.  [create c system user] is one call
    [self.client.chat.completions.create(...)] followed by
    [response.choices[0].message.content]: it raises, or yields the
    content of the first choice, which may be [None]. *)
Variable client : Type.
Variable create : client → string → string → client * result (option string).

(** [json.loads] *)
Variable json_loads : string → result json.

Variable cfg : Config.config.

(** The body of the [try] block of [classify_sentiment_batch]. *)
Definition classify_try (c : client) (texts : list string) : client * result json :=
  let len_text := length texts in
  let system_prompt := Config.get_sentiment_prompt cfg in
  let '(c', response) := create c system_prompt (user_content texts) in
  (c',
   content ← response;
   result ← match content with
             | Some s => Ok (Py.strip s)
             | None => Raise AttributeError
             end;
   if String.eqb result "" then Raise ValueError
   else
     parsed ← json_loads result;
     sentiments ← Pyv.get parsed "sentiments" (JArr []);
     n ← Pyv.len sentiments;
     if negb (n =? len_text) then
       if n <? len_text then
         Pyv.extend sentiments (replicate (len_text - n) Neutral)
       else Pyv.slice_to sentiments len_text
     else Ok sentiments).

Definition classify_sentiment_batch (c : client) (texts : list string) : client * json :=
  let '(c', r) := classify_try c texts in
  (c',
   match r with
   | Ok sentiments => sentiments
   | Raise _ => JArr (replicate (length texts) Neutral)
   end).

(** One turn of the batch loop of [analyze_file]: the [try] block and
    its handler.  Entries appended before a statement raises stay in
    [results]. *)
Definition process_batch (c : client) (results : list labeled) (batch : list string)
  : client * list labeled :=
  let '(c', sentiments) := classify_sentiment_batch c batch in
  let handler (rs : list labeled) := rs ++ (neutral_record <$> batch) in
  (c',
   match Pyv.iter sentiments with
   | Raise _ => handler results
   | Ok labels =>
       let results1 := results ++ (uncurry Build_labeled <$> Py.zip batch labels) in
       match Pyv.len sentiments with
       | Raise _ => handler results1
       | Ok n =>
           if n <? length batch then
             results1 ++ omap (λ j, neutral_record <$> batch !! j)
                              (seq n (length batch - n))
           else results1
       end
   end).

(** [for i in range(0, total_docs, self.batch_size)] over the indices
    the range yields. *)
Definition batch_loop (documents : list string) (indices : list Z)
    (c : client) (results : list labeled) : client * list labeled :=
  foldl (λ acc i,
           process_batch acc.1 acc.2
             (Py.slice documents i (i + Config.BATCH_SIZE cfg)))
        (c, results) indices.

(** [while len(results) < total_docs: results.append(...)]; every turn
    adds one entry, so [total_docs] turns are enough. *)
Fixpoint final_validation (turns : nat) (documents : list string)
    (results : list labeled) : list labeled :=
  match turns with
  | O => results
  | S turns' =>
      if length results <? length documents then
        let missing_idx := length results in
        final_validation turns' documents
          (results ++ [ {| text := default "Missing" (documents !! missing_idx);
                           sentiment := Neutral |} ])
      else results
  end.

(** [analyze_file], from the extracted [documents] to the [results]
    handed to the writer.  Reading the input table and writing the
    output table are outside the model. *)
Definition analyze_file (c : client) (documents : list string) : client * result run :=
  match documents with
  | [] => (c, Ok NoData)
  | _ =>
      let total_docs := length documents in
      match Py.range 0 (Z.of_nat total_docs) (Config.BATCH_SIZE cfg) with
      | Raise e => (c, Raise e)
      | Ok indices =>
          let '(c', results) := batch_loop documents indices c [] in
          let results' :=
            if negb (length results =? total_docs) then
              final_validation total_docs documents results
            else results in
          (c', Ok (Saved results'))
      end
  end.

(** The labels a returned value hands to [zip]. *)
Definition labels_of (v : json) : list json :=
  match Pyv.iter v with
  | Ok labels => labels
  | Raise _ => []
  end.

(** The three class labels. *)
Definition valid_label (l : json) : Prop :=
  l = Positive ∨ l = Negative ∨ l = Neutral.

(** The labels the service hands back: each element that the
    ["sentiments"] member of a parsed reply yields is a class label. *)
Definition service_labels_valid : Prop :=
  ∀ c system user c' s members,
    create c system user = (c', Ok (Some s)) →
    json_loads (Py.strip s) = Ok (JObj members) →
    Forall valid_label
      (labels_of (from_option id (JArr []) (Pyv.assoc "sentiments" members))).

(** A label the service returned: an element that the ["sentiments"]
    member of the parsed reply to a classification request yields. *)
Definition service_label (l : json) : Prop :=
  ∃ c texts c' s members,
    create c (Config.get_sentiment_prompt cfg) (user_content texts) = (c', Ok (Some s))
    ∧ json_loads (Py.strip s) = Ok (JObj members)
    ∧ l ∈ labels_of (from_option id (JArr []) (Pyv.assoc "sentiments" members)).

(** Where a label of the output can come from: the engine's own
    [Neutral], or the service. *)
Definition neutral_or_service (l : json) : Prop :=
  l = Neutral ∨ service_label l.

(** The ways the call for a chunk fails: the request raises, the reply
    has no content or only blanks, the content is not JSON, or a later
    statement of the try block raises. *)
Inductive chunk_failure (c : client) (texts : list string) (c' : client) : Prop :=
| transport_error e :
    create c (Config.get_sentiment_prompt cfg) (user_content texts) = (c', Raise e) →
    chunk_failure c texts c'
| missing_content :
    create c (Config.get_sentiment_prompt cfg) (user_content texts) = (c', Ok None) →
    chunk_failure c texts c'
| empty_response s :
    create c (Config.get_sentiment_prompt cfg) (user_content texts) = (c', Ok (Some s)) →
    Py.strip s = "" →
    chunk_failure c texts c'
| unparseable_json s e :
    create c (Config.get_sentiment_prompt cfg) (user_content texts) = (c', Ok (Some s)) →
    json_loads (Py.strip s) = Raise e →
    chunk_failure c texts c'
| raised_in_try e :
    classify_try c texts = (c', Raise e) →
    chunk_failure c texts c'.

(** *** Alignment of one chunk *)

Lemma length_chars s : length (Pyv.chars s) = String.length s.
Proof. induction s as [|a s IH]; simpl; congruence. Qed.

Lemma length_substring_prefix n s :
  n ≤ String.length s → String.length (String.substring 0 n s) = n.
Proof.
  revert s. induction n as [|n IH]; intros [|a s] Hn; simpl in *; try lia.
  rewrite IH; lia.
Qed.

(** A value with a length can be iterated, and yields that many
    elements. *)
Lemma iter_of_len v n :
  Pyv.len v = Ok n → ∃ labels, Pyv.iter v = Ok labels ∧ length labels = n.
Proof.
  destruct v; simpl; intros H; inversion H; subst; eauto.
  - eexists; split; [reflexivity | apply length_chars].
  - eexists; split; [reflexivity | apply length_fmap].
Qed.

(** Whatever the try block yields has exactly [len(texts)] elements. *)
Lemma classify_try_aligned c texts c' v :
  classify_try c texts = (c', Ok v) → Pyv.len v = Ok (length texts).
Proof.
  unfold classify_try.
  destruct (create c _ _) as [c1 response]. intros H. inversion H as [[Hc Hr]]. clear H Hc.
  destruct response as [[s|]|e]; simpl in Hr; try discriminate.
  destruct (String.eqb (Py.strip s) ""); try discriminate.
  destruct (json_loads (Py.strip s)) as [parsed|e]; simpl in Hr; try discriminate.
  destruct (Pyv.get parsed "sentiments" (JArr [])) as [sentiments|e]; simpl in Hr;
    try discriminate.
  destruct (Pyv.len sentiments) as [n|e] eqn:Hlen; simpl in Hr; try discriminate.
  destruct (n =? length texts) eqn:Hn; simpl in Hr.
  - apply Nat.eqb_eq in Hn. inversion Hr; subst. exact Hlen.
  - apply Nat.eqb_neq in Hn.
    destruct (n <? length texts) eqn:Hlt.
    + apply Nat.ltb_lt in Hlt.
      destruct sentiments; simpl in Hr, Hlen; try discriminate.
      inversion Hr; inversion Hlen; subst. simpl.
      rewrite length_app, length_replicate. f_equal. lia.
    + apply Nat.ltb_ge in Hlt.
      destruct sentiments; simpl in Hr, Hlen; try discriminate;
        inversion Hr; inversion Hlen; subst; simpl; f_equal.
      * apply length_substring_prefix. lia.
      * rewrite length_take. lia.
Qed.

Lemma classify_aligned c texts :
  Pyv.len (classify_sentiment_batch c texts).2 = Ok (length texts).
Proof.
  unfold classify_sentiment_batch.
  destruct (classify_try c texts) as [c' [v|e]] eqn:Htry; simpl.
  - eapply classify_try_aligned; eassumption.
  - by rewrite length_replicate.
Qed.

Lemma classify_labels c texts :
  Pyv.iter (classify_sentiment_batch c texts).2
    = Ok (labels_of (classify_sentiment_batch c texts).2)
  ∧ length (labels_of (classify_sentiment_batch c texts).2) = length texts.
Proof.
  destruct (iter_of_len _ _ (classify_aligned c texts)) as (labels & Hit & Hlen).
  unfold labels_of. rewrite Hit. done.
Qed.

Lemma zip_same_length {A B} (xs : list A) (ys : list B) :
  length xs = length ys → (Py.zip xs ys).*1 = xs ∧ (Py.zip xs ys).*2 = ys.
Proof.
  revert ys. induction xs as [|x xs IH]; intros [|y ys] Hlen; simpl in *; try done.
  destruct (IH ys) as [H1 H2]; [lia|]. split; f_equal; assumption.
Qed.

(** One turn of the loop appends one entry per text of the batch, each
    carrying the label at its position. *)
Lemma process_batch_eq c results batch :
  process_batch c results batch
  = ((classify_sentiment_batch c batch).1,
     results ++ (uncurry Build_labeled <$>
                   Py.zip batch (labels_of (classify_sentiment_batch c batch).2))).
Proof.
  unfold process_batch.
  pose proof (classify_labels c batch) as [Hit Hlen].
  pose proof (classify_aligned c batch) as Hl.
  destruct (classify_sentiment_batch c batch) as [c' v]; simpl in *.
  rewrite Hit, Hl. by rewrite Nat.ltb_irrefl.
Qed.

Lemma process_batch_texts c results batch :
  text <$> (process_batch c results batch).2 = (text <$> results) ++ batch.
Proof.
  rewrite process_batch_eq. simpl. rewrite fmap_app. f_equal.
  destruct (classify_labels c batch) as [_ Hlen].
  destruct (zip_same_length batch _ (eq_sym Hlen)) as [H1 _].
  etrans; [|exact H1]. rewrite <- list_fmap_compose.
  apply list_fmap_ext. by intros _ [t l] _.
Qed.

(** *** The batch loop *)

Lemma batch_loop_cons documents i indices c results :
  batch_loop documents (i :: indices) c results
  = batch_loop documents indices
      (process_batch c results (Py.slice documents i (i + Config.BATCH_SIZE cfg))).1
      (process_batch c results (Py.slice documents i (i + Config.BATCH_SIZE cfg))).2.
Proof.
  unfold batch_loop. simpl.
  by destruct (process_batch c results _).
Qed.

Lemma batch_loop_texts documents indices c results :
  text <$> (batch_loop documents indices c results).2
  = (text <$> results)
    ++ concat ((λ i, Py.slice documents i (i + Config.BATCH_SIZE cfg)) <$> indices).
Proof.
  revert c results. induction indices as [|i indices IH]; intros c results.
  - simpl. by rewrite app_nil_r.
  - rewrite batch_loop_cons, IH, process_batch_texts. simpl.
    by rewrite <- app_assoc.
Qed.

(** The chunks [documents[i:i+step]] taken at [0, step, 2*step, ...]
    are consecutive pieces of [documents]. *)
Lemma slice_step {A} (l : list A) (step : Z) (k : nat) :
  (0 < step)%Z →
  Py.slice l (0 + Z.of_nat k * step) (0 + Z.of_nat k * step + step)
  = take (Z.to_nat step) (drop (k * Z.to_nat step) l).
Proof.
  intros Hstep. unfold Py.slice, Py.slice_bound.
  assert ((0 + Z.of_nat k * step <? 0)%Z = false) as -> by (apply Z.ltb_ge; nia).
  assert ((0 + Z.of_nat k * step + step <? 0)%Z = false) as -> by (apply Z.ltb_ge; nia).
  set (a := Z.to_nat (Z.min (0 + Z.of_nat k * step) (Z.of_nat (length l)))).
  set (b := Z.to_nat (Z.min (0 + Z.of_nat k * step + step) (Z.of_nat (length l)))).
  assert (a = min (k * Z.to_nat step) (length l)) as Ha by (subst a; nia).
  assert (b = min (k * Z.to_nat step + Z.to_nat step) (length l)) as Hb by (subst b; nia).
  destruct (decide (k * Z.to_nat step ≤ length l)) as [Hle|Hgt].
  - replace a with (k * Z.to_nat step) by lia.
    apply list_eq. intros j. rewrite !lookup_take, !lookup_drop.
    destruct (decide (j < b - k * Z.to_nat step)), (decide (j < Z.to_nat step));
      try done; try lia.
    symmetry. apply lookup_ge_None_2. lia.
  - rewrite !drop_ge by lia. by rewrite !take_nil.
Qed.

Lemma chunks_take {A} (l : list A) (step : Z) (m : nat) :
  (0 < step)%Z →
  concat ((λ i, Py.slice l i (i + step))
            <$> ((λ k : nat, (0 + Z.of_nat k * step)%Z) <$> seq 0 m))
  = take (m * Z.to_nat step) l.
Proof.
  intros Hstep. induction m as [|m IH].
  - by rewrite take_0.
  - rewrite seq_S, !fmap_app, concat_app, IH. simpl.
    rewrite app_nil_r, slice_step by done.
    rewrite take_take_drop. f_equal. lia.
Qed.

Lemma chunks_cover {A} (l : list A) (step : Z) indices :
  (0 < step)%Z →
  Py.range 0 (Z.of_nat (length l)) step = Ok indices →
  concat ((λ i, Py.slice l i (i + step)) <$> indices) = l.
Proof.
  intros Hstep. unfold Py.range.
  assert ((step =? 0)%Z = false) as -> by (apply Z.eqb_neq; lia).
  assert ((0 <? step)%Z = true) as -> by (apply Z.ltb_lt; lia).
  intros [= <-]. rewrite chunks_take by done.
  apply take_ge.
  set (n := Z.of_nat (length l)).
  assert (n <= (n - 0 + step - 1) / step * step)%Z as Hceil.
  { pose proof (Z.div_mod (n - 0 + step - 1) step ltac:(lia)) as Hdm.
    pose proof (Z.mod_pos_bound (n - 0 + step - 1) step Hstep) as Hmod.
    lia. }
  assert (0 <= (n - 0 + step - 1) / step)%Z by (apply Z.div_pos; lia).
  nia.
Qed.

Lemma range_backwards_empty (stop step : Z) indices :
  (0 <= stop)%Z → (step < 0)%Z → Py.range 0 stop step = Ok indices → indices = [].
Proof.
  intros Hstop Hstep. unfold Py.range.
  assert ((step =? 0)%Z = false) as -> by (apply Z.eqb_neq; lia).
  assert ((0 <? step)%Z = false) as -> by (apply Z.ltb_ge; lia).
  intros [= <-].
  assert ((0 - stop - step - 1) / - step <= 0)%Z as Hle.
  { assert ((0 - stop - step - 1) / - step < 1)%Z; [|lia].
    apply Z.div_lt_upper_bound; lia. }
  replace (Z.to_nat ((0 - stop - step - 1) / - step)) with 0 by lia. done.
Qed.

(** *** The final validation *)

Lemma final_validation_texts turns documents results :
  text <$> results = take (length results) documents →
  length documents ≤ length results + turns →
  text <$> final_validation turns documents results
  = if decide (length results ≤ length documents) then documents
    else text <$> results.
Proof.
  revert results. induction turns as [|turns IH]; intros results Hpre Hturns; simpl.
  - case_decide; [|done]. rewrite Hpre. apply take_ge. lia.
  - destruct (length results <? length documents) eqn:Hlt.
    + apply Nat.ltb_lt in Hlt.
      destruct (lookup_lt_is_Some_2 documents (length results) Hlt) as [d Hd].
      rewrite IH.
      * rewrite length_app. simpl. rewrite !decide_True by lia. done.
      * rewrite fmap_app, length_app, Hpre. simpl. rewrite Hd. simpl.
        rewrite Nat.add_1_r. symmetry. by apply take_S_r.
      * rewrite length_app. simpl. lia.
    + apply Nat.ltb_ge in Hlt. case_decide; [|done].
      rewrite Hpre. apply take_ge. lia.
Qed.

(** *** Properties of the classification engine *)

(** C1. For every list of texts and every behaviour of the service,
    [analyze_file] hands the writer exactly one entry per input text, in
    input order (nothing at all for an empty input); the batch size is
    any non-zero integer. *)
Theorem analyze_file_one_label_per_record (c : client) (documents : list string) :
  Config.BATCH_SIZE cfg ≠ 0%Z →
  match (analyze_file c documents).2 with
  | Ok (Saved results) =>
      length (sentiment <$> results) = length documents
      ∧ text <$> results = documents
  | Ok NoData => documents = []
  | Raise _ => False
  end.
Proof.
  intros Hbs. unfold analyze_file.
  destruct documents as [|d documents]; [done|].
  set (docs := d :: documents).
  destruct (Py.range 0 (Z.of_nat (length docs)) (Config.BATCH_SIZE cfg))
    as [indices|e] eqn:Hrange.
  2:{ unfold Py.range in Hrange.
      destruct (Z.eqb_spec (Config.BATCH_SIZE cfg) 0); [done | discriminate]. }
  pose proof (batch_loop_texts docs indices c []) as Htexts.
  destruct (batch_loop docs indices c []) as [c' results]. simpl in *.
  assert (text <$> (if negb (length results =? length docs)
                    then final_validation (length docs) docs results
                    else results) = docs) as Hdone.
  { destruct (Z.lt_total 0 (Config.BATCH_SIZE cfg)) as [Hpos|[Hz|Hneg]]; [|lia|].
    - rewrite (chunks_cover docs _ indices Hpos Hrange) in Htexts.
      pose proof (f_equal length Htexts) as Hlen. rewrite length_fmap in Hlen.
      apply Nat.eqb_eq in Hlen as Hlenb. by rewrite Hlenb.
    - apply range_backwards_empty in Hrange; [|lia..]. subst indices.
      simpl in Htexts. apply fmap_nil_inv in Htexts. subst results. simpl.
      rewrite final_validation_texts; simpl; [done | done | lia]. }
  split; [|done].
  pose proof (f_equal length Hdone) as Hlen.
  by rewrite !length_fmap in *.
Qed.

Lemma chunk_failure_raises c texts c' :
  chunk_failure c texts c' → ∃ e, classify_try c texts = (c', Raise e).
Proof.
  intros [e H|H|s H Hs|s e H Hs|e H]; unfold classify_try;
    try (rewrite H; simpl; eauto; fail).
  - rewrite H. simpl. rewrite Hs. simpl. eauto.
  - rewrite H. simpl. destruct (String.eqb (Py.strip s) ""); [eauto|].
    rewrite Hs. simpl. eauto.
  - eauto.
Qed.

Lemma zip_replicate (batch : list string) (l : json) :
  uncurry Build_labeled <$> Py.zip batch (replicate (length batch) l)
  = (λ t, {| text := t; sentiment := l |}) <$> batch.
Proof. induction batch as [|t batch IH]; simpl; [done|]. f_equal. exact IH. Qed.

(** C3. When the call for a chunk fails (the request raises, the reply
    is empty, the content is not JSON, or anything else raises in the
    try block), [classify_sentiment_batch] returns normally with
    [Neutral] for every text of the chunk, and the loop of
    [analyze_file] appends one [Neutral] entry per text of the chunk. *)
Theorem failed_chunk_all_neutral (c c' : client) (texts : list string)
    (results : list labeled) :
  chunk_failure c texts c' →
  classify_sentiment_batch c texts = (c', JArr (replicate (length texts) Neutral))
  ∧ process_batch c results texts = (c', results ++ (neutral_record <$> texts)).
Proof.
  intros Hfail. destruct (chunk_failure_raises _ _ _ Hfail) as [e Htry].
  assert (classify_sentiment_batch c texts
          = (c', JArr (replicate (length texts) Neutral))) as Hcl.
  { unfold classify_sentiment_batch. by rewrite Htry. }
  split; [done|].
  rewrite process_batch_eq, Hcl. simpl. unfold labels_of. simpl.
  by rewrite zip_replicate.
Qed.

(** C4. When the service answers a chunk of [n] texts with a JSON
    object whose ["sentiments"] member is a list of [r] labels, the
    result is that list padded with [n - r] copies of [Neutral] when
    [r < n], cut to its first [n] labels when [r > n], and unchanged
    when [r = n]. *)
Theorem classify_pad_truncate (c c' : client) (texts : list string) (s : string)
    (members : list (string * json)) (labels : list json) :
  create c (Config.get_sentiment_prompt cfg) (user_content texts) = (c', Ok (Some s)) →
  Py.strip s ≠ "" →
  json_loads (Py.strip s) = Ok (JObj members) →
  Pyv.assoc "sentiments" members = Some (JArr labels) →
  ∃ out,
    classify_sentiment_batch c texts = (c', JArr out)
    ∧ (length labels < length texts →
       out = labels ++ replicate (length texts - length labels) Neutral)
    ∧ (length texts < length labels → out = take (length texts) labels)
    ∧ (length labels = length texts → out = labels).
Proof.
  intros Hcreate Hne Hloads Hassoc.
  unfold classify_sentiment_batch, classify_try.
  rewrite Hcreate. simpl.
  destruct (String.eqb_spec (Py.strip s) "") as [Heq|_]; [done|].
  rewrite Hloads. simpl. rewrite Hassoc. simpl.
  destruct (Nat.eqb_spec (length labels) (length texts)) as [Heq|Hneq]; simpl.
  - eexists. split; [done|]. repeat split; intros; try lia; done.
  - destruct (Nat.ltb_spec (length labels) (length texts)) as [Hlt|Hge]; simpl.
    + eexists. split; [done|]. repeat split; intros; try lia; done.
    + eexists. split; [done|]. repeat split; intros; try lia; done.
Qed.

(** *** Which labels can appear *)

Lemma chars_substring n s :
  Pyv.chars (String.substring 0 n s) = take n (Pyv.chars s).
Proof.
  revert s. induction n as [|n IH]; intros [|a s]; simpl; try done.
  by rewrite IH.
Qed.

Lemma valid_neutral : valid_label Neutral.
Proof. right; right; reflexivity. Qed.

Lemma neutral_or_service_valid (l : json) :
  service_labels_valid → neutral_or_service l → valid_label l.
Proof.
  intros Hsvc [->|(c & texts & c' & s & members & Hcreate & Hloads & Hin)].
  - apply valid_neutral.
  - specialize (Hsvc _ _ _ _ _ _ Hcreate Hloads).
    rewrite Forall_forall in Hsvc. by apply Hsvc.
Qed.

(** Every label [classify_sentiment_batch] returns is a label of the
    reply, or the [Neutral] of the padding or of the handler. *)
Lemma classify_labels_origin c texts :
  Forall neutral_or_service (labels_of (classify_sentiment_batch c texts).2).
Proof.
  unfold classify_sentiment_batch, classify_try.
  assert (Forall neutral_or_service (replicate (length texts) Neutral)) as Hpad.
  { apply Forall_replicate. by left. }
  assert (∀ n, Forall neutral_or_service (labels_of (JArr (replicate n Neutral))))
    as Hfallback.
  { intros n. unfold labels_of. simpl. apply Forall_replicate. by left. }
  destruct (create c _ _) as [c1 response] eqn:Hcreate. simpl.
  destruct response as [[s|]|e]; simpl; try done.
  destruct (String.eqb (Py.strip s) ""); [done|].
  destruct (json_loads (Py.strip s)) as [parsed|e] eqn:Hloads; simpl; [|done].
  destruct parsed as [| | | | |members]; simpl; try done.
  assert (Forall neutral_or_service
            (labels_of (from_option id (JArr []) (Pyv.assoc "sentiments" members))))
    as Hsvc.
  { apply Forall_forall. intros l Hl. right. by exists c, texts, c1, s, members. }
  set (sentiments := from_option id (JArr []) (Pyv.assoc "sentiments" members)) in *.
  destruct (Pyv.len sentiments) as [n|e] eqn:Hlen; simpl; [|done].
  destruct (n =? length texts); simpl; [done|].
  destruct (n <? length texts).
  - destruct sentiments; simpl; try done.
    unfold labels_of in *. simpl in *.
    apply Forall_app. split; [done|]. apply Forall_replicate. by left.
  - destruct sentiments; simpl; try done; unfold labels_of in *; simpl in *.
    + rewrite chars_substring. by apply Forall_take.
    + by apply Forall_take.
Qed.

Lemma zip_labels_origin (batch : list string) (labels : list json) :
  Forall neutral_or_service labels →
  Forall (λ r, neutral_or_service (sentiment r))
    (uncurry Build_labeled <$> Py.zip batch labels).
Proof.
  intros Hl. revert batch. induction Hl as [|l labels Hv Hl IH]; intros [|t batch];
    simpl; try constructor; auto.
Qed.

Lemma batch_loop_origin documents indices c results :
  Forall (λ r, neutral_or_service (sentiment r)) results →
  Forall (λ r, neutral_or_service (sentiment r)) (batch_loop documents indices c results).2.
Proof.
  revert c results.
  induction indices as [|i indices IH]; intros c results Hres; [done|].
  rewrite batch_loop_cons. apply IH.
  rewrite process_batch_eq. simpl. apply Forall_app. split; [done|].
  apply zip_labels_origin, classify_labels_origin.
Qed.

Lemma final_validation_origin turns documents results :
  Forall (λ r, neutral_or_service (sentiment r)) results →
  Forall (λ r, neutral_or_service (sentiment r)) (final_validation turns documents results).
Proof.
  revert results. induction turns as [|turns IH]; intros results Hres; simpl; [done|].
  destruct (length results <? length documents); [|done].
  apply IH, Forall_app. split; [done|].
  constructor; [by left | constructor].
Qed.

(** C2, as the code has it.  The engine does not inspect the labels the
    service returns: every label of the output is a label the service
    returned or the [Neutral] the engine supplies itself (padding, failure
    fallback, final validation); so every label of the output is one of
    [Positive], [Negative], [Neutral] provided the labels the service
    returns are. *)
Theorem labels_valid_when_service_labels_valid (c : client) (documents : list string)
    (results : list labeled) :
  (analyze_file c documents).2 = Ok (Saved results) →
  Forall (λ r, sentiment r = Neutral ∨ service_label (sentiment r)) results
  ∧ (service_labels_valid → Forall (λ r, valid_label (sentiment r)) results).
Proof.
  intros Hrun.
  assert (Forall (λ r, neutral_or_service (sentiment r)) results) as Horigin.
  { revert Hrun. unfold analyze_file.
    destruct documents as [|d documents]; [done|].
    destruct (Py.range _ _ _) as [indices|e]; [|done].
    pose proof (batch_loop_origin (d :: documents) indices c [] (Forall_nil_2 _)) as Hloop.
    destruct (batch_loop _ indices c []) as [c' rs]. simpl in *.
    intros [= <-].
    destruct (negb _); [|done].
    change (Forall (λ r, neutral_or_service (sentiment r))
              (final_validation (length (d :: documents)) (d :: documents) rs)).
    by apply final_validation_origin. }
  split; [exact Horigin|].
  intros Hsvc. eapply Forall_impl; [exact Horigin|].
  intros r. by apply neutral_or_service_valid.
Qed.

End Analyzer.

(** *** A scripted service and a small parser, for the examples *)

(** The client state counts the calls; call number [n] is answered with
    entry [n] of the script, and raises once the script is used up. *)
Definition scripted (script : list (result (option string))) (n : nat)
    (system user : string) : nat * result (option string) :=
  (S n, nth n script (Raise ApiError)).

(** The reply text [{"sentiments": ["l1", "l2", ...]}]. *)
Definition reply (labels : list string) : string :=
  "{" +:+ Config.dquote +:+ "sentiments" +:+ Config.dquote +:+ ": ["
  +:+ Py.join ", " ((λ l, Config.dquote +:+ l +:+ Config.dquote) <$> labels) +:+ "]}".

Fixpoint read_labels (s : string) (word : option string) (acc : list json)
    : result json :=
  match s with
  | EmptyString => Raise JSONDecodeError
  | String ch rest =>
      match word with
      | Some w =>
          if Ascii.eqb ch "034" then read_labels rest None (acc ++ [JStr w])
          else read_labels rest (Some (w +:+ String ch EmptyString)) acc
      | None =>
          if Ascii.eqb ch "034" then read_labels rest (Some EmptyString) acc
          else if Ascii.eqb ch "," || Ascii.eqb ch " " then read_labels rest None acc
          else if Ascii.eqb ch "]" && String.eqb rest "}"
               then Ok (JObj [("sentiments", JArr acc)])
               else Raise JSONDecodeError
      end
  end.

(** Stands in for [json.loads] in the examples: reads the documents that
    [reply] writes and rejects every other text. *)
Definition loads_labels (s : string) : result json :=
  let header := "{" +:+ Config.dquote +:+ "sentiments" +:+ Config.dquote +:+ ": [" in
  if String.prefix header s
  then read_labels (String.substring (String.length header) (String.length s) s) None []
  else Raise JSONDecodeError.

Definition cfg_batch2 : Config.config := {|
  Config.BASE_DATA_PATH := "data";
  Config.BATCH_SIZE := 2;
  Config.ANALYSIS_TOPIC := "nuclear power";
  Config.ANALYSIS_YEARS := [2024; 2025]%Z
|}.

Definition five_texts : list string := ["t1"; "t2"; "t3"; "t4"; "t5"].

(** Five texts in chunks of two: a full reply, a short reply, a failure. *)
Definition script_mixed : list (result (option string)) :=
  [Ok (Some (reply ["Positive"; "Negative"])); Ok (Some (reply ["Negative"]));
   Raise ApiError].

Example loads_reply :
  loads_labels (reply ["Positive"; "Negative"])
  = Ok (JObj [("sentiments", JArr [JStr "Positive"; JStr "Negative"])])
  ∧ loads_labels "I cannot answer that" = Raise JSONDecodeError.
Proof. split; vm_compute; reflexivity. Qed.

Example analyze_mixed :
  analyze_file nat (scripted script_mixed) loads_labels cfg_batch2 0 five_texts
  = (3, Ok (Saved [ {| text := "t1"; sentiment := Positive |};
                    {| text := "t2"; sentiment := Negative |};
                    {| text := "t3"; sentiment := Negative |};
                    {| text := "t4"; sentiment := Neutral |};
                    {| text := "t5"; sentiment := Neutral |} ])).
Proof. vm_compute. reflexivity. Qed.

Example analyze_backwards_step :
  (analyze_file nat (scripted script_mixed) loads_labels
     {| Config.BASE_DATA_PATH := "data"; Config.BATCH_SIZE := -3;
        Config.ANALYSIS_TOPIC := "x"; Config.ANALYSIS_YEARS := [] |} 0 ["t1"; "t2"])
  = (0, Ok (Saved [neutral_record "t1"; neutral_record "t2"])).
Proof. vm_compute. reflexivity. Qed.

Lemma analyze_file_one_label_per_record_witness :
  match (analyze_file nat (scripted script_mixed) loads_labels cfg_batch2 0 five_texts).2 with
  | Ok (Saved results) =>
      length (sentiment <$> results) = length five_texts
      ∧ text <$> results = five_texts
  | Ok NoData => five_texts = []
  | Raise _ => False
  end.
Proof.
  apply (analyze_file_one_label_per_record nat (scripted script_mixed) loads_labels
           cfg_batch2 0 five_texts).
  simpl. lia.
Defined.

Lemma failed_chunk_all_neutral_witness :
  classify_sentiment_batch nat (scripted [Ok (Some "I cannot answer that")])
    loads_labels cfg_batch2 0 ["t1"; "t2"]
  = (1, JArr (replicate 2 Neutral))
  ∧ process_batch nat (scripted [Ok (Some "I cannot answer that")])
      loads_labels cfg_batch2 0 [] ["t1"; "t2"]
    = (1, [] ++ (neutral_record <$> ["t1"; "t2"])).
Proof.
  apply (failed_chunk_all_neutral nat (scripted [Ok (Some "I cannot answer that")])
           loads_labels cfg_batch2 0 1 ["t1"; "t2"] []).
  apply (unparseable_json nat _ loads_labels cfg_batch2 0 ["t1"; "t2"] 1
           "I cannot answer that" JSONDecodeError); vm_compute; reflexivity.
Defined.

(** Four labels for five texts: the fifth label is [Neutral]. *)
Lemma classify_pad_truncate_witness :
  ∃ out,
    classify_sentiment_batch nat
      (scripted [Ok (Some (reply ["Positive"; "Negative"; "Neutral"; "Positive"]))])
      loads_labels cfg_batch2 0 five_texts = (1, JArr out)
    ∧ (4 < 5 → out = [Positive; Negative; Neutral; Positive] ++ replicate (5 - 4) Neutral)
    ∧ (5 < 4 → out = take 5 [Positive; Negative; Neutral; Positive])
    ∧ (4 = 5 → out = [Positive; Negative; Neutral; Positive]).
Proof.
  apply (classify_pad_truncate nat
           (scripted [Ok (Some (reply ["Positive"; "Negative"; "Neutral"; "Positive"]))])
           loads_labels cfg_batch2 0 1 five_texts
           (reply ["Positive"; "Negative"; "Neutral"; "Positive"])
           [("sentiments", JArr [Positive; Negative; Neutral; Positive])]
           [Positive; Negative; Neutral; Positive]).
  - vm_compute. reflexivity.
  - vm_compute. discriminate.
  - vm_compute. reflexivity.
  - vm_compute. reflexivity.
Defined.

(** C2 fails on the code: a label of the service's own choosing reaches
    the output unchanged. *)
Lemma service_label_reaches_output :
  (analyze_file nat (scripted [Ok (Some (reply ["Happy"]))]) loads_labels
     Config.default 0 ["what a day"]).2
  = Ok (Saved [ {| text := "what a day"; sentiment := JStr "Happy" |} ])
  ∧ ¬ valid_label (JStr "Happy").
Proof.
  split; [vm_compute; reflexivity|].
  unfold valid_label, Positive, Negative, Neutral. intros [H|[H|H]]; discriminate H.
Qed.

Lemma scripted_labels_valid :
  service_labels_valid nat (scripted [Ok (Some (reply ["Positive"; "Neutral"]))]) loads_labels.
Proof.
  intros c system user c' s members Hcreate Hloads.
  unfold scripted in Hcreate. destruct c as [|[|c]]; simpl in Hcreate;
    inversion Hcreate; subst.
  vm_compute in Hloads. inversion Hloads; subst.
  unfold labels_of. simpl.
  apply Forall_cons_2; [left; reflexivity|].
  apply Forall_cons_2; [right; right; reflexivity|].
  apply Forall_nil_2.
Defined.

Lemma labels_valid_when_service_labels_valid_witness :
  Forall (λ r, sentiment r = Neutral
               ∨ service_label nat (scripted [Ok (Some (reply ["Positive"; "Neutral"]))])
                   loads_labels cfg_batch2 (sentiment r))
    [ {| text := "t1"; sentiment := Positive |}; {| text := "t2"; sentiment := Neutral |} ]
  ∧ Forall (λ r, valid_label (sentiment r))
      [ {| text := "t1"; sentiment := Positive |}; {| text := "t2"; sentiment := Neutral |} ].
Proof.
  destruct (labels_valid_when_service_labels_valid nat
              (scripted [Ok (Some (reply ["Positive"; "Neutral"]))]) loads_labels
              cfg_batch2 0 ["t1"; "t2"]
              [ {| text := "t1"; sentiment := Positive |};
                {| text := "t2"; sentiment := Neutral |} ]) as [Horigin Hvalid].
  - vm_compute. reflexivity.
  - split; [exact Horigin | apply Hvalid, scripted_labels_valid].
Defined.

End SentimentAnalyzer.

(** ** Tables and files *)

Module Timestamp.
(** A naive (zone-free) point in time, as [tz_localize(None)] leaves it. *)
Record t : Type := { year : Z; month : Z; day : Z; hour : Z; minute : Z; second : Z }.
End Timestamp.

(** The content of a cell.  An empty cell ([NaN], [NaT]) is the absence
    of the column's key in the row. *)
Inductive cell : Type :=
| CStr (s : string)
| CNum (z : Z)
| CTime (t : Timestamp.t).

#[global] Instance timestamp_eq_dec : EqDecision Timestamp.t.
Proof. solve_decision. Defined.
#[global] Instance cell_eq_dec : EqDecision cell.
Proof. solve_decision. Defined.

Module Pd.

(** One row of a table ([pandas.Series]): column name to cell. *)
Abbreviation row := (gmap string cell).

Record DataFrame : Type := { columns : list string; rows : list row }.

Inductive file : Type :=
| Unreadable                 (* exists, but reading it as a table raises *)
| Workbook (df : DataFrame).

(** The files by path. *)
Abbreviation files := (gmap string file).

(** [os.path.exists(path)] *)
Definition exists_ (fs : files) (path : string) : Prop :=
  is_Some (fs !! path).

#[global] Instance exists_dec fs path : Decision (exists_ fs path).
Proof. unfold exists_. apply _. Defined.

(** [pd.read_excel(path)] *)
Definition read_excel (fs : files) (path : string) : result DataFrame :=
  match fs !! path with
  | Some (Workbook df) => Ok df
  | Some Unreadable => Raise ValueError
  | None => Raise OSError
  end.

(** [df.to_excel(path, index=False)]: the file is replaced as a whole. *)
Definition to_excel (fs : files) (path : string) (df : DataFrame) : files :=
  <[path := Workbook df]> fs.

(** [pd.concat([a, b], ignore_index=True)]: the rows of [a], then the
    rows of [b], over the columns of [a] followed by the new columns of
    [b]. *)
Definition concat (a b : DataFrame) : DataFrame :=
  {| columns := columns a ++ filter (λ c, c ∉ columns a) (columns b);
     rows := rows a ++ rows b |}.

(** [df[col]]: the cells of one column, [None] for an empty cell. *)
Definition column (df : DataFrame) (col : string) : list (option cell) :=
  (λ r : row, r !! col) <$> rows df.

(** [series.dropna()] *)
Definition dropna {A} (cells : list (option A)) : list A :=
  omap id cells.

(** [series.mode()[0]] of a non-empty series of integers: the most
    frequent value, the smallest one among equally frequent values. *)
Definition occurrences (y : Z) (ys : list Z) : nat :=
  length (filter (λ z, z = y) ys).

Definition mode (ys : list Z) : option Z :=
  match ys with
  | [] => None
  | y0 :: _ =>
      Some (foldr (λ y best,
              if (occurrences best ys <? occurrences y ys)
                 || ((occurrences best ys =? occurrences y ys) && (y <? best)%Z)
              then y else best) y0 ys)
  end.

End Pd.

Module Path.

(** [os.path] as [ntpath] defines it: the paths of the sources are
    Windows paths.  A separator is a backslash or a slash. *)

Definition is_sep (c : ascii) : bool :=
  Ascii.eqb c "\" || Ascii.eqb c "/".

Fixpoint has_sep (s : string) : bool :=
  match s with
  | EmptyString => false
  | String c s' => is_sep c || has_sep s'
  end.

(** The characters after the last separator. *)
Fixpoint tail (s : string) : string :=
  match s with
  | EmptyString => EmptyString
  | String c s' =>
      if has_sep s' then tail s'
      else if is_sep c then s' else s
  end.

(** [p[:n]] and [p[n:]] *)
Fixpoint prefix_to (n : nat) (p : string) : string :=
  match n, p with
  | S k, String c p' => String c (prefix_to k p')
  | _, _ => EmptyString
  end.

Fixpoint suffix_from (n : nat) (p : string) : string :=
  match n, p with
  | S k, String _ p' => suffix_from k p'
  | _, _ => p
  end.

(** [normp.find(sep, start)], where [normp] is [p] with every ["/"]
    replaced by a backslash: the position of the first separator at or
    after [start]. *)
Fixpoint find_sep (p : string) (start : nat) : option nat :=
  match p with
  | EmptyString => None
  | String c p' =>
      match start with
      | O => if is_sep c then Some 0 else S <$> find_sep p' 0
      | S k => S <$> find_sep p' k
      end
  end.

Definition is_letter (upper lower c : ascii) : bool :=
  Ascii.eqb c upper || Ascii.eqb c lower.

(** [normp[:8].upper() == '\\\\?\\UNC\\'] *)
Definition is_unc_prefix (p : string) : bool :=
  match p with
  | String a (String b (String c (String d (String e (String f (String g (String h _))))))) =>
      is_sep a && is_sep b && Ascii.eqb c "?" && is_sep d
      && is_letter "U" "u" e && is_letter "N" "n" f && is_letter "C" "c" g && is_sep h
  | _ => false
  end.

(** [ntpath.splitdrive]: the drive or UNC share point, and the rest. *)
Definition splitdrive (p : string) : string * string :=
  match p with
  | String c0 (String c1 rest) =>
      if is_sep c0 && is_sep c1 then
        match find_sep p (if is_unc_prefix p then 8 else 2) with
        | None => (p, EmptyString)
        | Some index =>
            match find_sep p (index + 1) with
            | None => (p, EmptyString)
            | Some index2 => (prefix_to index2 p, suffix_from index2 p)
            end
        end
      else if Ascii.eqb c1 ":" then (String c0 (String c1 EmptyString), rest)
      else (EmptyString, p)
  | _ => (EmptyString, p)
  end.

(** [ntpath.basename]: what follows the last separator of the path
    without its drive. *)
Definition basename (path : string) : string := tail (splitdrive path).2.

Fixpoint last_char (s : string) : option ascii :=
  match s with
  | EmptyString => None
  | String c EmptyString => Some c
  | String _ s' => last_char s'
  end.

Definition nonempty (s : string) : bool :=
  match s with
  | EmptyString => false
  | _ => true
  end.

Definition first_is_sep (s : string) : bool :=
  match s with
  | String c _ => is_sep c
  | EmptyString => false
  end.

Definition last_is (test : ascii → bool) (s : string) : bool :=
  match last_char s with
  | Some c => test c
  | None => false
  end.

(** [ntpath.join(path, p)] *)
Definition join (path p : string) : string :=
  let '(result_drive, result_path) := splitdrive path in
  let '(p_drive, p_path) := splitdrive p in
  let finish (result_drive result_path : string) : string :=
    if nonempty result_path && negb (first_is_sep result_path)
       && nonempty result_drive && negb (last_is (Ascii.eqb ":") result_drive)
    then result_drive +:+ "\" +:+ result_path
    else result_drive +:+ result_path in
  let relative (result_drive : string) : string :=
    finish result_drive
      ((if nonempty result_path && negb (last_is is_sep result_path)
        then result_path +:+ "\" else result_path) +:+ p_path) in
  if first_is_sep p_path then
    finish (if nonempty p_drive || negb (nonempty result_drive)
            then p_drive else result_drive) p_path
  else if nonempty p_drive && negb (String.eqb p_drive result_drive) then
    if negb (String.eqb (Py.lower p_drive) (Py.lower result_drive))
    then finish p_drive p_path
    else relative p_drive
  else relative result_drive.

End Path.

Example basename_ex :
  Path.basename "C:\data\results_2024_sentiment.xlsx" = "results_2024_sentiment.xlsx"
  ∧ Path.join "C:\data" "2024_Q1.xlsx" = "C:\data\2024_Q1.xlsx".
Proof. split; reflexivity. Qed.

Example splitdrive_ex :
  Path.splitdrive "C:\data\a.xlsx" = ("C:", "\data\a.xlsx")
  ∧ Path.splitdrive "\\server\share\data\a.xlsx" = ("\\server\share", "\data\a.xlsx")
  ∧ Path.splitdrive "\\server\share" = ("\\server\share", "")
  ∧ Path.splitdrive "data:" = ("", "data:").
Proof. repeat split. Qed.

Example join_ex :
  Path.join "data:" "a.xlsx" = "data:\a.xlsx"
  ∧ Path.join "C:" "a.xlsx" = "C:a.xlsx"
  ∧ Path.join "C:\data\" "a.xlsx" = "C:\data\a.xlsx"
  ∧ Path.join "\\server\share" "a.xlsx" = "\\server\share\a.xlsx"
  ∧ Path.join "C:\data" "D:a.xlsx" = "D:a.xlsx"
  ∧ Path.join "c:\data" "C:a.xlsx" = "C:\data\a.xlsx"
  ∧ Path.join "C:\data" "\a.xlsx" = "C:\a.xlsx".
Proof. repeat split. Qed.

Example mode_ex : Pd.mode [2025; 2024; 2025; 2024; 2023]%Z = Some 2024%Z.
Proof. reflexivity. Qed.

(** ** divide_by_quarter.py *)

Module QuarterlyDataProcessor.

Import Pd.

Definition get_quarter (month : Z) : string :=
  if ((1 <=? month) && (month <=? 3))%Z then "Q1"
  else if ((4 <=? month) && (month <=? 6))%Z then "Q2"
  else if ((7 <=? month) && (month <=? 9))%Z then "Q3"
  else "Q4".

(** [quarterly_data]: the dict from quarter name to the rows collected
    for it, as its items in insertion order. *)
Abbreviation quarterly_data := (list (string * list row)).

Definition empty_quarterly_data : quarterly_data :=
  [("Q1", []); ("Q2", []); ("Q3", []); ("Q4", [])].

(** [quarterly_data[quarter].append(row)] *)
Fixpoint append_to (quarter : string) (r : row) (qd : quarterly_data)
    : result quarterly_data :=
  match qd with
  | [] => Raise KeyError
  | (k, collected) :: rest =>
      if String.eqb k quarter then Ok ((k, collected ++ [r]) :: rest)
      else rest' ← append_to quarter r rest; Ok ((k, collected) :: rest')
  end.

Record tally : Type := {
  quarterly : quarterly_data;
  processed_count : nat;
  skipped_count : nat
}.

(** What [process_single_file] prints at its end. *)
Inductive outcome : Type :=
| Generated (processed skipped : nat) (saved_files : list string)
| Failed (e : exn).

Definition timestamp_column : string := "UTC_Time".

Section Processor.

(** How one non-empty cell reads as a point in time
    ([pd.to_datetime(..., errors='coerce')] followed by
    [tz_localize(None)]); [None] when it does not. *)
Variable parse_timestamp : cell → option Timestamp.t.

Variable cfg : Config.config.

(** [self.source_folder = source_folder or Config.BASE_DATA_PATH] *)
Definition init (source_folder : option string) : string :=
  match source_folder with
  | Some (String c s) => String c s
  | _ => Config.BASE_DATA_PATH cfg
  end.

(** The timestamp a raw row carries, if any. *)
Definition parsed (r : row) : option Timestamp.t :=
  r !! timestamp_column ≫= parse_timestamp.

(** The effect on one row of replacing the timestamp column by its
    conversion: a time, or an empty cell.  The conversion is taken cell
    by cell. *)
Definition to_datetime (r : row) : row :=
  match parsed r with
  | Some t => <[timestamp_column := CTime t]> r
  | None => delete timestamp_column r
  end.

(** The year in the partition names: the last ["_"] piece of the file
    name up to its first ["."] when that is a number, else the most
    frequent year of the data, else ["unknown"].  No statement of the
    inner [try] raises, so its bare [except] has no case here. *)
Definition resolve_year (file_path : string) (df : DataFrame) : string :=
  let filename := Path.basename file_path in
  let year :=
    default "" (head (Py.split "." (default "" (last (Py.split "_" filename))))) in
  if negb (Py.isdigit year) then
    let valid_dates := dropna (column df timestamp_column) in
    match mode (omap (λ c, match c with
                           | CTime t => Some (Timestamp.year t)
                           | _ => None
                           end) valid_dates) with
    | Some y => Py.str y
    | None => "unknown"
    end
  else year.

(** One turn of [for _, row in df.iterrows()]. *)
Definition bucket_row (acc : result tally) (r : row) : result tally :=
  t ← acc;
  match r !! timestamp_column with
  | Some (CTime ts) =>
      let quarter := get_quarter (Timestamp.month ts) in
      qd ← append_to quarter r (quarterly t);
      Ok {| quarterly := qd;
            processed_count := S (processed_count t);
            skipped_count := skipped_count t |}
  | Some _ => Raise AttributeError
  | None =>
      Ok {| quarterly := quarterly t;
            processed_count := processed_count t;
            skipped_count := S (skipped_count t) |}
  end.

Definition bucket_rows (table : list row) : result tally :=
  foldl bucket_row
    (Ok {| quarterly := empty_quarterly_data; processed_count := 0; skipped_count := 0 |})
    table.

(** The body of the save loop for a quarter with rows: merge with the
    existing file if there is one, write the file, name it. *)
Definition save_quarter (year : string) (cols : list string) (fs : files)
    (quarter : string) (collected : list row) : result (files * string) :=
  let quarter_file_path := Config.get_quarterly_file_path cfg year quarter in
  let fresh := {| columns := cols; rows := collected |} in
  new_df ← (if decide (exists_ fs quarter_file_path) then
               existing_df ← read_excel fs quarter_file_path;
               Ok (concat existing_df fresh)
             else Ok fresh);
  Ok (to_excel fs quarter_file_path new_df,
      year +:+ "_" +:+ quarter +:+ ".xlsx ("
      +:+ Py.str (Z.of_nat (length collected)) +:+ " records)").

(** [for quarter, rows in quarterly_data.items()]: the first read that
    raises ends the loop; the files written before it stay written. *)
Fixpoint save_loop (year : string) (cols : list string) (items : quarterly_data)
    (fs : files) (saved_files : list string) : files * result (list string) :=
  match items with
  | [] => (fs, Ok saved_files)
  | (quarter, collected) :: rest =>
      match collected with
      | [] => save_loop year cols rest fs saved_files
      | _ =>
          match save_quarter year cols fs quarter collected with
          | Ok (fs', entry) => save_loop year cols rest fs' (saved_files ++ [entry])
          | Raise e => (fs, Raise e)
          end
      end
  end.

(** The [try] block of [process_single_file]. *)
Definition process_single_file_try (fs : files) (file_path : string)
    : files * result outcome :=
  match read_excel fs file_path with
  | Raise e => (fs, Raise e)
  | Ok df =>
      if decide (timestamp_column ∈ columns df) then
        let df := {| columns := columns df; rows := to_datetime <$> rows df |} in
        let year := resolve_year file_path df in
        match bucket_rows (rows df) with
        | Raise e => (fs, Raise e)
        | Ok t =>
            let '(fs', saved) := save_loop year (columns df) (quarterly t) fs [] in
            (fs', saved_files ← saved;
                  Ok (Generated (processed_count t) (skipped_count t) saved_files))
        end
      else (fs, Raise ValueError)
  end.

(** [process_single_file]: whatever the try block raises is reported
    and goes no further. *)
Definition process_single_file (fs : files) (file_path : string) : files * outcome :=
  let '(fs', r) := process_single_file_try fs file_path in
  (fs', match r with
        | Ok o => o
        | Raise e => Failed e
        end).

(** [for file in files: self.process_single_file(...)] *)
Definition process_files (source_folder : string) (names : list string) (fs : files)
    : files * list outcome :=
  foldl (λ acc name,
           let '(fs', o) := process_single_file acc.1 (Path.join source_folder name) in
           (fs', acc.2 ++ [o]))
        (fs, []) names.

Definition process_all_files (source_folder : string) (fs : files)
    : files * list outcome :=
  if decide (exists_ fs source_folder) then
    let names :=
      filter (λ filename, exists_ fs (Path.join source_folder filename))
             ((λ year, "results_" +:+ Py.str year +:+ "_sentiment.xlsx")
                <$> Config.ANALYSIS_YEARS cfg) in
    match names with
    | [] => (fs, [])
    | _ => process_files source_folder names fs
    end
  else (fs, []).

(** The quarter whose bucket a converted row goes to, if any. *)
Definition quarter_of (r : row) : option string :=
  match r !! timestamp_column with
  | Some (CTime ts) => Some (get_quarter (Timestamp.month ts))
  | _ => None
  end.

(** A table whose timestamp column holds times and empty cells only,
    as the conversion leaves it. *)
Definition converted (table : list row) : Prop :=
  Forall (λ r : row, match r !! timestamp_column with
                     | Some (CTime _) | None => True
                     | Some _ => False
                     end) table.

(** *** The quarter of a month *)

Lemma get_quarter_cases (month : Z) :
  (1 ≤ month ≤ 3 ∧ get_quarter month = "Q1")%Z
  ∨ (4 ≤ month ≤ 6 ∧ get_quarter month = "Q2")%Z
  ∨ (7 ≤ month ≤ 9 ∧ get_quarter month = "Q3")%Z
  ∨ ((month < 1 ∨ 9 < month) ∧ get_quarter month = "Q4")%Z.
Proof.
  unfold get_quarter.
  destruct (Z.leb_spec 1 month) as [?|?], (Z.leb_spec month 3) as [?|?],
    (Z.leb_spec 4 month) as [?|?], (Z.leb_spec month 6) as [?|?],
    (Z.leb_spec 7 month) as [?|?], (Z.leb_spec month 9) as [?|?];
    simpl; try lia;
    first [ left; split; [lia | reflexivity]
          | right; left; split; [lia | reflexivity]
          | right; right; left; split; [lia | reflexivity]
          | right; right; right; split; [lia | reflexivity] ].
Qed.

(** C10. [get_quarter] yields one of the four quarter names for every
    integer, and ["Q4"] for every integer outside 1..9, among them 0,
    13 and the negative numbers. *)
Theorem get_quarter_total_catch_all (month : Z) :
  get_quarter month ∈ ["Q1"; "Q2"; "Q3"; "Q4"]
  ∧ ((month < 1 ∨ 9 < month)%Z → get_quarter month = "Q4").
Proof.
  destruct (get_quarter_cases month) as [[H Hq]|[[H Hq]|[[H Hq]|[H Hq]]]];
    rewrite Hq; (split; [rewrite !elem_of_cons; auto 6 | intros; lia || reflexivity]).
Qed.

(** *** The bucket loop *)

Lemma filter_snoc {A} (P : A → Prop) `{!∀ x, Decision (P x)} (l : list A) (x : A) :
  filter P (l ++ [x]) = if decide (P x) then filter P l ++ [x] else filter P l.
Proof.
  rewrite filter_app, filter_cons, filter_nil.
  case_decide; [done | by rewrite app_nil_r].
Qed.

Lemma bucket_rows_snoc table r :
  bucket_rows (table ++ [r]) = bucket_row (bucket_rows table) r.
Proof. unfold bucket_rows. by rewrite foldl_app. Qed.

(** The loop sorts the rows that carry a time into the four buckets,
    in table order, and counts the others. *)
Lemma bucket_rows_spec table :
  converted table →
  bucket_rows table
  = Ok {| quarterly :=
            (λ q, (q, filter (λ r, quarter_of r = Some q) table))
              <$> ["Q1"; "Q2"; "Q3"; "Q4"];
          processed_count := length (filter (λ r, is_Some (quarter_of r)) table);
          skipped_count := length (filter (λ r, quarter_of r = None) table) |}.
Proof.
  induction table as [|r table IH] using rev_ind; intros Hconv; [done|].
  apply Forall_app in Hconv as [Hconv Hr]. apply Forall_cons in Hr as [Hr _].
  rewrite bucket_rows_snoc, IH by done. clear IH. simpl.
  rewrite !filter_snoc.
  destruct (r !! timestamp_column) as [[| |ts]|] eqn:Hts; try done; simpl.
  - assert (quarter_of r = Some (get_quarter (Timestamp.month ts))) as ->
        by (unfold quarter_of; by rewrite Hts).
    rewrite (decide_True (P := is_Some _)) by eauto.
    rewrite (decide_False (P := Some _ = None)) by done.
    destruct (get_quarter_cases (Timestamp.month ts))
      as [[_ Hq]|[[_ Hq]|[[_ Hq]|[_ Hq]]]]; rewrite Hq; simpl;
      rewrite length_app; simpl; repeat f_equal; lia.
  - assert (quarter_of r = None) as -> by (unfold quarter_of; by rewrite Hts).
    repeat (rewrite decide_False by (intros [=] || (intros [? [=]]))).
    rewrite decide_True by done.
    rewrite length_app; simpl; repeat f_equal; lia.
Qed.

Lemma to_datetime_lookup r :
  to_datetime r !! timestamp_column = CTime <$> parsed r.
Proof.
  unfold to_datetime. destruct (parsed r) as [t|]; simpl.
  - apply lookup_insert_eq.
  - apply lookup_delete_eq.
Qed.

Lemma quarter_of_to_datetime r :
  quarter_of (to_datetime r) = (λ t, get_quarter (Timestamp.month t)) <$> parsed r.
Proof.
  unfold quarter_of. rewrite to_datetime_lookup. by destruct (parsed r).
Qed.

Lemma converted_to_datetime rs : converted (to_datetime <$> rs).
Proof.
  apply Forall_fmap, Forall_forall. intros r _. simpl.
  rewrite to_datetime_lookup. by destruct (parsed r).
Qed.

Lemma length_filter_fmap {A B} (f : A → B) (P : B → Prop) (Q : A → Prop)
    `{!∀ y, Decision (P y)} `{!∀ x, Decision (Q x)} (l : list A) :
  (∀ x, P (f x) ↔ Q x) →
  length (filter P (f <$> l)) = length (filter Q l).
Proof.
  intros HPQ. induction l as [|x l IH]; [done|].
  rewrite fmap_cons, !filter_cons.
  destruct (decide (P (f x))) as [HP|HP], (decide (Q x)) as [HQ|HQ];
    simpl; rewrite ?IH; try done; exfalso.
  - by apply HQ, HPQ.
  - by apply HP, HPQ.
Qed.

Lemma length_filter_parsed rs :
  length (filter (λ r, is_Some (parsed r)) rs)
  + length (filter (λ r, parsed r = None) rs) = length rs.
Proof.
  induction rs as [|r rs IH]; [done|].
  rewrite !filter_cons.
  destruct (parsed r) as [t|] eqn:Hp.
  - rewrite decide_True by eauto. rewrite decide_False by done. simpl. lia.
  - rewrite decide_False by (by intros [? ?]). rewrite decide_True by done.
    simpl. lia.
Qed.

(** C8. Months 1-3 give Q1, 4-6 give Q2, 7-9 give Q3 and 10-12 give Q4;
    and the bucket loop over a table counts every row whose timestamp
    is missing or does not parse as skipped, counts every other row as
    processed, and places no skipped row in any of the buckets. *)
Theorem quarter_of_month_and_skipped_rows (rs : list row) :
  (∀ month, (1 ≤ month ≤ 3)%Z → get_quarter month = "Q1")
  ∧ (∀ month, (4 ≤ month ≤ 6)%Z → get_quarter month = "Q2")
  ∧ (∀ month, (7 ≤ month ≤ 9)%Z → get_quarter month = "Q3")
  ∧ (∀ month, (10 ≤ month ≤ 12)%Z → get_quarter month = "Q4")
  ∧ ∃ t, bucket_rows (to_datetime <$> rs) = Ok t
      ∧ skipped_count t = length (filter (λ r, parsed r = None) rs)
      ∧ processed_count t + skipped_count t = length rs
      ∧ ∀ r quarter collected,
          r ∈ rs → parsed r = None → (quarter, collected) ∈ quarterly t →
          to_datetime r ∉ collected.
Proof.
  repeat split.
  1-4: intros month Hm;
       destruct (get_quarter_cases month) as [[H Hq]|[[H Hq]|[[H Hq]|[H Hq]]]];
       (exact Hq || lia).
  eexists. split; [apply bucket_rows_spec, converted_to_datetime|]. simpl.
  assert (length (filter (λ r, quarter_of r = None) (to_datetime <$> rs))
          = length (filter (λ r, parsed r = None) rs)) as Hskip.
  { apply length_filter_fmap. intros r. rewrite quarter_of_to_datetime.
    by destruct (parsed r). }
  assert (length (filter (λ r, is_Some (quarter_of r)) (to_datetime <$> rs))
          = length (filter (λ r, is_Some (parsed r)) rs)) as Hproc.
  { apply length_filter_fmap. intros r. rewrite quarter_of_to_datetime.
    destruct (parsed r); simpl; [split; eauto|].
    split; by intros [? ?]. }
  split; [exact Hskip|]. split.
  { rewrite Hskip, Hproc. apply length_filter_parsed. }
  intros r quarter collected Hr Hnone Hin Hmem.
  assert (∃ q, collected = filter (λ r', quarter_of r' = Some q) (to_datetime <$> rs))
    as [q ->].
  { rewrite !elem_of_cons in Hin.
    destruct Hin as [[= _ ->]|[[= _ ->]|[[= _ ->]|[[= _ ->]|Hin]]]]; eauto.
    by apply elem_of_nil in Hin. }
  apply list_elem_of_filter in Hmem as [Hq _].
  rewrite quarter_of_to_datetime, Hnone in Hq. done.
Qed.

(** *** Merging into an existing partition *)

(** C7. Merging a bucket into an existing partition appends its rows
    after the existing ones, without removing duplicates: merging the
    same [N] rows twice into a partition of [M] rows leaves [M + 2N]
    rows, the first [M] of them the original ones. *)
Theorem merge_twice_appends_twice (year : string) (cols : list string) (fs : files)
    (quarter : string) (existing : DataFrame) (collected : list row) :
  fs !! Config.get_quarterly_file_path cfg year quarter = Some (Workbook existing) →
  ∃ fs1 entry1 fs2 entry2 merged,
    save_quarter year cols fs quarter collected = Ok (fs1, entry1)
    ∧ save_quarter year cols fs1 quarter collected = Ok (fs2, entry2)
    ∧ fs2 !! Config.get_quarterly_file_path cfg year quarter = Some (Workbook merged)
    ∧ rows merged = rows existing ++ collected ++ collected
    ∧ length (rows merged) = length (rows existing) + 2 * length collected
    ∧ take (length (rows existing)) (rows merged) = rows existing.
Proof.
  intros Hfile. unfold save_quarter.
  set (path := Config.get_quarterly_file_path cfg year quarter) in *.
  rewrite decide_True by (unfold exists_; eauto).
  unfold read_excel at 1. rewrite Hfile. simpl.
  do 2 eexists.
  rewrite decide_True by (unfold exists_, to_excel; rewrite lookup_insert_eq; eauto).
  unfold read_excel, to_excel. rewrite lookup_insert_eq. simpl.
  do 3 eexists. split; [reflexivity|]. split; [reflexivity|].
  split; [apply lookup_insert_eq|]. simpl.
  split; [by rewrite <- app_assoc|].
  split.
  - rewrite !length_app. lia.
  - rewrite <- app_assoc. by rewrite take_app_length.
Qed.

(** *** A partition that cannot be read *)



Lemma process_files_log folder names fs log :
  foldl (λ acc name,
           let '(fs', o) := process_single_file acc.1 (Path.join folder name) in
           (fs', acc.2 ++ [o])) (fs, log) names
  = ((process_files folder names fs).1, log ++ (process_files folder names fs).2).
Proof.
  unfold process_files. revert fs log.
  induction names as [|name names IH]; intros fs log; simpl.
  - by rewrite app_nil_r.
  - destruct (process_single_file fs (Path.join folder name)) as [fs' o]. simpl.
    rewrite (IH fs' (log ++ [o])), (IH fs' [o]). simpl.
    by rewrite <- app_assoc.
Qed.

Lemma process_files_cons folder name names fs :
  process_files folder (name :: names) fs
  = ((process_files folder names (process_single_file fs (Path.join folder name)).1).1,
     (process_single_file fs (Path.join folder name)).2
       :: (process_files folder names
             (process_single_file fs (Path.join folder name)).1).2).
Proof.
  unfold process_files at 1. simpl.
  destruct (process_single_file fs (Path.join folder name)) as [fs' o]. simpl.
  by rewrite process_files_log.
Qed.

(** Every file of the batch is attempted and reported, whatever
    happened to the files before it. *)
Lemma process_files_all_reported folder names fs :
  length (process_files folder names fs).2 = length names.
Proof.
  revert fs. induction names as [|name names IH]; intros fs; [done|].
  rewrite process_files_cons. simpl. by rewrite IH.
Qed.


End Processor.

(** *** A small data folder, for the examples *)

(** Reads the cells that already hold a time; text and numbers do not
    parse. *)
Definition parse_plain (c : cell) : option Timestamp.t :=
  match c with
  | CTime t => Some t
  | _ => None
  end.

Definition cfg_data : Config.config := {|
  Config.BASE_DATA_PATH := "data";
  Config.BATCH_SIZE := 30;
  Config.ANALYSIS_TOPIC := "nuclear power";
  Config.ANALYSIS_YEARS := [2024; 2025]%Z
|}.

Definition in_2024 (month : Z) : Timestamp.t :=
  {| Timestamp.year := 2024; Timestamp.month := month; Timestamp.day := 15;
     Timestamp.hour := 12; Timestamp.minute := 0; Timestamp.second := 0 |}.

Definition record (txt label : string) (stamp : option cell) : row :=
  let r : row := <["text" := CStr txt]> (<["sentiment" := CStr label]> ∅) in
  match stamp with
  | Some c => <[timestamp_column := c]> r
  | None => r
  end.

Definition cols3 : list string := ["text"; "sentiment"; "UTC_Time"].

Definition row_jan : row := record "a" "Positive" (Some (CTime (in_2024 1))).
Definition row_apr : row := record "b" "Negative" (Some (CTime (in_2024 4))).
Definition row_jul : row := record "c" "Neutral" (Some (CTime (in_2024 7))).
Definition row_oct : row := record "d" "Positive" (Some (CTime (in_2024 10))).
Definition row_text : row := record "e" "Neutral" (Some (CStr "yesterday")).
Definition row_blank : row := record "f" "Neutral" None.

(** The folder [data] holding one classified file; the entry for the
    folder itself exists and is not a table. *)
Definition folder_with (input : list row) : files :=
  <["data\results_2024_sentiment.xlsx" := Workbook {| columns := cols3; rows := input |}]>
    (<["data" := Unreadable]> ∅).

(** Four rows, one per quarter of 2024: four partitions of one row. *)
Example one_partition_per_quarter :
  let fs := (process_all_files parse_plain cfg_data "data"
               (folder_with [row_jan; row_apr; row_jul; row_oct])).1 in
  fs !! "data\2024_Q1.xlsx" = Some (Workbook {| columns := cols3; rows := [row_jan] |})
  ∧ fs !! "data\2024_Q2.xlsx" = Some (Workbook {| columns := cols3; rows := [row_apr] |})
  ∧ fs !! "data\2024_Q3.xlsx" = Some (Workbook {| columns := cols3; rows := [row_jul] |})
  ∧ fs !! "data\2024_Q4.xlsx" = Some (Workbook {| columns := cols3; rows := [row_oct] |}).
Proof. repeat split; vm_compute; reflexivity. Qed.

(** The same input processed twice: every partition holds its row twice. *)
Example second_run_doubles :
  let fs1 := (process_all_files parse_plain cfg_data "data"
                (folder_with [row_jan; row_text; row_oct])).1 in
  let fs2 := (process_all_files parse_plain cfg_data "data" fs1).1 in
  fs2 !! "data\2024_Q1.xlsx"
  = Some (Workbook {| columns := cols3; rows := [row_jan; row_jan] |})
  ∧ fs2 !! "data\2024_Q4.xlsx"
    = Some (Workbook {| columns := cols3; rows := [row_oct; row_oct] |}).
Proof. repeat split; vm_compute; reflexivity. Qed.

Lemma get_quarter_total_catch_all_witness :
  get_quarter 13 = "Q4" ∧ get_quarter 0 = "Q4" ∧ get_quarter (-5) = "Q4".
Proof.
  split; [|split].
  - apply (get_quarter_total_catch_all 13). lia.
  - apply (get_quarter_total_catch_all 0). lia.
  - apply (get_quarter_total_catch_all (-5)). lia.
Defined.

Lemma quarter_of_month_and_skipped_rows_witness :
  get_quarter 2 = "Q1" ∧ get_quarter 5 = "Q2" ∧ get_quarter 8 = "Q3"
  ∧ get_quarter 11 = "Q4"
  ∧ ∃ t, bucket_rows (to_datetime parse_plain <$> [row_jan; row_text; row_blank]) = Ok t
      ∧ skipped_count t = 2
      ∧ to_datetime parse_plain row_text ∉ default [] (snd <$> quarterly t !! 0).
Proof.
  destruct (quarter_of_month_and_skipped_rows parse_plain [row_jan; row_text; row_blank])
    as (H1 & H2 & H3 & H4 & t & Ht & Hskip & _ & Hout).
  split; [apply H1; lia|]. split; [apply H2; lia|].
  split; [apply H3; lia|]. split; [apply H4; lia|].
  exists t. split; [exact Ht|]. split; [rewrite Hskip; vm_compute; reflexivity|].
  destruct (quarterly t !! 0) as [[quarter collected]|] eqn:Hq; simpl.
  - apply (Hout row_text quarter collected).
    + rewrite !elem_of_cons. auto.
    + reflexivity.
    + eapply list_elem_of_lookup_2. exact Hq.
  - apply not_elem_of_nil.
Defined.

Definition folder_with_q1 : files :=
  <["data\2024_Q1.xlsx" := Workbook {| columns := cols3; rows := [row_jan] |}]> ∅.

Lemma merge_twice_appends_twice_witness :
  ∃ fs1 entry1 fs2 entry2 merged,
    save_quarter cfg_data "2024" cols3 folder_with_q1 "Q1" [row_jan; row_jan] = Ok (fs1, entry1)
    ∧ save_quarter cfg_data "2024" cols3 fs1 "Q1" [row_jan; row_jan] = Ok (fs2, entry2)
    ∧ fs2 !! Config.get_quarterly_file_path cfg_data "2024" "Q1" = Some (Workbook merged)
    ∧ rows merged = [row_jan] ++ [row_jan; row_jan] ++ [row_jan; row_jan]
    ∧ length (rows merged) = 1 + 2 * 2
    ∧ take 1 (rows merged) = [row_jan].
Proof.
  apply (merge_twice_appends_twice cfg_data "2024" cols3 folder_with_q1 "Q1"
           {| columns := cols3; rows := [row_jan] |} [row_jan; row_jan]).
  vm_compute. reflexivity.
Defined.





End QuarterlyDataProcessor.

(** ** Binary floating point numbers *)

Module Float64.

(** [floor (log2 x)] for a positive [x]. *)
Definition ilog2 (x : Q) : Z :=
  let k := (Z.log2 (Qnum x) - Z.log2 (Zpos (Qden x)))%Z in
  if Qle_bool (2 ^ k)%Q x then k else (k - 1)%Z.

(** The integer nearest to [s], the even one of two equally near. *)
Definition nearest_even (s : Q) : Z :=
  let f := Qfloor s in
  match (s - inject_Z f ?= 1 # 2)%Q with
  | Lt => f
  | Gt => (f + 1)%Z
  | Eq => if Z.even f then f else (f + 1)%Z
  end.

(** A positive [x] rounded to 53 significant bits: with [e] the
    exponent of its last bit, [x / 2^e] lies between [2^52] and [2^53]
    and is rounded to an integer. *)
Definition round_pos (x : Q) : Q :=
  let e := (ilog2 x - 52)%Z in
  (inject_Z (nearest_even (x * 2 ^ (- e))) * 2 ^ e)%Q.

(** Round to nearest, ties to even.  The exponent range of binary64
    (results below [2^-1022] or from [2^1024] on) is not represented; the
    values computed here are 0 or lie between [2^-64] and 200 for every
    table of fewer than [2^63] rows. *)
Definition round (x : Q) : Q :=
  let x := Qred x in
  match Qnum x with
  | Z0 => 0%Q
  | Zpos _ => Qred (round_pos x)
  | Zneg _ => Qred (- round_pos (- x))%Q
  end.

(** The conversion of an integer and the three operations of the
    source.  [div] is applied to a non-zero divisor only. *)
Definition of_int (n : Z) : Q := round (inject_Z n).
Definition add (x y : Q) : Q := round (x + y)%Q.
Definition mul (x y : Q) : Q := round (x * y)%Q.
Definition div (x y : Q) : Q := round (x / y)%Q.

(** The value of a machine float, to compare the operations above with
    those of the processor. *)
Definition of_spec (f : spec_float) : option Q :=
  match f with
  | S754_zero _ => Some 0%Q
  | S754_finite s m e =>
      Some (Qred ((if s then -1 else 1) * inject_Z (Zpos m) * 2 ^ e)%Q)
  | _ => None
  end.

Definition of_prim (f : float) : option Q := of_spec (Prim2SF f).

(** Half a unit in the last place, relative to the value: [2^-53]. *)
Definition u : Q := 1 # 9007199254740992.

(** [x] is [y] up to [k] roundings. *)
Definition within (k : nat) (x y : Q) : Prop :=
  (y * (1 - u) ^ Z.of_nat k <= x)%Q ∧ (x <= y * (1 + u) ^ Z.of_nat k)%Q.

(** The bound on three roundings used below: [2^-51]. *)
Definition eps : Q := 1 # 2251799813685248.

(** *** Rounding *)

Lemma pow2_pos (e : Z) : (0 < 2 ^ e)%Q.
Proof. by apply Qpower_0_lt. Qed.

Lemma pow2_add (a b : Z) : (2 ^ (a + b) == 2 ^ a * 2 ^ b)%Q.
Proof. by apply Qpower_plus. Qed.

Lemma pow2_opp (a : Z) : (2 ^ (- a) * 2 ^ a == 1)%Q.
Proof.
  rewrite <- pow2_add. replace (- a + a)%Z with 0%Z by lia. reflexivity.
Qed.

Lemma pow2_Z (a : Z) : (0 <= a)%Z → (inject_Z (2 ^ a) == 2 ^ a)%Q.
Proof. intros Ha. by rewrite Zpower_Qpower. Qed.

Lemma ilog2_spec (x : Q) :
  (0 < x)%Q → (2 ^ ilog2 x <= x)%Q ∧ (x < 2 ^ (ilog2 x + 1))%Q.
Proof.
  intros Hx. unfold ilog2.
  destruct x as [n d]. cbn [Qnum Qden].
  assert (0 < n)%Z as Hn by (unfold Qlt in Hx; simpl in Hx; lia).
  pose proof (Z.log2_spec n Hn) as [Ha1 Ha2].
  pose proof (Z.log2_spec (Z.pos d) (Pos2Z.is_pos d)) as [Hb1 Hb2].
  pose proof (Z.log2_nonneg n) as Ha0.
  pose proof (Z.log2_nonneg (Z.pos d)) as Hb0.
  set (a := Z.log2 n) in *. set (b := Z.log2 (Z.pos d)) in *.
  assert (n # d == inject_Z n / inject_Z (Z.pos d))%Q as Hxd by apply Qmake_Qdiv.
  assert (0 < inject_Z (Z.pos d))%Q as HD by (unfold Qlt; simpl; lia).
  assert ((n # d) * inject_Z (Z.pos d) == inject_Z n)%Q as Hmul.
  { rewrite Hxd. field. intros H0. rewrite H0 in HD. by apply Qlt_irrefl in HD. }
  rewrite Zle_Qle in Ha1, Hb1. rewrite Zlt_Qlt in Ha2, Hb2.
  rewrite pow2_Z in Ha1, Hb1 by lia.
  rewrite pow2_Z in Ha2, Hb2 by lia.
  unfold Z.succ in Ha2, Hb2. rewrite pow2_add in Ha2, Hb2.
  change (2 ^ 1)%Q with 2%Q in Ha2, Hb2.
  assert (2 ^ (a - b) * 2 ^ b == 2 ^ a)%Q as Hk.
  { rewrite <- pow2_add. by replace (a - b + b)%Z with a by lia. }
  pose proof (pow2_pos (a - b)) as HK. pose proof (pow2_pos b) as HB.
  pose proof (pow2_pos a) as HA.
  set (X := (n # d)%Q) in *. set (N := inject_Z n) in *.
  set (D := inject_Z (Z.pos d)) in *.
  destruct (Qle_bool (2 ^ (a - b)) X) eqn:Hle.
  - apply Qle_bool_iff in Hle. split; [done|].
    rewrite pow2_add. change (2 ^ 1)%Q with 2%Q.
    set (K := (2 ^ (a - b))%Q) in *. set (A := (2 ^ a)%Q) in *. set (B := (2 ^ b)%Q) in *.
    apply Qnot_le_lt. intros Hc. nra.
  - assert (X < 2 ^ (a - b))%Q as Hlt.
    { apply Qnot_le_lt. intros Hc. apply Qle_bool_iff in Hc. congruence. }
    replace (a - b - 1 + 1)%Z with (a - b)%Z by lia. split; [|done].
    assert (2 ^ (a - b - 1) * 2 == 2 ^ (a - b))%Q as Hhalf.
    { change 2%Q with (2 ^ 1)%Q at 2. rewrite <- pow2_add.
      by replace (a - b - 1 + 1)%Z with (a - b)%Z by lia. }
    pose proof (pow2_pos (a - b - 1)) as HK1.
    set (K := (2 ^ (a - b))%Q) in *. set (K1 := (2 ^ (a - b - 1))%Q) in *.
    set (A := (2 ^ a)%Q) in *. set (B := (2 ^ b)%Q) in *.
    apply Qnot_lt_le. intros Hc. nra.
Qed.

Lemma nearest_even_spec (s : Q) :
  (s - (1 # 2) <= inject_Z (nearest_even s))%Q
  ∧ (inject_Z (nearest_even s) <= s + (1 # 2))%Q.
Proof.
  unfold nearest_even.
  pose proof (Qfloor_le s) as Hlo. pose proof (Qlt_floor s) as Hhi.
  rewrite inject_Z_plus in Hhi. change (inject_Z 1) with 1%Q in Hhi.
  set (f := Qfloor s) in *.
  destruct (s - inject_Z f ?= 1 # 2)%Q eqn:Hcmp.
  - apply Qeq_alt in Hcmp.
    destruct (Z.even f); rewrite ?inject_Z_plus; change (inject_Z 1) with 1%Q; lra.
  - apply Qlt_alt in Hcmp. lra.
  - apply Qgt_alt in Hcmp. rewrite inject_Z_plus. change (inject_Z 1) with 1%Q. lra.
Qed.

Lemma nearest_even_int (s : Q) (z : Z) : (s == inject_Z z)%Q → nearest_even s = z.
Proof.
  intros Hs. unfold nearest_even.
  assert (Qfloor s = z) as -> by (rewrite Hs; apply Qfloor_Z).
  assert ((s - inject_Z z ?= 1 # 2)%Q = Lt) as ->; [|done].
  rewrite <- Qlt_alt. lra.
Qed.

Lemma round_pos_bounds (x : Q) :
  (0 < x)%Q → (x * (1 - u) <= round_pos x)%Q ∧ (round_pos x <= x * (1 + u))%Q.
Proof.
  intros Hx. unfold round_pos.
  destruct (ilog2_spec x Hx) as [Hlo _].
  set (e := (ilog2 x - 52)%Z) in *.
  replace (ilog2 x) with (e + 52)%Z in Hlo by lia.
  rewrite pow2_add in Hlo.
  pose proof (pow2_pos e) as HE. pose proof (pow2_opp e) as Hinv.
  destruct (nearest_even_spec (x * 2 ^ (- e))) as [Hm1 Hm2].
  set (m := inject_Z (nearest_even (x * 2 ^ (- e)))) in *.
  set (E := (2 ^ e)%Q) in *. set (I := (2 ^ (- e))%Q) in *.
  assert (2 ^ 52 == 4503599627370496)%Q as H52 by reflexivity.
  rewrite H52 in Hlo. unfold u.
  assert ((x * I - (1 # 2)) * E <= m * E)%Q as H1 by (apply Qmult_le_compat_r; lra).
  assert (m * E <= (x * I + (1 # 2)) * E)%Q as H2 by (apply Qmult_le_compat_r; lra).
  assert (x * I * E == x)%Q as Hx1 by (rewrite <- Qmult_assoc, Hinv; ring).
  split; lra.
Qed.

Lemma round_comp (x y : Q) : (x == y)%Q → round x = round y.
Proof. intros H. unfold round. by rewrite (Qred_complete _ _ H). Qed.

Lemma round_bounds (x : Q) :
  (0 <= x)%Q → (x * (1 - u) <= round x)%Q ∧ (round x <= x * (1 + u))%Q.
Proof.
  intros Hx. unfold round.
  pose proof (Qred_correct x) as Hred.
  destruct (Qred x) as [n d] eqn:Hr. cbn [Qnum].
  destruct n as [|n|n].
  - assert (x == 0)%Q as -> by (rewrite <- Hred; reflexivity). split; lra.
  - rewrite Qred_correct, <- Hred. apply round_pos_bounds. reflexivity.
  - exfalso. rewrite <- Hred in Hx. unfold Qle in Hx. simpl in Hx. lia.
Qed.

Lemma of_int_exact (n : Z) : (0 <= n < 2 ^ 53)%Z → of_int n = inject_Z n.
Proof.
  intros [Hn0 Hn]. destruct n as [|n|n]; [done| |lia].
  assert (Qred (inject_Z (Z.pos n)) = inject_Z (Z.pos n)) as Hid.
  { apply Qcanon.Qred_identity. simpl. apply Z.gcd_1_r. }
  unfold of_int, round. rewrite Hid.
  change (Qred (round_pos (inject_Z (Z.pos n))) = inject_Z (Z.pos n)).
  rewrite <- Hid at 2. apply Qred_complete. unfold round_pos.
  assert (ilog2 (inject_Z (Z.pos n)) = Z.log2 (Z.pos n)) as ->.
  { unfold ilog2. cbn [Qnum Qden inject_Z]. change (Z.log2 1) with 0%Z.
    rewrite Z.sub_0_r.
    assert (Qle_bool (2 ^ Z.log2 (Z.pos n))%Q (inject_Z (Z.pos n)) = true) as ->; [|done].
    apply Qle_bool_iff. rewrite <- pow2_Z by apply Z.log2_nonneg.
    rewrite <- Zle_Qle.
    apply Z.log2_spec. lia. }
  assert (Z.log2 (Z.pos n) < 53)%Z as Hlog by (apply Z.log2_lt_pow2; lia).
  pose proof (Z.log2_nonneg (Z.pos n)) as Hlog0.
  set (e := (Z.log2 (Z.pos n) - 52)%Z) in *.
  rewrite (nearest_even_int _ (Z.pos n * 2 ^ (- e))).
  - rewrite inject_Z_mult, pow2_Z by lia.
    rewrite <- Qmult_assoc, pow2_opp. ring.
  - rewrite inject_Z_mult, pow2_Z by lia. reflexivity.
Qed.


(** *** Values within a number of roundings *)

Lemma one_minus_u_pos (k : nat) : (0 < (1 - u) ^ Z.of_nat k)%Q.
Proof. apply Qpower_0_lt. by vm_compute. Qed.

Lemma one_plus_u_pos (k : nat) : (0 < (1 + u) ^ Z.of_nat k)%Q.
Proof. apply Qpower_0_lt. by vm_compute. Qed.

Lemma power_succ (a : Q) (k : nat) :
  ¬ (a == 0)%Q → (a ^ Z.of_nat (S k) == a ^ Z.of_nat k * a)%Q.
Proof.
  intros Ha. rewrite Nat2Z.inj_succ. unfold Z.succ. rewrite Qpower_plus by done.
  reflexivity.
Qed.

Lemma within_exact (x y : Q) : (x == y)%Q → within 0 x y.
Proof.
  intros H. unfold within. change (Z.of_nat 0) with 0%Z. cbn [Qpower]. split; lra.
Qed.

Lemma within_nonneg (k : nat) (x y : Q) : (0 <= y)%Q → within k x y → (0 <= x)%Q.
Proof.
  intros Hy [Hlo _]. eapply Qle_trans; [|exact Hlo].
  apply Qmult_le_0_compat; [done|]. apply Qlt_le_weak, one_minus_u_pos.
Qed.

Lemma within_round (k : nat) (x y : Q) :
  (0 <= y)%Q → within k x y → within (S k) (round x) y.
Proof.
  intros Hy Hxy. pose proof (within_nonneg k x y Hy Hxy) as Hx.
  destruct Hxy as [Hlo Hhi]. destruct (round_bounds x Hx) as [Hrlo Hrhi].
  unfold within. rewrite !power_succ by (by vm_compute).
  pose proof (one_minus_u_pos k) as Hm. pose proof (one_plus_u_pos k) as Hp.
  set (L := ((1 - u) ^ Z.of_nat k)%Q) in *. set (H := ((1 + u) ^ Z.of_nat k)%Q) in *.
  assert (0 < 1 - u)%Q as Hu1 by (by vm_compute).
  assert (0 < 1 + u)%Q as Hu2 by (by vm_compute).
  split.
  - eapply Qle_trans; [|exact Hrlo]. rewrite Qmult_assoc.
    apply Qmult_le_compat_r; [done | by apply Qlt_le_weak].
  - eapply Qle_trans; [exact Hrhi|]. rewrite Qmult_assoc.
    apply Qmult_le_compat_r; [done | by apply Qlt_le_weak].
Qed.

Lemma within_scale (k : nat) (x y c : Q) :
  (0 <= c)%Q → within k x y → within k (x * c) (y * c).
Proof.
  intros Hc [Hlo Hhi]. unfold within.
  split.
  - assert (y * c * (1 - u) ^ Z.of_nat k == y * (1 - u) ^ Z.of_nat k * c)%Q as Heq by ring.
    rewrite Heq. by apply Qmult_le_compat_r.
  - assert (y * c * (1 + u) ^ Z.of_nat k == y * (1 + u) ^ Z.of_nat k * c)%Q as Heq by ring.
    rewrite Heq. by apply Qmult_le_compat_r.
Qed.

Lemma within_add (k : nat) (x1 y1 x2 y2 : Q) :
  within k x1 y1 → within k x2 y2 → within k (x1 + x2) (y1 + y2).
Proof.
  intros [Hlo1 Hhi1] [Hlo2 Hhi2]. unfold within.
  rewrite !Qmult_plus_distr_l. split; by apply Qplus_le_compat.
Qed.

Lemma within_comp (k : nat) (x y y' : Q) : (y == y')%Q → within k x y → within k x y'.
Proof. intros Hy [Hlo Hhi]. unfold within. by rewrite <- Hy. Qed.

(** Three roundings change a value by at most [eps] times the value. *)
Lemma within_eps (x y : Q) :
  (0 <= y)%Q → within 3 x y → (y * (1 - eps) <= x)%Q ∧ (x <= y * (1 + eps))%Q.
Proof.
  intros Hy [Hlo Hhi].
  assert (1 - eps <= (1 - u) ^ Z.of_nat 3)%Q as H1 by (by vm_compute).
  assert ((1 + u) ^ Z.of_nat 3 <= 1 + eps)%Q as H2 by (by vm_compute).
  split.
  - eapply Qle_trans; [|exact Hlo].
    rewrite !(Qmult_comm y). by apply Qmult_le_compat_r.
  - eapply Qle_trans; [exact Hhi|].
    rewrite !(Qmult_comm y). by apply Qmult_le_compat_r.
Qed.

Lemma within_abs (x y : Q) :
  (0 <= y)%Q → within 3 x y → (Qabs (x - y) <= y * eps)%Q.
Proof.
  intros Hy Hxy. destruct (within_eps x y Hy Hxy) as [Hlo Hhi].
  apply Qabs_Qle_condition. split; lra.
Qed.

End Float64.

(** The operations agree with those of the processor on the inputs of
    the examples. *)
Example float_agrees :
  Float64.of_prim (2 / 11 * 100 + 9 / 11 * 100)%float
  = Some (Float64.add
            (Float64.mul (Float64.div (Float64.of_int 2) (Float64.of_int 11))
               (Float64.of_int 100))
            (Float64.mul (Float64.div (Float64.of_int 9) (Float64.of_int 11))
               (Float64.of_int 100)))
  ∧ Float64.of_prim (1 / 3 * 100)%float
    = Some (Float64.mul (Float64.div (Float64.of_int 1) (Float64.of_int 3))
              (Float64.of_int 100))
  ∧ Float64.of_prim (1 / 10 + 2 / 10)%float
    = Some (Float64.add (Float64.div (Float64.of_int 1) (Float64.of_int 10))
              (Float64.div (Float64.of_int 2) (Float64.of_int 10))).
Proof. repeat split; vm_compute; reflexivity. Qed.

(** [0.1 + 0.2] is [0.30000000000000004], and [2^53 + 1] is not a
    float. *)
Example float_ex :
  Float64.add (Float64.div 1 10) (Float64.div 2 10)
  = (1351079888211149 # 4503599627370496)%Q
  ∧ Float64.of_int 9007199254740993 = 9007199254740992%Q.
Proof. split; vm_compute; reflexivity. Qed.

(** ** line_chart_by_quarter.py *)

Module SentimentVisualizer.

Import Pd.

(** [self.sentiment_data]: four lists that grow together, one entry per
    quarter processed. *)
Record sentiment_data : Type := {
  quarter : list string;
  positive : list Q;
  negative : list Q;
  neutral : list Q
}.

(** The state [__init__] creates. *)
Definition init : sentiment_data :=
  {| quarter := []; positive := []; negative := []; neutral := [] |}.

Definition find_sentiment_column (df : DataFrame) : option string :=
  if decide ("sentiment" ∈ columns df) then Some "sentiment" else None.

(** Number of cells equal to [v]. *)
Definition occurrences (v : cell) (cells : list cell) : nat :=
  length (filter (λ c, c = v) cells).

(** [series.value_counts(normalize=True) * 100]: for each distinct
    non-empty value, its count divided by the number of non-empty cells
    and multiplied by 100, in floating point. *)
Definition value_counts_percent (cells : list (option cell)) : list (cell * Q) :=
  let present := dropna cells in
  (λ v, (v, Float64.mul
              (Float64.div (Float64.of_int (Z.of_nat (occurrences v present)))
                           (Float64.of_int (Z.of_nat (length present))))
              (Float64.of_int 100)))
    <$> remove_dups present.

(** [series.get(key, default)] *)
Fixpoint get (series : list (cell * Q)) (key : cell) (default : Q) : Q :=
  match series with
  | [] => default
  | (v, x) :: rest => if decide (v = key) then x else get rest key default
  end.

Definition quarters : list string := ["Q1"; "Q2"; "Q3"; "Q4"].

Section Visualizer.

Variable cfg : Config.config.

Definition process_quarterly_file (fs : files) (sd : sentiment_data)
    (file_path quarter_name : string) : sentiment_data * bool :=
  match read_excel fs file_path with
  | Raise _ => (sd, false)
  | Ok df =>
      match find_sentiment_column df with
      | None => (sd, false)
      | Some sentiment_col =>
          let sentiment_counts := value_counts_percent (column df sentiment_col) in
          let positive_pct := Float64.add (get sentiment_counts (CStr "Positive") 0)
                                          (get sentiment_counts (CStr "positive") 0) in
          let negative_pct := Float64.add (get sentiment_counts (CStr "Negative") 0)
                                          (get sentiment_counts (CStr "negative") 0) in
          let neutral_pct := Float64.add (get sentiment_counts (CStr "Neutral") 0)
                                         (get sentiment_counts (CStr "neutral") 0) in
          ({| quarter := quarter sd ++ [quarter_name];
              positive := positive sd ++ [positive_pct];
              negative := negative sd ++ [negative_pct];
              neutral := neutral sd ++ [neutral_pct] |}, true)
      end
  end.

(** [f"{year}_{quarter}"] *)
Definition quarter_name (year : Z) (q : string) : string :=
  Py.str year +:+ "_" +:+ q.

(** The body of the two nested loops of [collect_data]. *)
Definition collect_step (fs : files) (acc : sentiment_data * nat) (year : Z)
    (q : string) : sentiment_data * nat :=
  let file_path := Config.get_quarterly_file_path cfg (Py.str year) q in
  if decide (exists_ fs file_path) then
    let '(sd, ok) := process_quarterly_file fs acc.1 file_path (quarter_name year q) in
    (sd, if ok then S acc.2 else acc.2)
  else acc.

(** [collect_data]: the data collected and [processed_count]. *)
Definition collect_data (fs : files) (sd : sentiment_data) (year_range : Z * Z)
    : sentiment_data * nat :=
  foldl (λ acc year, foldl (λ acc q, collect_step fs acc year q) acc quarters)
        (sd, 0)
        (Py.range2 year_range.1 (year_range.2 + 1)).

(** A partition that yields a row: it exists, reads as a table and has
    a [sentiment] column. *)
Definition usable (fs : files) (year : Z) (q : string) : Prop :=
  match fs !! Config.get_quarterly_file_path cfg (Py.str year) q with
  | Some (Workbook df) => "sentiment" ∈ columns df
  | _ => False
  end.

#[global] Instance usable_dec fs year q : Decision (usable fs year q).
Proof.
  unfold usable.
  destruct (fs !! Config.get_quarterly_file_path cfg (Py.str year) q) as [[|df]|];
    apply _.
Defined.

(** The quarters of the years [first..last], in loop order. *)
Definition range_quarters (first last : Z) : list (Z * string) :=
  year ← Py.range2 first (last + 1); (λ q, (year, q)) <$> quarters.

Definition quarter_index (q : string) : nat :=
  if decide (q = "Q1") then 1
  else if decide (q = "Q2") then 2
  else if decide (q = "Q3") then 3
  else 4.

(** Earlier in time: an earlier year, or the same year and an earlier
    quarter. *)
Definition chronological (k1 k2 : Z * string) : Prop :=
  (k1.1 < k2.1)%Z ∨ (k1.1 = k2.1 ∧ quarter_index k1.2 < quarter_index k2.2).

(** What the series holds for a label that occurs: its share of the
    non-empty labels in percent, as the floating point operations give
    it. *)
Definition share (label : string) (df : DataFrame) : Q :=
  Float64.mul
    (Float64.div
       (Float64.of_int (Z.of_nat (occurrences (CStr label) (dropna (column df "sentiment")))))
       (Float64.of_int (Z.of_nat (length (dropna (column df "sentiment"))))))
    (Float64.of_int 100).

(** The percentage as the claim reads it: labels compared without
    regard to case, over all the records of the partition. *)
Definition same_class (class : string) (c : option cell) : bool :=
  match c with
  | Some (CStr s) => String.eqb (Py.lower s) (Py.lower class)
  | _ => false
  end.

Definition share_ignoring_case (class : string) (df : DataFrame) : Q :=
  (100 * inject_Z (Z.of_nat (length (filter (λ c, same_class class c = true)
                                        (column df "sentiment"))))
   / inject_Z (Z.of_nat (length (column df "sentiment"))))%Q.

(** *** One partition *)

Lemma process_quarterly_file_usable fs sd year q name :
  usable fs year q →
  ∃ p n u,
    process_quarterly_file fs sd (Config.get_quarterly_file_path cfg (Py.str year) q) name
    = ({| quarter := quarter sd ++ [name];
          positive := positive sd ++ [p];
          negative := negative sd ++ [n];
          neutral := neutral sd ++ [u] |}, true).
Proof.
  unfold usable, process_quarterly_file, read_excel, find_sentiment_column.
  destruct (fs !! _) as [[|df]|]; try done.
  intros Hcol. rewrite decide_True by done. eauto.
Qed.

Lemma process_quarterly_file_unusable fs sd year q name :
  ¬ usable fs year q →
  process_quarterly_file fs sd (Config.get_quarterly_file_path cfg (Py.str year) q) name
  = (sd, false).
Proof.
  unfold usable, process_quarterly_file, read_excel, find_sentiment_column.
  destruct (fs !! _) as [[|df]|]; try done.
  intros Hcol. by rewrite decide_False.
Qed.

Lemma usable_exists fs year q :
  usable fs year q → exists_ fs (Config.get_quarterly_file_path cfg (Py.str year) q).
Proof.
  unfold usable, exists_. destruct (fs !! _) as [[|df]|]; try done.
Qed.

(** *** The collecting loop *)

(** The four lists grow by one entry for a usable partition and stay
    as they are otherwise. *)
Definition grown (sd sd' : sentiment_data) (names : list string) : Prop :=
  quarter sd' = quarter sd ++ names
  ∧ length (positive sd') = length (positive sd) + length names
  ∧ length (negative sd') = length (negative sd) + length names
  ∧ length (neutral sd') = length (neutral sd) + length names.

Lemma grown_trans sd1 sd2 sd3 names1 names2 :
  grown sd1 sd2 names1 → grown sd2 sd3 names2 → grown sd1 sd3 (names1 ++ names2).
Proof.
  intros (Hq1 & Hp1 & Hn1 & Hu1) (Hq2 & Hp2 & Hn2 & Hu2).
  unfold grown. rewrite Hq2, Hq1, Hp2, Hp1, Hn2, Hn1, Hu2, Hu1, length_app.
  rewrite <- app_assoc. repeat split; lia.
Qed.

Lemma collect_step_grown fs acc year q :
  grown acc.1 (collect_step fs acc year q).1
    (if decide (usable fs year q) then [quarter_name year q] else []).
Proof.
  unfold collect_step. destruct (decide (usable fs year q)) as [Hu|Hu].
  - rewrite decide_True by by apply usable_exists.
    destruct (process_quarterly_file_usable fs acc.1 year q (quarter_name year q) Hu)
      as (p & n & u & ->). simpl.
    unfold grown. simpl. rewrite !length_app. simpl. done.
  - rewrite (process_quarterly_file_unusable _ _ _ _ _ Hu).
    destruct (decide (exists_ fs _)); simpl; unfold grown;
      rewrite app_nil_r; simpl; repeat split; lia.
Qed.

Lemma collect_loop_grown fs (keys : list (Z * string)) acc :
  grown acc.1 (foldl (λ acc k, collect_step fs acc k.1 k.2) acc keys).1
    ((λ k, quarter_name k.1 k.2) <$> filter (λ k, usable fs k.1 k.2) keys).
Proof.
  revert acc. induction keys as [|[year q] keys IH]; intros acc.
  - unfold grown. simpl. rewrite app_nil_r. repeat split; lia.
  - simpl. rewrite filter_cons. simpl.
    pose proof (collect_step_grown fs acc year q) as Hstep.
    pose proof (IH (collect_step fs acc year q)) as Hrest.
    pose proof (grown_trans _ _ _ _ _ Hstep Hrest) as Hall.
    destruct (decide (usable fs year q)); exact Hall.
Qed.

Lemma collect_data_flat fs sd first last :
  collect_data fs sd (first, last)
  = foldl (λ acc k, collect_step fs acc k.1 k.2) (sd, 0) (range_quarters first last).
Proof.
  unfold collect_data, range_quarters. simpl.
  generalize (sd, 0). induction (Py.range2 first (last + 1)) as [|year years IH];
    intros acc; [done|].
  simpl. apply IH.
Qed.

(** *** Order and names of the quarters *)

Lemma elem_of_range2 (first stop year : Z) :
  year ∈ Py.range2 first stop ↔ (first ≤ year < stop)%Z.
Proof.
  unfold Py.range2. rewrite list_elem_of_fmap. split.
  - intros (k & -> & Hk). apply elem_of_seq in Hk. lia.
  - intros Hy. exists (Z.to_nat (year - first)). split; [lia|].
    apply elem_of_seq. lia.
Qed.

Lemma range2_sorted (first stop : Z) : StronglySorted Z.lt (Py.range2 first stop).
Proof.
  unfold Py.range2. generalize (Z.to_nat (stop - first)) as n. generalize 0 as i.
  intros i n. revert i. induction n as [|n IH]; intros i; simpl; constructor.
  - apply IH.
  - apply Forall_fmap, Forall_forall. intros k Hk. simpl.
    apply elem_of_seq in Hk. lia.
Qed.

Lemma elem_of_range_quarters first last year q :
  (year, q) ∈ range_quarters first last ↔ (first ≤ year ≤ last)%Z ∧ q ∈ quarters.
Proof.
  unfold range_quarters. rewrite list_elem_of_bind. split.
  - intros (y & Hq & Hy). apply list_elem_of_fmap in Hq as (q' & [= -> ->] & Hq).
    apply elem_of_range2 in Hy. split; [lia | done].
  - intros [Hy Hq]. exists year. split.
    + apply list_elem_of_fmap. eauto.
    + apply elem_of_range2. lia.
Qed.

Lemma quarters_of_years_sorted (years : list Z) :
  StronglySorted Z.lt years →
  StronglySorted chronological (year ← years; (λ q, (year, q)) <$> quarters).
Proof.
  induction 1 as [|year years Hsorted IH Hall]; [constructor|].
  change (StronglySorted chronological
            (((λ q, (year, q)) <$> quarters)
               ++ (y ← years; (λ q, (y, q)) <$> quarters))).
  apply StronglySorted_app. split; [|split].
  - intros k1 k2 Hk1 Hk2.
    apply list_elem_of_fmap in Hk1 as (q1 & -> & _).
    apply list_elem_of_bind in Hk2 as (y & Hk2 & Hy).
    apply list_elem_of_fmap in Hk2 as (q2 & -> & _).
    left. simpl. rewrite Forall_forall in Hall. by apply Hall.
  - unfold quarters. simpl.
    repeat (constructor; [|repeat (constructor; [right; split; [done|vm_compute; lia]|]);
                            constructor]).
    constructor.
  - exact IH.
Qed.

Lemma filter_sorted {A} (R : relation A) (P : A → Prop) `{!∀ x, Decision (P x)}
    (l : list A) :
  StronglySorted R l → StronglySorted R (filter P l).
Proof.
  induction 1 as [|x l Hsorted IH Hall]; [constructor|].
  rewrite filter_cons. destruct (decide (P x)); [|done].
  constructor; [done|].
  rewrite Forall_forall in *. intros y Hy.
  apply list_elem_of_filter in Hy as [_ Hy]. by apply Hall.
Qed.

Lemma string_length_app (s t : string) :
  String.length (s +:+ t) = String.length s + String.length t.
Proof. induction s as [|a s IH]; simpl; [done | by rewrite IH]. Qed.

Lemma app_inj_tail (s1 s2 t1 t2 : string) :
  String.length t1 = String.length t2 → s1 +:+ t1 = s2 +:+ t2 → s1 = s2 ∧ t1 = t2.
Proof.
  intros Hlen. revert s2. induction s1 as [|a s1 IH]; intros [|b s2] Heq.
  - done.
  - apply (f_equal String.length) in Heq.
    change (String.length t1 = S (String.length (s2 +:+ t2))) in Heq.
    rewrite string_length_app in Heq. lia.
  - apply (f_equal String.length) in Heq.
    change (S (String.length (s1 +:+ t1)) = String.length t2) in Heq.
    rewrite string_length_app in Heq. lia.
  - injection Heq as -> Heq. destruct (IH _ Heq) as [-> ->]. done.
Qed.

Lemma quarter_name_inj year1 q1 year2 q2 :
  q1 ∈ quarters → q2 ∈ quarters →
  quarter_name year1 q1 = quarter_name year2 q2 → year1 = year2 ∧ q1 = q2.
Proof.
  intros Hq1 Hq2 Heq. unfold quarter_name in Heq.
  apply app_inj_tail in Heq as [Hyear Hq].
  - split; [by apply (inj pretty) in Hyear | by simplify_eq].
  - unfold quarters in *. rewrite !elem_of_cons in Hq1, Hq2.
    destruct Hq1 as [->|[->|[->|[->|Hq1]]]], Hq2 as [->|[->|[->|[->|Hq2]]]];
      try done; by apply elem_of_nil in Hq1 || by apply elem_of_nil in Hq2.
Qed.

(** C9, as the code has it.  For every year range, a fresh visualizer
    collects one row per quarter of the range whose partition exists,
    reads as a table and has a [sentiment] column (a name and three
    percentages each), in chronological order; every other quarter of
    the range has no row. *)
Theorem collect_data_rows (fs : files) (first last : Z) :
  ∃ kept : list (Z * string),
    quarter (collect_data fs init (first, last)).1
    = (λ k, quarter_name k.1 k.2) <$> kept
    ∧ StronglySorted chronological kept
    ∧ length (positive (collect_data fs init (first, last)).1) = length kept
    ∧ length (negative (collect_data fs init (first, last)).1) = length kept
    ∧ length (neutral (collect_data fs init (first, last)).1) = length kept
    ∧ (∀ year q, (year, q) ∈ kept
                  ↔ (first ≤ year ≤ last)%Z ∧ q ∈ quarters ∧ usable fs year q)
    ∧ (∀ year q, (first ≤ year ≤ last)%Z → q ∈ quarters →
                 (quarter_name year q ∈ quarter (collect_data fs init (first, last)).1
                  ↔ usable fs year q)).
Proof.
  exists (filter (λ k, usable fs k.1 k.2) (range_quarters first last)).
  rewrite collect_data_flat.
  destruct (collect_loop_grown fs (range_quarters first last) (init, 0))
    as (Hq & Hp & Hn & Hu). simpl in *. rewrite length_fmap in *.
  assert (∀ year q,
            (year, q) ∈ filter (λ k, usable fs k.1 k.2) (range_quarters first last)
            ↔ (first ≤ year ≤ last)%Z ∧ q ∈ quarters ∧ usable fs year q) as Hkept.
  { intros year q. rewrite list_elem_of_filter, elem_of_range_quarters. simpl.
    tauto. }
  split; [exact Hq|].
  split; [apply filter_sorted, quarters_of_years_sorted, range2_sorted|].
  split; [exact Hp|]. split; [exact Hn|]. split; [exact Hu|].
  split; [exact Hkept|].
  intros year q Hyear Hquarter. rewrite Hq. split.
  - intros Hin. apply list_elem_of_fmap in Hin as ([y q'] & Hname & Hin).
    apply Hkept in Hin as (_ & Hq' & Husable). simpl in Hname.
    by apply quarter_name_inj in Hname as [-> ->].
  - intros Husable. apply list_elem_of_fmap.
    exists (year, q). split; [done|]. by apply Hkept.
Qed.

(** *** The percentages of one partition *)

Lemma get_pairs (f : cell → Q) (l : list cell) (key : cell) (d : Q) :
  get ((λ v, (v, f v)) <$> l) key d = if decide (key ∈ l) then f key else d.
Proof.
  induction l as [|v l IH].
  - destruct (decide (key ∈ [])) as [Hin|_]; [by apply elem_of_nil in Hin | done].
  - rewrite fmap_cons. cbn [get]. rewrite IH.
    destruct (decide (v = key)) as [->|Hne], (decide (key ∈ l)) as [Hin|Hnin],
      (decide (key ∈ _ :: l)) as [Hin'|Hnin']; try done; exfalso.
    + apply Hnin', list_elem_of_here.
    + apply Hnin', list_elem_of_here.
    + by apply Hnin', list_elem_of_further.
    + apply elem_of_cons in Hin' as [?|?]; [by subst | done].
Qed.

Lemma occurrences_zero (v : cell) (l : list cell) : occurrences v l = 0 ↔ v ∉ l.
Proof.
  unfold occurrences. induction l as [|c l IH].
  - split; [intros _; apply not_elem_of_nil | done].
  - rewrite filter_cons, elem_of_cons. destruct (decide (c = v)) as [->|Hne].
    + split; [done | intros []; by left].
    + rewrite IH. split.
      * intros Hnin [Heq|Hin]; [by subst | done].
      * intros Hnin Hin. apply Hnin. by right.
Qed.

(** What [get] finds for a label: its share, and the default 0 when
    no record carries it. *)
Lemma get_label (df : DataFrame) (label : string) :
  get (value_counts_percent (column df "sentiment")) (CStr label) 0
  = if decide (occurrences (CStr label) (dropna (column df "sentiment")) = 0)
    then 0%Q else share label df.
Proof.
  unfold value_counts_percent. rewrite get_pairs.
  destruct (decide (CStr label ∈ remove_dups _)) as [Hin|Hnin].
  - rewrite decide_False; [done|].
    rewrite occurrences_zero. intros Hno. by apply Hno, elem_of_remove_dups.
  - rewrite decide_True; [done|].
    apply occurrences_zero. intros Hin. by apply Hnin, elem_of_remove_dups.
Qed.

Lemma occurrences_le_length (v : cell) (l : list cell) : occurrences v l ≤ length l.
Proof. unfold occurrences. apply length_filter. Qed.

(** With fewer than [2^53] labels the value for one label is its exact
    share up to the two roundings of the division and of the
    multiplication. *)
Lemma get_label_within (df : DataFrame) (label : string) :
  (Z.of_nat (length (dropna (column df "sentiment"))) < 2 ^ 53)%Z →
  Float64.within 2
    (get (value_counts_percent (column df "sentiment")) (CStr label) 0)
    (inject_Z (Z.of_nat (occurrences (CStr label) (dropna (column df "sentiment"))))
     / inject_Z (Z.of_nat (length (dropna (column df "sentiment")))) * 100)%Q.
Proof.
  intros Hlen. rewrite get_label.
  pose proof (occurrences_le_length (CStr label) (dropna (column df "sentiment"))) as Hle.
  set (a := occurrences (CStr label) (dropna (column df "sentiment"))) in *.
  set (t := length (dropna (column df "sentiment"))) in *.
  case_decide as Hocc.
  - rewrite Hocc. apply (Float64.within_comp _ _ 0%Q).
    + unfold Qdiv. simpl. ring.
    + split; simpl; lra.
  - unfold share. fold a t.
    rewrite !Float64.of_int_exact by lia.
    change (inject_Z 100) with 100%Q.
    assert (0 <= inject_Z (Z.of_nat a) / inject_Z (Z.of_nat t))%Q as Hpos.
    { apply Qle_shift_div_l.
      - change 0%Q with (inject_Z 0). rewrite <- Zlt_Qlt. lia.
      - rewrite Qmult_0_l. change 0%Q with (inject_Z 0). rewrite <- Zle_Qle. lia. }
    apply Float64.within_round.
    { apply Qmult_le_0_compat; [done | by vm_compute]. }
    apply Float64.within_scale; [by vm_compute|].
    apply Float64.within_round; [done|].
    by apply Float64.within_exact.
Qed.

(** The percentage of a class: the sum of the values of its two
    spellings, three roundings away from the exact share. *)
Lemma two_spellings (df : DataFrame) (a b : string) :
  (Z.of_nat (length (dropna (column df "sentiment"))) < 2 ^ 53)%Z →
  Float64.within 3
    (Float64.add (get (value_counts_percent (column df "sentiment")) (CStr a) 0)
                 (get (value_counts_percent (column df "sentiment")) (CStr b) 0))
    (100 * inject_Z (Z.of_nat (occurrences (CStr a) (dropna (column df "sentiment"))
                               + occurrences (CStr b) (dropna (column df "sentiment"))))
     / inject_Z (Z.of_nat (length (dropna (column df "sentiment")))))%Q.
Proof.
  intros Hlen.
  pose proof (get_label_within df a Hlen) as Ha.
  pose proof (get_label_within df b Hlen) as Hb.
  set (x := get _ (CStr a) 0) in *. set (y := get _ (CStr b) 0) in *.
  set (na := inject_Z (Z.of_nat (occurrences (CStr a) _))) in *.
  set (nb := inject_Z (Z.of_nat (occurrences (CStr b) _))) in *.
  set (t := inject_Z (Z.of_nat (length _))) in *.
  apply (Float64.within_comp _ _ (na / t * 100 + nb / t * 100)%Q).
  { rewrite Nat2Z.inj_add, inject_Z_plus. fold na nb. unfold Qdiv. ring. }
  assert (0 <= na)%Q as Hna
    by (subst na; change 0%Q with (inject_Z 0); rewrite <- Zle_Qle; lia).
  assert (0 <= nb)%Q as Hnb
    by (subst nb; change 0%Q with (inject_Z 0); rewrite <- Zle_Qle; lia).
  assert (0 <= / t)%Q as Ht.
  { apply Qinv_le_0_compat. subst t. change 0%Q with (inject_Z 0).
    rewrite <- Zle_Qle. lia. }
  apply Float64.within_round; [|by apply Float64.within_add].
  unfold Qdiv. pose proof (Qmult_le_0_compat _ _ Hna Ht).
  pose proof (Qmult_le_0_compat _ _ Hnb Ht). lra.
Qed.

Lemma two_spellings_absent (df : DataFrame) (a b : string) :
  occurrences (CStr a) (dropna (column df "sentiment")) = 0 →
  occurrences (CStr b) (dropna (column df "sentiment")) = 0 →
  Float64.add (get (value_counts_percent (column df "sentiment")) (CStr a) 0)
              (get (value_counts_percent (column df "sentiment")) (CStr b) 0) = 0%Q.
Proof. intros Ha Hb. rewrite !get_label, !decide_True by done. reflexivity. Qed.

Lemma exact_percentage_nonneg (a t : nat) :
  (0 <= 100 * inject_Z (Z.of_nat a) / inject_Z (Z.of_nat t))%Q.
Proof.
  unfold Qdiv. apply Qmult_le_0_compat.
  - apply Qmult_le_0_compat; [by vm_compute|].
    change 0%Q with (inject_Z 0). rewrite <- Zle_Qle. lia.
  - apply Qinv_le_0_compat. change 0%Q with (inject_Z 0). rewrite <- Zle_Qle. lia.
Qed.

(** C6, as the code has it.  For a partition that reads as a table
    with a [sentiment] column, each class percentage is the floating
    point sum of the values of two spellings, the capitalised and the
    lower-case class name, each value being the count of the spelling
    divided by the number of records with a non-empty label and
    multiplied by 100, in floating point.  With fewer than [2^53] such
    records it differs from 100 times the number of labels in the two
    spellings divided by the number of records with a non-empty label by
    at most [2^-51] times that value.  A class with no such label is
    reported as exactly 0, and the row always has its three
    percentages. *)
Theorem process_quarterly_file_percentages (fs : files) (sd : sentiment_data)
    (file_path name : string) (df : DataFrame) :
  read_excel fs file_path = Ok df →
  "sentiment" ∈ columns df →
  let labels := dropna (column df "sentiment") in
  let value (l : string) : Q :=
    if decide (occurrences (CStr l) labels = 0) then 0%Q
    else Float64.mul
           (Float64.div (Float64.of_int (Z.of_nat (occurrences (CStr l) labels)))
                        (Float64.of_int (Z.of_nat (length labels))))
           (Float64.of_int 100) in
  let pct (a b : string) : Q :=
    (100 * inject_Z (Z.of_nat (occurrences (CStr a) labels + occurrences (CStr b) labels))
     / inject_Z (Z.of_nat (length labels)))%Q in
  let absent (a b : string) : Prop :=
    occurrences (CStr a) labels = 0 ∧ occurrences (CStr b) labels = 0 in
  ∃ p n u : Q,
    process_quarterly_file fs sd file_path name
    = ({| quarter := quarter sd ++ [name];
          positive := positive sd ++ [p];
          negative := negative sd ++ [n];
          neutral := neutral sd ++ [u] |}, true)
    ∧ p = Float64.add (value "Positive") (value "positive")
    ∧ n = Float64.add (value "Negative") (value "negative")
    ∧ u = Float64.add (value "Neutral") (value "neutral")
    ∧ ((Z.of_nat (length labels) < 2 ^ 53)%Z →
       (Qabs (p - pct "Positive" "positive") <= pct "Positive" "positive" * Float64.eps)%Q
       ∧ (Qabs (n - pct "Negative" "negative") <= pct "Negative" "negative" * Float64.eps)%Q
       ∧ (Qabs (u - pct "Neutral" "neutral") <= pct "Neutral" "neutral" * Float64.eps)%Q)
    ∧ (absent "Positive" "positive" → p = 0%Q)
    ∧ (absent "Negative" "negative" → n = 0%Q)
    ∧ (absent "Neutral" "neutral" → u = 0%Q).
Proof.
  intros Hread Hcol labels value pct absent.
  unfold process_quarterly_file, find_sentiment_column.
  rewrite Hread, decide_True by done.
  do 3 eexists. split; [reflexivity|].
  split; [by rewrite !get_label|]. split; [by rewrite !get_label|].
  split; [by rewrite !get_label|].
  split.
  - intros Hlen.
    split; [|split]; apply Float64.within_abs;
      try apply exact_percentage_nonneg; by apply two_spellings.
  - split; [|split]; intros [Ha Hb]; by apply two_spellings_absent.
Qed.

End Visualizer.

(** *** A few partitions, for the examples *)

Definition cfg_data : Config.config := QuarterlyDataProcessor.cfg_data.

Definition opinion (txt : string) (label : option string) : row :=
  let r : row := <["text" := CStr txt]> ∅ in
  match label with
  | Some l => <["sentiment" := CStr l]> r
  | None => r
  end.

Definition shouting : DataFrame :=
  {| columns := ["text"; "sentiment"];
     rows := [opinion "a" (Some "POSITIVE"); opinion "b" (Some "Negative")] |}.

Definition half_labelled : DataFrame :=
  {| columns := ["text"; "sentiment"];
     rows := [opinion "a" (Some "Positive"); opinion "b" None] |}.

Definition unlabelled : DataFrame :=
  {| columns := ["text"; "UTC_Time"]; rows := [opinion "a" None] |}.

(** Q1 of 2024 has no [sentiment] column, Q2 is a good partition, Q3
    cannot be read, Q4 does not exist. *)
Definition partitions_2024 : files :=
  <["data\2024_Q1.xlsx" := Workbook unlabelled]>
    (<["data\2024_Q2.xlsx" := Workbook shouting]>
       (<["data\2024_Q3.xlsx" := Unreadable]> ∅)).

Example partition_row :
  process_quarterly_file partitions_2024 init "data\2024_Q2.xlsx" "2024_Q2"
  = ({| quarter := ["2024_Q2"]; positive := [0%Q]; negative := [50%Q]; neutral := [0%Q] |},
     true).
Proof. vm_compute. reflexivity. Qed.

(** Two labels [Positive] and nine [positive]: the shares
    18.181818181818183 and 81.81818181818183 add up to
    100.00000000000001, which is [100 + 2^-46]. *)
Definition eleven_positive : DataFrame :=
  {| columns := ["text"; "sentiment"];
     rows := replicate 2 (opinion "a" (Some "Positive"))
             ++ replicate 9 (opinion "b" (Some "positive")) |}.

Example rounding_above_100 :
  (process_quarterly_file (<["p" := Workbook eleven_positive]> ∅) init "p" "2024_Q1").1
  = {| quarter := ["2024_Q1"];
       positive := [(7036874417766401 # 70368744177664)%Q];
       negative := [0%Q]; neutral := [0%Q] |}
  ∧ (100 < 7036874417766401 # 70368744177664)%Q.
Proof. split; vm_compute; reflexivity. Qed.

(** One label of each class: three times 33.33333333333333, which add
    up to less than 100. *)
Definition one_of_each : DataFrame :=
  {| columns := ["text"; "sentiment"];
     rows := [opinion "a" (Some "Positive"); opinion "b" (Some "Negative");
              opinion "c" (Some "Neutral")] |}.

Example rounding_below_100 :
  (process_quarterly_file (<["p" := Workbook one_of_each]> ∅) init "p" "2024_Q1").1
  = {| quarter := ["2024_Q1"];
       positive := [(2345624805922133 # 70368744177664)%Q];
       negative := [(2345624805922133 # 70368744177664)%Q];
       neutral := [(2345624805922133 # 70368744177664)%Q] |}
  ∧ (3 * (2345624805922133 # 70368744177664) < 100)%Q.
Proof. split; vm_compute; reflexivity. Qed.

(** An empty label is left out of the total: one [Positive] label
    beside one empty cell is 100 percent. *)
Example empty_label_not_in_total :
  (process_quarterly_file (<["p" := Workbook half_labelled]> ∅) init "p" "2024_Q1").1
  = {| quarter := ["2024_Q1"]; positive := [100%Q]; negative := [0%Q]; neutral := [0%Q] |}.
Proof. vm_compute. reflexivity. Qed.

(** C6 fails on the code: a label in another spelling than the two the
    code names is not counted.  One record of two is labelled
    [POSITIVE]: the claim's percentage is 50, the code reports 0.
    Moreover a record without label is left out of the total (one
    [Positive] beside an empty label: the claim's percentage is 50, the
    code reports 100), and the floating point result is not the quotient
    (two [Positive] and nine [positive]: the claim's percentage is 100, the
    code reports [100 + 2^-46]). *)
Lemma upper_case_label_not_counted :
  positive (process_quarterly_file partitions_2024 init "data\2024_Q2.xlsx" "2024_Q2").1
  = [0%Q]
  ∧ (share_ignoring_case "Positive" shouting == 50)%Q
  ∧ ¬ (0 == share_ignoring_case "Positive" shouting)%Q
  ∧ positive (process_quarterly_file (<["p" := Workbook half_labelled]> ∅) init "p"
                "2024_Q1").1
    = [100%Q]
  ∧ (share_ignoring_case "Positive" half_labelled == 50)%Q
  ∧ positive (process_quarterly_file (<["p" := Workbook eleven_positive]> ∅) init "p"
                "2024_Q1").1
    = [(7036874417766401 # 70368744177664)%Q]
  ∧ (share_ignoring_case "Positive" eleven_positive == 100)%Q
  ∧ ¬ (7036874417766401 # 70368744177664 == 100)%Q.
Proof.
  split; [vm_compute; reflexivity|]. split; [vm_compute; reflexivity|].
  split; [vm_compute; discriminate|].
  split; [vm_compute; reflexivity|]. split; [vm_compute; reflexivity|].
  split; [vm_compute; reflexivity|]. split; [vm_compute; reflexivity|].
  vm_compute. discriminate.
Qed.

Lemma process_quarterly_file_percentages_witness :
  ∃ p : Q,
    positive (process_quarterly_file (<["p" := Workbook one_of_each]> ∅) init "p"
                "2024_Q1").1
    = [p]
    ∧ p = (2345624805922133 # 70368744177664)%Q
    ∧ (Qabs (p - 100 * inject_Z 1 / inject_Z 3) <= 100 * inject_Z 1 / inject_Z 3 * Float64.eps)%Q.
Proof.
  destruct (process_quarterly_file_percentages (<["p" := Workbook one_of_each]> ∅) init
              "p" "2024_Q1" one_of_each)
    as (p & n & u & Hfile & Hp & _ & _ & Hbound & _).
  - vm_compute. reflexivity.
  - unfold one_of_each. simpl. rewrite !elem_of_cons. auto.
  - exists p. split; [by rewrite Hfile|]. split.
    + rewrite Hp. vm_compute. reflexivity.
    + apply Hbound. vm_compute. reflexivity.
Defined.

(** C9 fails on the code: the partitions of Q1 and Q3 exist, and neither
    has a row in the output. *)
Lemma existing_partition_without_row :
  exists_ partitions_2024 (Config.get_quarterly_file_path cfg_data (Py.str 2024) "Q1")
  ∧ exists_ partitions_2024 (Config.get_quarterly_file_path cfg_data (Py.str 2024) "Q3")
  ∧ collect_data cfg_data partitions_2024 init (2024, 2024)%Z
    = ({| quarter := ["2024_Q2"]; positive := [0%Q];
          negative := [50%Q]; neutral := [0%Q] |}, 1).
Proof.
  split; [|split].
  - vm_compute. eexists. reflexivity.
  - vm_compute. eexists. reflexivity.
  - vm_compute. reflexivity.
Qed.

Lemma collect_data_rows_witness :
  quarter_name 2024 "Q2" ∈ quarter (collect_data cfg_data partitions_2024 init (2024, 2024)%Z).1
  ∧ quarter_name 2024 "Q1" ∉ quarter (collect_data cfg_data partitions_2024 init (2024, 2024)%Z).1.
Proof.
  destruct (collect_data_rows cfg_data partitions_2024 2024 2024)
    as (kept & _ & _ & _ & _ & _ & _ & Hrow).
  split.
  - apply Hrow; [lia | unfold quarters; rewrite !elem_of_cons; auto |].
    apply (bool_decide_unpack _). vm_compute. exact I.
  - intros Hin. apply Hrow in Hin; [| lia | unfold quarters; rewrite !elem_of_cons; auto].
    apply (bool_decide_pack _) in Hin. vm_compute in Hin. exact Hin.
Defined.

End SentimentVisualizer.

(** ** Further properties of sentiment_gpt.py *)

Module ClassificationProperties.

Import SentimentAnalyzer.

(** The batches the loop of [analyze_file] cuts:
    [documents[i:i + batch_size]] for [i] in
    [range(0, total_docs, batch_size)]. *)
Definition batches (batch_size : Z) (documents : list string) : result (list (list string)) :=
  match Py.range 0 (Z.of_nat (length documents)) batch_size with
  | Ok indices => Ok ((λ i, Py.slice documents i (i + batch_size)) <$> indices)
  | Raise e => Raise e
  end.

(** The label the entry at position [i] of a chunk gets from the list
    [labels] of a reply: the label at that position, [Neutral] past the
    end of the list. *)
Definition label_at (labels : list json) (i : nat) : json :=
  default Neutral (labels !! i).

(** A parsed reply that carries no labels the engine can use: it is not
    an object, or it is an object without a ["sentiments"] member, or the
    member is [null], a boolean or a number. *)
Inductive no_labels : json → Prop :=
| not_an_object v : (∀ members, v ≠ JObj members) → no_labels v
| no_member members : Pyv.assoc "sentiments" members = None → no_labels (JObj members)
| member_null members :
    Pyv.assoc "sentiments" members = Some JNull → no_labels (JObj members)
| member_bool members b :
    Pyv.assoc "sentiments" members = Some (JBool b) → no_labels (JObj members)
| member_number members m e :
    Pyv.assoc "sentiments" members = Some (JNum m e) → no_labels (JObj members).

Section Properties.

Variable client : Type.
Variable create : client → string → string → client * result (option string).
Variable json_loads : string → result json.
Variable cfg : Config.config.

Lemma batch_loop_batches documents indices c results :
  batch_loop client create json_loads cfg documents indices c results
  = foldl (λ acc batch, process_batch client create json_loads cfg acc.1 acc.2 batch)
      (c, results)
      ((λ i, Py.slice documents i (i + Config.BATCH_SIZE cfg)) <$> indices).
Proof.
  unfold batch_loop. revert c results.
  induction indices as [|i indices IH]; intros c results; [done|].
  simpl. destruct (process_batch _ _ _ _ c results _) as [c' results']. apply IH.
Qed.

(** X1. With a positive batch size, the batches are consecutive pieces of
    the documents: there are ceil(n / batch_size) of them, none is empty,
    none is longer than the batch size, all but the last have exactly the
    batch size, and put end to end they are the documents. *)
Theorem batches_partition (batch_size : Z) (documents : list string) :
  (0 < batch_size)%Z →
  ∃ bs : list (list string),
    batches batch_size documents = Ok bs
    ∧ concat bs = documents
    ∧ length bs = Z.to_nat ((Z.of_nat (length documents) + batch_size - 1) / batch_size)
    ∧ Forall (λ b, 0 < length b ≤ Z.to_nat batch_size) bs
    ∧ ∀ k b, bs !! k = Some b → S k < length bs → length b = Z.to_nat batch_size.
Proof.
  intros Hpos. unfold batches.
  destruct (Py.range 0 (Z.of_nat (length documents)) batch_size) as [indices|e] eqn:Hrange.
  2:{ unfold Py.range in Hrange. destruct (Z.eqb_spec batch_size 0); [lia|].
      discriminate. }
  eexists. split; [reflexivity|].
  split; [by apply chunks_cover|].
  unfold Py.range in Hrange.
  destruct (Z.eqb_spec batch_size 0) as [|_]; [lia|].
  destruct (Z.ltb_spec 0 batch_size) as [_|]; [|lia].
  injection Hrange as <-.
  set (n := length documents). set (step := Z.to_nat batch_size).
  set (m := Z.to_nat ((Z.of_nat n - 0 + batch_size - 1) / batch_size)).
  assert (0 < step) as Hstep by lia.
  assert (n ≤ m * step ∧ (m = 0 ∨ (m - 1) * step < n)) as [Hcover Htight].
  { pose proof (Z.div_mod (Z.of_nat n - 0 + batch_size - 1) batch_size ltac:(lia)) as Hdm.
    pose proof (Z.mod_pos_bound (Z.of_nat n - 0 + batch_size - 1) batch_size Hpos) as Hmod.
    assert (0 <= (Z.of_nat n - 0 + batch_size - 1) / batch_size)%Z
      by (apply Z.div_pos; lia).
    subst m step. split; [nia|].
    destruct (decide (Z.to_nat ((Z.of_nat n - 0 + batch_size - 1) / batch_size) = 0));
      [by left | right; nia]. }
  assert (∀ k b,
            ((λ i, Py.slice documents i (i + batch_size))
               <$> ((λ k : nat, (0 + Z.of_nat k * batch_size)%Z) <$> seq 0 m)) !! k = Some b →
            k < m ∧ b = take step (drop (k * step) documents)) as Hlookup.
  { intros k b Hk. rewrite <- list_fmap_compose, list_lookup_fmap in Hk.
    destruct (seq 0 m !! k) as [k'|] eqn:Hseq; [|done].
    apply lookup_seq in Hseq as [-> Hlt]. simpl in Hk. injection Hk as <-.
    split; [lia|]. by rewrite slice_step. }
  split; [by rewrite !length_fmap, length_seq; subst m; do 2 f_equal; lia|].
  split.
  - apply Forall_forall. intros b Hb. apply list_elem_of_lookup in Hb as [k Hk].
    apply Hlookup in Hk as [Hk ->]. rewrite length_take, length_drop. fold n.
    destruct Htight as [->|Htight]; [lia|]. nia.
  - intros k b Hk Hlast. apply Hlookup in Hk as [Hk ->].
    rewrite !length_fmap, length_seq in Hlast.
    rewrite length_take, length_drop. fold n.
    destruct Htight as [->|Htight]; [lia|]. nia.
Qed.

(** X2. With a positive batch size and at least one document,
    [analyze_file] is the loop body run over the batches one after the
    other, each call continuing from the client state the previous one
    left; the final validation adds nothing. *)
Theorem analyze_file_runs_batches (c : client) (documents : list string)
    (bs : list (list string)) :
  (0 < Config.BATCH_SIZE cfg)%Z →
  documents ≠ [] →
  batches (Config.BATCH_SIZE cfg) documents = Ok bs →
  analyze_file client create json_loads cfg c documents
  = ((foldl (λ acc batch, process_batch client create json_loads cfg acc.1 acc.2 batch)
        (c, []) bs).1,
     Ok (Saved (foldl (λ acc batch,
                         process_batch client create json_loads cfg acc.1 acc.2 batch)
                  (c, []) bs).2)).
Proof.
  intros Hpos Hne Hbs. unfold analyze_file, batches in *.
  destruct documents as [|d documents]; [done|].
  destruct (Py.range 0 _ (Config.BATCH_SIZE cfg)) as [indices|e] eqn:Hrange; [|done].
  injection Hbs as <-.
  pose proof (batch_loop_texts client create json_loads cfg (d :: documents) indices c [])
    as Htexts.
  rewrite (chunks_cover _ _ _ Hpos Hrange) in Htexts.
  rewrite batch_loop_batches in *.
  destruct (foldl _ (c, []) _) as [c' results]. simpl in Htexts.
  apply (f_equal length) in Htexts. rewrite length_fmap in Htexts.
  cbv zeta. apply Nat.eqb_eq in Htexts. rewrite Htexts. done.
Qed.

Lemma final_validation_neutral turns documents k :
  k ≤ length documents → length documents ≤ k + turns →
  final_validation turns documents (neutral_record <$> take k documents)
  = neutral_record <$> documents.
Proof.
  revert k. induction turns as [|turns IH]; intros k Hk Hturns; simpl.
  - by rewrite take_ge by lia.
  - rewrite length_fmap, length_take, Nat.min_l by lia.
    destruct (Nat.ltb_spec k (length documents)) as [Hlt|Hge].
    + destruct (lookup_lt_is_Some_2 documents k Hlt) as [d Hd].
      rewrite Hd. simpl.
      replace ((neutral_record <$> take k documents) ++ [ {| text := d; sentiment := Neutral |} ])
        with (neutral_record <$> take (S k) documents).
      * apply IH; lia.
      * by rewrite (take_S_r _ _ d), fmap_app.
    + by rewrite take_ge by lia.
Qed.

(** X3. A batch size that is not positive: with zero, the range raises
    [ValueError] out of [analyze_file] and no result is produced; with a
    negative size the loop has no turn, the service is never called (the
    client state is untouched), and the final validation labels every
    document [Neutral]. *)
Theorem analyze_file_without_batches (c : client) (documents : list string) :
  documents ≠ [] →
  (Config.BATCH_SIZE cfg = 0%Z →
   analyze_file client create json_loads cfg c documents = (c, Raise ValueError))
  ∧ ((Config.BATCH_SIZE cfg < 0)%Z →
     analyze_file client create json_loads cfg c documents
     = (c, Ok (Saved (neutral_record <$> documents)))).
Proof.
  intros Hne. destruct documents as [|d documents]; [done|]. split.
  - intros Hzero. unfold analyze_file, Py.range. by rewrite Hzero.
  - intros Hneg. unfold analyze_file.
    destruct (Py.range 0 _ (Config.BATCH_SIZE cfg)) as [indices|e] eqn:Hrange.
    + apply range_backwards_empty in Hrange; [|lia..]. subst indices.
      unfold batch_loop. cbn [foldl]. cbv zeta.
      change (length ([] : list labeled) =? length (d :: documents)) with false.
      cbn [negb]. do 3 f_equal.
      apply (final_validation_neutral (length (d :: documents)) (d :: documents) 0); lia.
    + unfold Py.range in Hrange. destruct (Z.eqb_spec (Config.BATCH_SIZE cfg) 0); [lia|].
      discriminate.
Qed.

(** *** The label at each position *)

Lemma zip_label_at (texts : list string) (labels : list json) :
  uncurry Build_labeled
    <$> Py.zip texts
          (take (length texts) (labels ++ replicate (length texts - length labels) Neutral))
  = imap (λ i t, {| text := t; sentiment := label_at labels i |}) texts.
Proof.
  revert labels. induction texts as [|t texts IH]; intros labels; [done|].
  destruct labels as [|l labels].
  - rewrite app_nil_l. change (length ([] : list json)) with 0.
    rewrite Nat.sub_0_r, take_ge by (by rewrite length_replicate).
    rewrite zip_replicate.
    rewrite (imap_ext _ (const neutral_record)); [by rewrite imap_const|].
    intros i t' _. unfold label_at. by rewrite lookup_nil.
  - simpl. f_equal. apply IH.
Qed.

(** X4. When the reply to a chunk is a JSON object whose ["sentiments"]
    member is a list, the entry appended for the text at position [i]
    carries the label at position [i] of that list, and [Neutral] when the
    list has no such position; labels past the end of the chunk are
    dropped. *)
Theorem process_batch_label_positions (c c' : client) (results : list labeled)
    (texts : list string) (s : string) (members : list (string * json))
    (labels : list json) :
  create c (Config.get_sentiment_prompt cfg) (user_content texts) = (c', Ok (Some s)) →
  Py.strip s ≠ "" →
  json_loads (Py.strip s) = Ok (JObj members) →
  Pyv.assoc "sentiments" members = Some (JArr labels) →
  process_batch client create json_loads cfg c results texts
  = (c', results ++ imap (λ i t, {| text := t; sentiment := label_at labels i |}) texts).
Proof.
  intros Hcreate Hne Hloads Hassoc.
  assert (classify_sentiment_batch client create json_loads cfg c texts
          = (c', JArr (take (length texts)
                         (labels ++ replicate (length texts - length labels) Neutral))))
    as Hcl.
  { unfold classify_sentiment_batch, classify_try. rewrite Hcreate. simpl.
    destruct (String.eqb_spec (Py.strip s) "") as [|_]; [done|].
    rewrite Hloads. simpl. rewrite Hassoc. simpl.
    destruct (Nat.eqb_spec (length labels) (length texts)) as [Heq|Hneq]; simpl.
    - rewrite Heq, Nat.sub_diag. simpl. rewrite app_nil_r, <- Heq. by rewrite firstn_all.
    - destruct (Nat.ltb_spec (length labels) (length texts)) as [Hlt|Hge]; simpl.
      + rewrite take_ge; [done|]. rewrite length_app, length_replicate. lia.
      + replace (length texts - length labels) with 0 by lia. simpl.
        by rewrite app_nil_r. }
  rewrite process_batch_eq, Hcl. simpl. unfold labels_of. simpl.
  by rewrite zip_label_at.
Qed.

(** X5. A reply that parses but carries no usable labels (not an object,
    no ["sentiments"] member, or a member that is [null], a boolean or a
    number) gives every text of the chunk the label [Neutral]. *)
Theorem reply_without_labels_all_neutral (c c' : client) (results : list labeled)
    (texts : list string) (s : string) (parsed : json) :
  create c (Config.get_sentiment_prompt cfg) (user_content texts) = (c', Ok (Some s)) →
  json_loads (Py.strip s) = Ok parsed →
  no_labels parsed →
  process_batch client create json_loads cfg c results texts
  = (c', results ++ (neutral_record <$> texts)).
Proof.
  intros Hcreate Hloads Hno.
  assert (classify_sentiment_batch client create json_loads cfg c texts
          = (c', JArr (replicate (length texts) Neutral))) as Hcl.
  { unfold classify_sentiment_batch, classify_try. rewrite Hcreate. simpl.
    destruct (String.eqb (Py.strip s) ""); [done|].
    rewrite Hloads. simpl.
    destruct Hno as [v Hv|members Hm|members Hm|members b Hm|members m e Hm]; simpl.
    - destruct v; try done. by destruct (Hv members).
    - rewrite Hm. simpl. rewrite Nat.sub_0_r.
      destruct texts as [|t texts]; simpl; done.
    - by rewrite Hm.
    - by rewrite Hm.
    - by rewrite Hm. }
  rewrite process_batch_eq, Hcl. simpl. unfold labels_of. simpl.
  by rewrite zip_replicate.
Qed.

Lemma zip_take {A B} (xs : list A) (ys : list B) :
  Py.zip xs (take (length xs) ys) = Py.zip xs ys.
Proof.
  revert ys. induction xs as [|x xs IH]; intros [|y ys]; simpl; try done.
  by rewrite IH.
Qed.

(** X6. When the ["sentiments"] member of the reply is a string instead
    of a list: a string with at least as many characters as the chunk has
    texts labels the text at position [i] with the one-character string at
    position [i]; a shorter string cannot be padded and every text of the
    chunk gets [Neutral]. *)
Theorem string_member_read_by_character (c c' : client) (results : list labeled)
    (texts : list string) (s w : string) (members : list (string * json)) :
  create c (Config.get_sentiment_prompt cfg) (user_content texts) = (c', Ok (Some s)) →
  Py.strip s ≠ "" →
  json_loads (Py.strip s) = Ok (JObj members) →
  Pyv.assoc "sentiments" members = Some (JStr w) →
  (length texts ≤ String.length w →
   process_batch client create json_loads cfg c results texts
   = (c', results ++ (uncurry Build_labeled <$> Py.zip texts (Pyv.chars w))))
  ∧ (String.length w < length texts →
     process_batch client create json_loads cfg c results texts
     = (c', results ++ (neutral_record <$> texts))).
Proof.
  intros Hcreate Hne Hloads Hassoc.
  assert (classify_sentiment_batch client create json_loads cfg c texts
          = (c', if String.length w <? length texts
                 then JArr (replicate (length texts) Neutral)
                 else JStr (String.substring 0 (length texts) w))) as Hcl.
  { unfold classify_sentiment_batch, classify_try. rewrite Hcreate. simpl.
    destruct (String.eqb_spec (Py.strip s) "") as [|_]; [done|].
    rewrite Hloads. simpl. rewrite Hassoc. simpl.
    destruct (Nat.eqb_spec (String.length w) (length texts)) as [Heq|Hneq]; simpl.
    - rewrite Heq, Nat.ltb_irrefl. do 2 f_equal. rewrite <- Heq. clear.
      induction w as [|a w IH]; simpl; [done | by rewrite <- IH]. 
    - by destruct (String.length w <? length texts). }
  rewrite process_batch_eq, Hcl. simpl. split; intros Hlen.
  - destruct (Nat.ltb_spec (String.length w) (length texts)); [lia|].
    unfold labels_of. simpl. by rewrite chars_substring, zip_take.
  - destruct (Nat.ltb_spec (String.length w) (length texts)); [|lia].
    unfold labels_of. simpl. by rewrite zip_replicate.
Qed.

End Properties.

(** *** Examples *)

Lemma batches_partition_witness :
  ∃ bs : list (list string),
    batches 2 five_texts = Ok bs
    ∧ concat bs = five_texts
    ∧ length bs = Z.to_nat ((Z.of_nat (length five_texts) + 2 - 1) / 2)
    ∧ Forall (λ b, 0 < length b ≤ Z.to_nat 2) bs
    ∧ ∀ k b, bs !! k = Some b → S k < length bs → length b = Z.to_nat 2.
Proof. apply (batches_partition 2 five_texts). lia. Defined.

Example batches_of_five :
  batches 2 five_texts = Ok [["t1"; "t2"]; ["t3"; "t4"]; ["t5"]].
Proof. vm_compute. reflexivity. Qed.

Lemma analyze_file_runs_batches_witness :
  analyze_file nat (scripted script_mixed) loads_labels cfg_batch2 0 five_texts
  = ((foldl (λ acc batch,
               process_batch nat (scripted script_mixed) loads_labels cfg_batch2
                 acc.1 acc.2 batch)
        (0, []) [["t1"; "t2"]; ["t3"; "t4"]; ["t5"]]).1,
     Ok (Saved (foldl (λ acc batch,
                         process_batch nat (scripted script_mixed) loads_labels cfg_batch2
                           acc.1 acc.2 batch)
                  (0, []) [["t1"; "t2"]; ["t3"; "t4"]; ["t5"]]).2)).
Proof.
  apply (analyze_file_runs_batches nat (scripted script_mixed) loads_labels cfg_batch2
           0 five_texts).
  - simpl. lia.
  - discriminate.
  - vm_compute. reflexivity.
Defined.

Definition cfg_batch0 : Config.config := {|
  Config.BASE_DATA_PATH := "data";
  Config.BATCH_SIZE := 0;
  Config.ANALYSIS_TOPIC := "nuclear power";
  Config.ANALYSIS_YEARS := [2024; 2025]%Z
|}.

Definition cfg_batch_neg : Config.config := {|
  Config.BASE_DATA_PATH := "data";
  Config.BATCH_SIZE := -30;
  Config.ANALYSIS_TOPIC := "nuclear power";
  Config.ANALYSIS_YEARS := [2024; 2025]%Z
|}.

Lemma analyze_file_without_batches_witness :
  analyze_file nat (scripted script_mixed) loads_labels cfg_batch0 0 five_texts
  = (0, Raise ValueError)
  ∧ analyze_file nat (scripted script_mixed) loads_labels cfg_batch_neg 0 five_texts
    = (0, Ok (Saved (neutral_record <$> five_texts))).
Proof.
  split.
  - apply (analyze_file_without_batches nat (scripted script_mixed) loads_labels
             cfg_batch0 0 five_texts); [discriminate | reflexivity].
  - apply (analyze_file_without_batches nat (scripted script_mixed) loads_labels
             cfg_batch_neg 0 five_texts); [discriminate | simpl; lia].
Defined.

(** Three labels for two texts, and one label for two texts. *)
Lemma process_batch_label_positions_witness :
  process_batch nat (scripted [Ok (Some (reply ["Negative"; "Positive"; "Neutral"]))])
    loads_labels cfg_batch2 0 [] ["t1"; "t2"]
  = (1, [] ++ imap (λ i t, {| text := t;
                             sentiment := label_at [Negative; Positive; Neutral] i |})
                ["t1"; "t2"])
  ∧ process_batch nat (scripted [Ok (Some (reply ["Negative"]))])
      loads_labels cfg_batch2 0 [] ["t1"; "t2"]
    = (1, [] ++ imap (λ i t, {| text := t; sentiment := label_at [Negative] i |})
                  ["t1"; "t2"]).
Proof.
  split.
  - apply (process_batch_label_positions nat _ loads_labels cfg_batch2 0 1 [] ["t1"; "t2"]
             (reply ["Negative"; "Positive"; "Neutral"])
             [("sentiments", JArr [Negative; Positive; Neutral])]);
      vm_compute; (reflexivity || discriminate).
  - apply (process_batch_label_positions nat _ loads_labels cfg_batch2 0 1 [] ["t1"; "t2"]
             (reply ["Negative"]) [("sentiments", JArr [Negative])]);
      vm_compute; (reflexivity || discriminate).
Defined.

(** A parser for the witnesses below: every text reads as the empty
    object, or as an object whose member is the string [Negative]. *)
Definition loads_empty_object (s : string) : result json := Ok (JObj []).

Definition loads_string_member (s : string) : result json :=
  Ok (JObj [("sentiments", JStr "Negative")]).

Lemma reply_without_labels_all_neutral_witness :
  process_batch nat (scripted [Ok (Some "{}")]) loads_empty_object cfg_batch2 0 []
    ["t1"; "t2"]
  = (1, [] ++ (neutral_record <$> ["t1"; "t2"])).
Proof.
  apply (reply_without_labels_all_neutral nat (scripted [Ok (Some "{}")])
           loads_empty_object cfg_batch2 0 1 [] ["t1"; "t2"] "{}" (JObj [])).
  - vm_compute. reflexivity.
  - reflexivity.
  - apply no_member. reflexivity.
Defined.

Lemma string_member_read_by_character_witness :
  process_batch nat (scripted [Ok (Some "reply")]) loads_string_member cfg_batch2 0 []
    ["t1"; "t2"]
  = (1, [] ++ [ {| text := "t1"; sentiment := JStr "N" |};
                {| text := "t2"; sentiment := JStr "e" |} ]).
Proof.
  apply (string_member_read_by_character nat (scripted [Ok (Some "reply")])
           loads_string_member cfg_batch2 0 1 [] ["t1"; "t2"] "reply" "Negative"
           [("sentiments", JStr "Negative")]).
  - vm_compute. reflexivity.
  - vm_compute. discriminate.
  - reflexivity.
  - reflexivity.
  - simpl. lia.
Defined.

End ClassificationProperties.

(** ** Further properties of divide_by_quarter.py *)

Module QuarterlyProperties.

Import Pd QuarterlyDataProcessor.

Definition quarter_names : list string := ["Q1"; "Q2"; "Q3"; "Q4"].

(** The table written for a quarter: the collected rows, after the rows of
    the partition that was there when it could be read. *)
Definition merged (fs : files) (path : string) (cols : list string) (collected : list row)
    : DataFrame :=
  match fs !! path with
  | Some (Workbook existing) => concat existing {| columns := cols; rows := collected |}
  | _ => {| columns := cols; rows := collected |}
  end.

(** The table [analyze_file] hands to the writer,
    [pd.DataFrame(results)] for a list of [{"text": ..., "sentiment": ...}]
    entries: the columns are the keys of the entries; [cell_of] is the
    cell a label is written as (no cell for a label written as empty). *)
Definition results_frame (cell_of : json → option cell)
    (results : list SentimentAnalyzer.labeled) : DataFrame :=
  {| columns := match results with
                | [] => []
                | _ => ["text"; "sentiment"]
                end;
     rows := (λ entry,
                let r : row := {["text" := CStr (SentimentAnalyzer.text entry)]} in
                match cell_of (SentimentAnalyzer.sentiment entry) with
                | Some c => <["sentiment" := c]> r
                | None => r
                end) <$> results |}.

(** Whether a character occurs in a string. *)
Fixpoint contains (c : ascii) (s : string) : bool :=
  match s with
  | EmptyString => false
  | String a s' => Ascii.eqb a c || contains c s'
  end.

(** The year of the data: the most frequent year among the timestamps of
    a converted table, ["unknown"] when it has none. *)
Definition year_of_data (df : DataFrame) : string :=
  match mode (omap (λ c, match c with
                         | CTime t => Some (Timestamp.year t)
                         | _ => None
                         end) (dropna (column df timestamp_column))) with
  | Some y => Py.str y
  | None => "unknown"
  end.

(** The name [process_all_files] gives the classified file of a year. *)
Definition results_name (year : Z) : string :=
  "results_" +:+ Py.str year +:+ "_sentiment.xlsx".

Section Properties.

Variable parse_timestamp : cell → option Timestamp.t.
Variable cfg : Config.config.

(** *** Names of the partition files *)

Lemma string_app_assoc (a b c : string) : (a +:+ b) +:+ c = a +:+ (b +:+ c).
Proof.
  induction a as [|x a IH]; [done|].
  change (String x ((a +:+ b) +:+ c) = String x (a +:+ (b +:+ c))). by rewrite IH.
Qed.

Lemma partition_path_inj_quarter (year q1 q2 : string) :
  Config.get_quarterly_file_path cfg year q1 = Config.get_quarterly_file_path cfg year q2 →
  q1 = q2.
Proof.
  unfold Config.get_quarterly_file_path. intros Heq.
  do 4 apply String.app_inj in Heq.
  by apply SentimentVisualizer.app_inj_tail in Heq as [-> _].
Qed.

Lemma suffix_of_quarter (q : string) :
  q ∈ quarter_names → String.length ("_" +:+ q +:+ ".xlsx") = 8.
Proof.
  unfold quarter_names. rewrite !elem_of_cons.
  intros [->|[->|[->|[->|Hq]]]]; try reflexivity. by apply elem_of_nil in Hq.
Qed.

(** X7. Two partitions share a file only when they are the same
    partition: for year names of any form and quarter names among Q1..Q4,
    the path of the partition file determines the year and the quarter. *)
Theorem partition_path_inj (year1 year2 q1 q2 : string) :
  q1 ∈ quarter_names → q2 ∈ quarter_names →
  Config.get_quarterly_file_path cfg year1 q1 = Config.get_quarterly_file_path cfg year2 q2 →
  year1 = year2 ∧ q1 = q2.
Proof.
  intros Hq1 Hq2 Heq. unfold Config.get_quarterly_file_path in Heq.
  do 2 apply String.app_inj in Heq.
  apply SentimentVisualizer.app_inj_tail in Heq as [-> Heq].
  - split; [done|]. apply String.app_inj in Heq.
    by apply SentimentVisualizer.app_inj_tail in Heq as [-> _].
  - by rewrite !suffix_of_quarter.
Qed.

(** Joining a folder and a name without drive that does not start
    with a separator puts the name at the end. *)
Lemma join_relative (folder name : string) :
  Path.splitdrive name = (EmptyString, name) →
  Path.first_is_sep name = false →
  ∃ front, Path.join folder name = front +:+ name.
Proof.
  intros Hsplit Hfirst. unfold Path.join. rewrite Hsplit, Hfirst.
  destruct (Path.splitdrive folder) as [drive path].
  cbn [Path.nonempty andb].
  set (path' := if Path.nonempty path && negb (Path.last_is Path.is_sep path)
                then path +:+ "\" else path).
  destruct (_ && _ && _ && _).
  - exists (drive +:+ "\" +:+ path'). by rewrite !string_app_assoc.
  - exists (drive +:+ path'). by rewrite !string_app_assoc.
Qed.

Lemma join_ends_with_name (folder : string) (year : Z) :
  ∃ front, Path.join folder (results_name year) = front +:+ results_name year.
Proof. by apply join_relative. Qed.

Lemma ends_differ (a b t1 t2 : string) :
  String.length t1 = String.length t2 → t1 ≠ t2 → a +:+ t1 ≠ b +:+ t2.
Proof.
  intros Hlen Hne Heq. by apply SentimentVisualizer.app_inj_tail in Heq as [_ Heq].
Qed.

(** No partition file has the name of a classified file. *)
Lemma partition_path_not_results folder (year : Z) (year' q : string) :
  q ∈ quarter_names →
  Path.join folder (results_name year) ≠ Config.get_quarterly_file_path cfg year' q.
Proof.
  intros Hq. destruct (join_ends_with_name folder year) as [front ->].
  replace (front +:+ results_name year)
    with ((front +:+ "results_" +:+ Py.str year +:+ "_sentim") +:+ "ent.xlsx")
    by (by rewrite !string_app_assoc).
  unfold quarter_names in Hq. rewrite !elem_of_cons in Hq.
  destruct Hq as [->|[->|[->|[->|Hq]]]]; [..|by apply elem_of_nil in Hq].
  - replace (Config.get_quarterly_file_path cfg year' "Q1")
      with ((Config.BASE_DATA_PATH cfg +:+ "\" +:+ year') +:+ "_Q1.xlsx")
      by (by rewrite !string_app_assoc).
    by apply ends_differ.
  - replace (Config.get_quarterly_file_path cfg year' "Q2")
      with ((Config.BASE_DATA_PATH cfg +:+ "\" +:+ year') +:+ "_Q2.xlsx")
      by (by rewrite !string_app_assoc).
    by apply ends_differ.
  - replace (Config.get_quarterly_file_path cfg year' "Q3")
      with ((Config.BASE_DATA_PATH cfg +:+ "\" +:+ year') +:+ "_Q3.xlsx")
      by (by rewrite !string_app_assoc).
    by apply ends_differ.
  - replace (Config.get_quarterly_file_path cfg year' "Q4")
      with ((Config.BASE_DATA_PATH cfg +:+ "\" +:+ year') +:+ "_Q4.xlsx")
      by (by rewrite !string_app_assoc).
    by apply ends_differ.
Qed.

(** *** What the save loop writes *)

Lemma save_quarter_writes year cols fs q collected :
  fs !! Config.get_quarterly_file_path cfg year q ≠ Some Unreadable →
  ∃ entry,
    save_quarter cfg year cols fs q collected
    = Ok (<[Config.get_quarterly_file_path cfg year q :=
              Workbook (merged fs (Config.get_quarterly_file_path cfg year q) cols collected)]>
            fs, entry).
Proof.
  intros Hok. unfold save_quarter, merged, to_excel.
  destruct (decide (exists_ fs (Config.get_quarterly_file_path cfg year q))) as [Hex|Hnex].
  - unfold read_excel.
    destruct (fs !! Config.get_quarterly_file_path cfg year q) as [[|existing]|] eqn:Hf;
      [done | simpl; eauto |].
    unfold exists_ in Hex. rewrite Hf in Hex. by destruct Hex.
  - unfold exists_ in Hnex.
    destruct (fs !! Config.get_quarterly_file_path cfg year q) as [f|] eqn:Hf;
      [|simpl; eauto].
    destruct Hnex. eauto.
Qed.

Lemma save_loop_frame year cols items fs saved p :
  (∀ q, q ∈ items.*1 → p ≠ Config.get_quarterly_file_path cfg year q) →
  (save_loop cfg year cols items fs saved).1 !! p = fs !! p.
Proof.
  revert fs saved. induction items as [|[q collected] items IH]; intros fs saved Hp; [done|].
  simpl. assert (∀ q', q' ∈ items.*1 → p ≠ Config.get_quarterly_file_path cfg year q')
    as Hrest by (intros q' Hq'; apply Hp; simpl; by right).
  destruct collected as [|r collected]; [by apply IH|].
  destruct (save_quarter cfg year cols fs q (r :: collected)) as [[fs' entry]|e] eqn:Hsave;
    [|done].
  rewrite IH by done.
  unfold save_quarter in Hsave.
  destruct (decide _); [destruct (read_excel fs _)|]; simpl in Hsave; try done;
    injection Hsave as <- _; unfold to_excel; apply lookup_insert_ne;
    intros Heq; by apply (Hp q); [left|].
Qed.

Lemma save_loop_writes year cols items fs saved :
  NoDup items.*1 →
  (∀ q, q ∈ items.*1 → fs !! Config.get_quarterly_file_path cfg year q ≠ Some Unreadable) →
  ∃ fs' saved',
    save_loop cfg year cols items fs saved = (fs', Ok saved')
    ∧ length saved' = length saved + length (filter (λ it, it.2 ≠ []) items)
    ∧ ∀ q collected, (q, collected) ∈ items →
        fs' !! Config.get_quarterly_file_path cfg year q
        = if decide (collected = []) then fs !! Config.get_quarterly_file_path cfg year q
          else Some (Workbook (merged fs (Config.get_quarterly_file_path cfg year q)
                                 cols collected)).
Proof.
  revert fs saved. induction items as [|[q0 c0] items IH]; intros fs saved Hnd Hok.
  { exists fs, saved. split; [done|]. split; [simpl; lia|].
    intros q c Hin. by apply elem_of_nil in Hin. }
  simpl in Hnd. apply NoDup_cons in Hnd as [Hq0 Hnd].
  assert (∀ q, q ∈ items.*1 →
               Config.get_quarterly_file_path cfg year q0
               ≠ Config.get_quarterly_file_path cfg year q) as Hfresh.
  { intros q Hq Heq. apply partition_path_inj_quarter in Heq. by subst. }
  simpl. destruct c0 as [|r c0].
  - destruct (IH fs saved Hnd) as (fs' & saved' & Hloop & Hlen & Hfiles).
    { intros q Hq. apply Hok. simpl. by right. }
    exists fs', saved'. split; [done|]. split.
    { rewrite filter_cons_False by (simpl; by intros []). done. }
    intros q c Hin. apply elem_of_cons in Hin as [[= -> ->]|Hin]; [|by apply Hfiles].
    rewrite decide_True by done.
    rewrite <- (save_loop_frame year cols items fs saved _ Hfresh). by rewrite Hloop.
  - destruct (save_quarter_writes year cols fs q0 (r :: c0)) as [entry Hsave].
    { apply Hok. simpl. by left. }
    rewrite Hsave.
    set (fs1 := <[Config.get_quarterly_file_path cfg year q0 := _]> fs) in *.
    assert (∀ q, q ∈ items.*1 →
                 fs1 !! Config.get_quarterly_file_path cfg year q
                 = fs !! Config.get_quarterly_file_path cfg year q) as Hsame.
    { intros q Hq. subst fs1. apply lookup_insert_ne. by apply Hfresh. }
    destruct (IH fs1 (saved ++ [entry]) Hnd) as (fs' & saved' & Hloop & Hlen & Hfiles).
    { intros q Hq. rewrite Hsame by done. apply Hok. simpl. by right. }
    exists fs', saved'. split; [done|]. split.
    { rewrite filter_cons_True by done. rewrite Hlen, length_app. simpl. lia. }
    intros q c Hin. apply elem_of_cons in Hin as [[= -> ->]|Hin].
    + rewrite decide_False by done.
      pose proof (save_loop_frame year cols items fs1 (saved ++ [entry]) _ Hfresh) as Hfr.
      rewrite Hloop in Hfr. simpl in Hfr. rewrite Hfr.
      subst fs1. by rewrite lookup_insert_eq.
    + assert (q ∈ items.*1) as Hq by (apply list_elem_of_fmap; by exists (q, c)).
      rewrite (Hfiles q c) by done. unfold merged. by rewrite !Hsame.
Qed.

(** The buckets of a converted table, as the loop leaves them. *)
Definition buckets (table : list row) : quarterly_data :=
  (λ q, (q, filter (λ r, quarter_of r = Some q) table)) <$> quarter_names.

Lemma bucket_rows_raw (rs : list row) :
  bucket_rows (to_datetime parse_timestamp <$> rs)
  = Ok {| quarterly := buckets (to_datetime parse_timestamp <$> rs);
          processed_count := length (filter (λ r, is_Some (parsed parse_timestamp r)) rs);
          skipped_count := length (filter (λ r, parsed parse_timestamp r = None) rs) |}.
Proof.
  rewrite bucket_rows_spec by apply converted_to_datetime. do 2 f_equal.
  - apply length_filter_fmap. intros r. rewrite quarter_of_to_datetime.
    destruct (parsed parse_timestamp r); simpl; [split; eauto|].
    split; by intros [? ?].
  - apply length_filter_fmap. intros r. rewrite quarter_of_to_datetime.
    by destruct (parsed parse_timestamp r).
Qed.

Lemma process_single_file_fst (fs : files) (file_path : string) :
  (process_single_file parse_timestamp cfg fs file_path).1
  = (process_single_file_try parse_timestamp cfg fs file_path).1.
Proof.
  unfold process_single_file.
  by destruct (process_single_file_try parse_timestamp cfg fs file_path).
Qed.

Lemma process_single_file_try_frame (fs : files) (file_path p : string) :
  (∀ year q, q ∈ quarter_names → p ≠ Config.get_quarterly_file_path cfg year q) →
  (process_single_file_try parse_timestamp cfg fs file_path).1 !! p = fs !! p.
Proof.
  intros Hp. unfold process_single_file_try.
  destruct (read_excel fs file_path) as [df|e]; [|done].
  destruct (decide (timestamp_column ∈ columns df)); [|done].
  cbn [rows columns]. rewrite bucket_rows_raw. cbn [quarterly].
  pose proof (save_loop_frame
                (resolve_year file_path
                   {| columns := columns df; rows := to_datetime parse_timestamp <$> rows df |})
                (columns df) (buckets (to_datetime parse_timestamp <$> rows df)) fs [] p)
    as Hframe.
  destruct (save_loop _ _ _ _ fs []) as [fs' saved]. simpl in *.
  apply Hframe. intros q Hq. apply Hp. exact Hq.
Qed.

(** X8. [process_single_file] writes partition files only: whatever the
    input and whether it succeeds or fails, every path that is not the
    path of a partition file ([<base>\<year>_Q1..Q4.xlsx] for some year
    name) holds afterwards what it held before. *)
Theorem process_single_file_writes_partitions_only (fs : files) (file_path p : string) :
  (∀ year q, q ∈ quarter_names → p ≠ Config.get_quarterly_file_path cfg year q) →
  (process_single_file parse_timestamp cfg fs file_path).1 !! p = fs !! p.
Proof.
  intros Hp. rewrite process_single_file_fst.
  by apply process_single_file_try_frame.
Qed.

Lemma filter_none {A} (P : A → Prop) `{!∀ x, Decision (P x)} (l : list A) :
  (∀ x, x ∈ l → ¬ P x) → filter P l = [].
Proof.
  induction l as [|x l IH]; intros Hl; [done|].
  rewrite filter_cons_False by (apply Hl; by left).
  apply IH. intros y Hy. apply Hl. by right.
Qed.

Lemma filter_all {A} (P : A → Prop) `{!∀ x, Decision (P x)} (l : list A) :
  (∀ x, x ∈ l → P x) → filter P l = l.
Proof.
  induction l as [|x l IH]; intros Hl; [done|].
  rewrite filter_cons_True by (apply Hl; by left).
  f_equal. apply IH. intros y Hy. apply Hl. by right.
Qed.

(** X9. An input whose rows all lack a usable timestamp (empty or not
    parsed) is processed without error and writes nothing: the file
    system is unchanged and the report counts no processed row, every row
    as skipped, and no saved file. *)
Theorem no_timestamp_nothing_written (fs : files) (file_path : string) (df : DataFrame) :
  read_excel fs file_path = Ok df →
  timestamp_column ∈ columns df →
  (∀ r, r ∈ rows df → parsed parse_timestamp r = None) →
  process_single_file parse_timestamp cfg fs file_path
  = (fs, Generated 0 (length (rows df)) []).
Proof.
  intros Hread Hcol Hnone. unfold process_single_file, process_single_file_try.
  rewrite Hread, decide_True by done. cbn [rows columns].
  rewrite bucket_rows_raw. cbn [quarterly processed_count skipped_count].
  assert (∀ q, filter (λ r, quarter_of r = Some q) (to_datetime parse_timestamp <$> rows df)
               = []) as Hempty.
  { intros q. apply filter_none. intros r' Hr'.
    apply list_elem_of_fmap in Hr' as (r & -> & Hr).
    rewrite quarter_of_to_datetime, (Hnone r Hr). done. }
  unfold buckets, quarter_names. simpl. rewrite !Hempty. simpl.
  rewrite filter_none, filter_all; [done | done |].
  intros r Hr. rewrite (Hnone r Hr). by intros [? ?].
Qed.

Lemma process_single_file_try_merges (fs : files) (file_path : string)
    (df : DataFrame) :
  let table := to_datetime parse_timestamp <$> rows df in
  let year := resolve_year file_path {| columns := columns df; rows := table |} in
  read_excel fs file_path = Ok df →
  timestamp_column ∈ columns df →
  (∀ q, q ∈ quarter_names →
        fs !! Config.get_quarterly_file_path cfg year q ≠ Some Unreadable) →
  ∃ fs' saved_files,
    process_single_file_try parse_timestamp cfg fs file_path
    = (fs', Ok (Generated
                  (length (filter (λ r, is_Some (parsed parse_timestamp r)) (rows df)))
                  (length (filter (λ r, parsed parse_timestamp r = None) (rows df)))
                  saved_files))
    ∧ length saved_files = length (filter (λ it, it.2 ≠ []) (buckets table))
    ∧ ∀ q, q ∈ quarter_names →
        fs' !! Config.get_quarterly_file_path cfg year q
        = if decide (filter (λ r, quarter_of r = Some q) table = [])
          then fs !! Config.get_quarterly_file_path cfg year q
          else Some (Workbook (merged fs (Config.get_quarterly_file_path cfg year q)
                                 (columns df)
                                 (filter (λ r, quarter_of r = Some q) table))).
Proof.
  intros table year Hread Hcol Hok.
  destruct (save_loop_writes year (columns df) (buckets table) fs [])
    as (fs' & saved & Hloop & Hlen & Hfiles).
  { unfold buckets, quarter_names. simpl. by apply (bool_decide_unpack _). }
  { intros q Hq. apply Hok. exact Hq. }
  exists fs', saved. split; [|split].
  - unfold process_single_file_try.
    rewrite Hread, decide_True by done. cbn [rows columns]. fold table.
    unfold table at 1. rewrite bucket_rows_raw.
    cbn [quarterly processed_count skipped_count]. fold table. fold year.
    by rewrite Hloop.
  - exact Hlen.
  - intros q Hq. apply Hfiles. unfold buckets. apply list_elem_of_fmap. eauto.
Qed.

(** X10. When none of the four partition files of the resolved year is
    unreadable, [process_single_file] succeeds: it reports the number of
    rows with and without a usable timestamp and one saved file per
    quarter that has rows, and for each quarter the partition file is left
    as it was when the quarter has no row and otherwise holds the rows of
    the partition that was there followed by the rows of the quarter, in
    table order. *)
Theorem process_single_file_merges_each_quarter (fs : files) (file_path : string)
    (df : DataFrame) :
  let table := to_datetime parse_timestamp <$> rows df in
  let year := resolve_year file_path {| columns := columns df; rows := table |} in
  read_excel fs file_path = Ok df →
  timestamp_column ∈ columns df →
  (∀ q, q ∈ quarter_names →
        fs !! Config.get_quarterly_file_path cfg year q ≠ Some Unreadable) →
  ∃ fs' saved_files,
    process_single_file parse_timestamp cfg fs file_path
    = (fs', Generated (length (filter (λ r, is_Some (parsed parse_timestamp r)) (rows df)))
              (length (filter (λ r, parsed parse_timestamp r = None) (rows df)))
              saved_files)
    ∧ length saved_files = length (filter (λ it, it.2 ≠ []) (buckets table))
    ∧ ∀ q, q ∈ quarter_names →
        fs' !! Config.get_quarterly_file_path cfg year q
        = if decide (filter (λ r, quarter_of r = Some q) table = [])
          then fs !! Config.get_quarterly_file_path cfg year q
          else Some (Workbook (merged fs (Config.get_quarterly_file_path cfg year q)
                                 (columns df)
                                 (filter (λ r, quarter_of r = Some q) table))).
Proof.
  intros table year Hread Hcol Hok.
  destruct (process_single_file_try_merges fs file_path df Hread Hcol Hok)
    as (fs' & saved_files & Hrun & Hsaved & Hfiles).
  exists fs', saved_files. split; [|by split].
  unfold process_single_file. by rewrite Hrun.
Qed.

(** *** The batch *)

Lemma process_files_frame folder names fs p :
  (∀ year q, q ∈ quarter_names → p ≠ Config.get_quarterly_file_path cfg year q) →
  (process_files parse_timestamp cfg folder names fs).1 !! p = fs !! p.
Proof.
  intros Hp. revert fs. induction names as [|name names IH]; intros fs; [done|].
  rewrite process_files_cons. cbn [fst]. rewrite IH, process_single_file_fst.
  by apply process_single_file_try_frame.
Qed.

(** X11. [process_all_files] never changes a classified file: for every
    folder and year, the file [results_<year>_sentiment.xlsx] holds after
    the run what it held before, whichever files the run processed and
    whether they succeeded. *)
Theorem process_all_files_keeps_results (source_folder folder : string) (year : Z)
    (fs : files) :
  (process_all_files parse_timestamp cfg source_folder fs).1
    !! Path.join folder (results_name year)
  = fs !! Path.join folder (results_name year).
Proof.
  unfold process_all_files.
  destruct (decide (exists_ fs source_folder)); [|done].
  destruct (filter _ _) as [|name names]; [done|].
  apply process_files_frame. intros year' q Hq. by apply partition_path_not_results.
Qed.

Lemma process_single_file_no_column fs file_path :
  (∀ df, fs !! file_path = Some (Workbook df) → timestamp_column ∉ columns df) →
  is_Some (fs !! file_path) →
  process_single_file parse_timestamp cfg fs file_path = (fs, Failed ValueError).
Proof.
  intros Hcol [f Hf]. unfold process_single_file, process_single_file_try, read_excel.
  rewrite Hf. destruct f as [|df]; [done|].
  rewrite decide_False; [done|]. by apply Hcol.
Qed.

Lemma process_files_no_column folder names fs :
  (∀ name, name ∈ names →
     is_Some (fs !! Path.join folder name)
     ∧ ∀ df, fs !! Path.join folder name = Some (Workbook df) →
             timestamp_column ∉ columns df) →
  process_files parse_timestamp cfg folder names fs
  = (fs, replicate (length names) (Failed ValueError)).
Proof.
  induction names as [|name names IH]; intros Hnames; [done|].
  rewrite process_files_cons.
  destruct (Hnames name) as [Hex Hcol]; [by left|].
  rewrite process_single_file_no_column by done. cbn [fst snd].
  rewrite IH; [done|]. intros name' Hin. apply Hnames. by right.
Qed.

(** X12. The tables [analyze_file] writes have the columns [text] and
    [sentiment] and no [UTC_Time] column.  When every classified file
    found in the folder is such a table, [process_all_files] reports
    [ValueError] for each of them and leaves the file system as it was: no
    partition is written. *)
Theorem process_all_files_rejects_classifier_output (cell_of : json → option cell)
    (source_folder : string) (fs : files) :
  (∀ year, year ∈ Config.ANALYSIS_YEARS cfg →
     exists_ fs (Path.join source_folder (results_name year)) →
     ∃ results,
       fs !! Path.join source_folder (results_name year)
       = Some (Workbook (results_frame cell_of results))) →
  (process_all_files parse_timestamp cfg source_folder fs).1 = fs
  ∧ Forall (λ o, o = Failed ValueError)
      (process_all_files parse_timestamp cfg source_folder fs).2.
Proof.
  intros Hfiles. unfold process_all_files.
  destruct (decide (exists_ fs source_folder)); [|by split].
  destruct (filter _ _) as [|name names] eqn:Hnames; [by split|].
  rewrite process_files_no_column.
  - split; [done|]. apply Forall_replicate. done.
  - intros name' Hin. rewrite <- Hnames in Hin.
    apply list_elem_of_filter in Hin as [Hex Hin].
    apply list_elem_of_fmap in Hin as (year & -> & Hyear).
    split; [exact Hex|]. intros df Hdf.
    destruct (Hfiles year Hyear Hex) as [results Hres]. unfold results_name in *.
    rewrite Hres in Hdf. injection Hdf as <-.
    unfold results_frame, timestamp_column. simpl.
    destruct results; by apply (bool_decide_unpack _).
Qed.

(** *** The year of the partitions *)

Lemma split_nonempty sep s : ∃ piece pieces, Py.split sep s = piece :: pieces.
Proof.
  destruct s as [|c s]; simpl; [eauto|].
  destruct (Ascii.eqb c sep); [eauto|]. destruct (Py.split sep s); eauto.
Qed.

Lemma split_app sep (s t : string) :
  Py.split sep (s +:+ String sep t) = Py.split sep s ++ Py.split sep t.
Proof.
  induction s as [|c s IH].
  - change (Py.split sep (String sep t) = [EmptyString] ++ Py.split sep t).
    simpl. by rewrite Ascii.eqb_refl.
  - change (Py.split sep (String c (s +:+ String sep t))
            = Py.split sep (String c s) ++ Py.split sep t).
    simpl. rewrite IH. destruct (Ascii.eqb c sep); [done|].
    by destruct (split_nonempty sep s) as (piece & pieces & ->).
Qed.

Lemma split_whole sep (s : string) : contains sep s = false → Py.split sep s = [s].
Proof.
  induction s as [|c s IH]; [done|]. simpl. intros Hc.
  apply orb_false_iff in Hc as [Hc Hs]. by rewrite Hc, IH.
Qed.

Lemma contains_app c (s t : string) :
  contains c (s +:+ t) = contains c s || contains c t.
Proof.
  induction s as [|a s IH]; [done|].
  change (contains c (String a (s +:+ t)) = contains c (String a s) || contains c t).
  simpl. by rewrite IH, orb_assoc.
Qed.

Lemma digits_contain (c : ascii) (s : string) :
  Py.isdigit_char c = false → Py.all_digits s = true → contains c s = false.
Proof.
  intros Hc. induction s as [|a s IH]; [done|]. simpl. intros Hs.
  apply andb_true_iff in Hs as [Ha Hs]. rewrite IH by done.
  destruct (Ascii.eqb_spec a c) as [->|]; [congruence | done].
Qed.

Lemma tail_without_sep (t : string) : Path.has_sep t = false → Path.tail t = t.
Proof.
  destruct t as [|c t]; [done|]. simpl. intros Hc.
  apply orb_false_iff in Hc as [Hc Ht]. by rewrite Ht, Hc.
Qed.

Lemma tail_keeps_ending (x t : string) :
  Path.has_sep t = false → ∃ front, Path.tail (x +:+ t) = front +:+ t.
Proof.
  intros Ht. induction x as [|c x [front IH]].
  - exists "". by apply tail_without_sep.
  - change (∃ front, Path.tail (String c (x +:+ t)) = front +:+ t). simpl.
    destruct (Path.has_sep (x +:+ t)); [by exists front|].
    destruct (Path.is_sep c); [by exists x | by exists (String c x)].
Qed.

Lemma find_sep_none (s : string) (start : nat) :
  Path.has_sep s = false → Path.find_sep s start = None.
Proof.
  revert start. induction s as [|c s IH]; intros start; [done|]. simpl.
  intros Hc. apply orb_false_iff in Hc as [Hc Hs].
  destruct start; rewrite ?Hc, IH by done; done.
Qed.

Lemma find_sep_in_front (x t : string) (start i : nat) :
  Path.has_sep t = false →
  Path.find_sep (x +:+ t) start = Some i → i < String.length x.
Proof.
  intros Ht. revert start i. induction x as [|c x IH]; intros start i.
  - change (EmptyString +:+ t) with t. by rewrite find_sep_none.
  - change (String c x +:+ t) with (String c (x +:+ t)). simpl.
    destruct start as [|start].
    + destruct (Path.is_sep c); [intros [= <-]; lia|].
      destruct (Path.find_sep (x +:+ t) 0) as [j|] eqn:Hj; [|done].
      intros [= <-]. apply IH in Hj. lia.
    + destruct (Path.find_sep (x +:+ t) start) as [j|] eqn:Hj; [|done].
      intros [= <-]. apply IH in Hj. lia.
Qed.

Lemma suffix_from_app (n : nat) (x t : string) :
  n ≤ String.length x → Path.suffix_from n (x +:+ t) = Path.suffix_from n x +:+ t.
Proof.
  revert x. induction n as [|n IH]; intros x Hn.
  - by destruct x.
  - destruct x as [|c x]; [simpl in Hn; lia|].
    change (String c x +:+ t) with (String c (x +:+ t)). simpl.
    apply IH. simpl in Hn. lia.
Qed.

(** The part of a path after its drive keeps an ending without
    separators, unless the drive is the whole path. *)
Lemma splitdrive_keeps_ending (x t : string) :
  Path.has_sep t = false → 2 ≤ String.length x →
  (Path.splitdrive (x +:+ t)).2 = EmptyString
  ∨ ∃ front, (Path.splitdrive (x +:+ t)).2 = front +:+ t.
Proof.
  intros Ht Hx. destruct x as [|a [|b x]]; [simpl in Hx; lia..|].
  set (p := String a (String b x) +:+ t).
  change (String a (String b x) +:+ t) with (String a (String b (x +:+ t))) in p.
  unfold Path.splitdrive. subst p. cbv beta iota.
  destruct (Path.is_sep a && Path.is_sep b).
  - destruct (Path.find_sep _ _) as [index|]; [|by left].
    destruct (Path.find_sep _ (index + 1)) as [index2|] eqn:Hfind; [|by left].
    right. simpl.
    change (String a (String b (x +:+ t))) with (String a (String b x) +:+ t) in *.
    apply find_sep_in_front in Hfind; [|done].
    exists (Path.suffix_from index2 (String a (String b x))).
    apply suffix_from_app. lia.
  - destruct (Ascii.eqb b ":"); right; [by exists x | by exists (String a (String b x))].
Qed.

(** The base name of a classified file ends with [_sentiment.xlsx], or
    is empty when the folder is a share point that takes the name in. *)
Lemma results_file_basename (folder : string) (year : Z) :
  Path.basename (Path.join folder (results_name year)) = EmptyString
  ∨ ∃ front, Path.basename (Path.join folder (results_name year))
             = front +:+ "_sentiment.xlsx".
Proof.
  destruct (join_ends_with_name folder year) as [pre ->].
  unfold Path.basename, results_name.
  replace (pre +:+ "results_" +:+ Py.str year +:+ "_sentiment.xlsx")
    with ((pre +:+ "results_" +:+ Py.str year) +:+ "_sentiment.xlsx")
    by (by rewrite !string_app_assoc).
  destruct (splitdrive_keeps_ending (pre +:+ "results_" +:+ Py.str year)
              "_sentiment.xlsx") as [->|[front ->]].
  - done.
  - rewrite SentimentVisualizer.string_length_app. simpl. lia.
  - by left.
  - right. by apply tail_keeps_ending.
Qed.

Lemma nameless_file_year (file_path : string) (df : DataFrame) :
  Path.basename file_path = EmptyString →
  resolve_year file_path df = year_of_data df.
Proof. intros Hname. unfold resolve_year. by rewrite Hname. Qed.

Lemma sentiment_file_year (file_path front : string) (df : DataFrame) :
  Path.basename file_path = front +:+ "_sentiment.xlsx" →
  resolve_year file_path df = year_of_data df.
Proof.
  intros Hname. unfold resolve_year. rewrite Hname.
  change "_sentiment.xlsx" with (String "_" "sentiment.xlsx").
  rewrite split_app, last_app. simpl. done.
Qed.

(** X13. The files [process_all_files] processes,
    [<folder>\results_<year>_sentiment.xlsx], never give their
    partitions the year written in their name: the piece of the name after
    the last underscore is not a number, so the year of the partitions is
    the most frequent year of the data, or ["unknown"] when no row has a
    timestamp. *)
Theorem results_file_year_from_data (folder : string) (year : Z) (df : DataFrame) :
  resolve_year (Path.join folder (results_name year)) df = year_of_data df.
Proof.
  destruct (results_file_basename folder year) as [Hname|[front Hname]].
  - by apply nameless_file_year.
  - by apply (sentiment_file_year _ front).
Qed.

(** X14. A file whose name ends in an underscore, a run of digits, a dot
    and an extension without underscore gives its partitions that run of
    digits as the year, whatever the timestamps of the data say. *)
Theorem numbered_file_year_from_name (file_path front digits ext : string)
    (df : DataFrame) :
  Path.basename file_path = front +:+ "_" +:+ digits +:+ "." +:+ ext →
  Py.isdigit digits = true →
  contains "_" ext = false →
  resolve_year file_path df = digits.
Proof.
  intros Hname Hdigits Hext. unfold resolve_year. rewrite Hname.
  assert (Py.all_digits digits = true) as Hall by (by destruct digits).
  change (front +:+ "_" +:+ digits +:+ "." +:+ ext)
    with (front +:+ String "_" (digits +:+ String "." ext)).
  rewrite split_app, (split_whole "_" (digits +:+ String "." ext)).
  - rewrite last_app. simpl.
    rewrite split_app, (split_whole "." digits) by (by apply digits_contain).
    simpl. by rewrite Hdigits.
  - rewrite contains_app. rewrite (digits_contain "_" digits) by done.
    simpl. exact Hext.
Qed.

Lemma mode_fold (count : Z → nat) (y0 : Z) (l : list Z) :
  let best :=
    foldr (λ y best,
             if (count best <? count y) || ((count best =? count y) && (y <? best)%Z)
             then y else best) y0 l in
  (best = y0 ∨ best ∈ l)
  ∧ ∀ z, z = y0 ∨ z ∈ l →
         count z < count best ∨ (count z = count best ∧ (best ≤ z)%Z).
Proof.
  induction l as [|x l [Hin Hbest]]; simpl.
  - split; [by left|]. intros z [->|Hz]; [right; split; [done|lia]|].
    by apply elem_of_nil in Hz.
  - set (best := foldr _ y0 l) in *.
    destruct (Nat.ltb_spec (count best) (count x)) as [Hlt|Hge]; simpl.
    + split; [right; by left|]. intros z Hz.
      assert (z = x ∨ (z = y0 ∨ z ∈ l)) as [->|Hz'].
      { destruct Hz as [->|Hz]; [by right; left|].
        apply elem_of_cons in Hz as [->|Hz]; [by left | by right; right]. }
      * right. split; [done|lia].
      * destruct (Hbest z Hz') as [?|[? ?]]; left; lia.
    + destruct (Nat.eqb_spec (count best) (count x)) as [Heq|Hne],
        (Z.ltb_spec x best) as [Hxb|Hxb]; simpl.
      * split; [right; by left|]. intros z Hz.
        assert (z = x ∨ (z = y0 ∨ z ∈ l)) as [->|Hz'].
        { destruct Hz as [->|Hz]; [by right; left|].
          apply elem_of_cons in Hz as [->|Hz]; [by left | by right; right]. }
        -- right. split; [done|lia].
        -- destruct (Hbest z Hz') as [?|[? ?]]; [left; lia | right; split; lia].
      * split; [destruct Hin; [by left | right; by right]|]. intros z Hz.
        assert (z = x ∨ (z = y0 ∨ z ∈ l)) as [->|Hz'].
        { destruct Hz as [->|Hz]; [by right; left|].
          apply elem_of_cons in Hz as [->|Hz]; [by left | by right; right]. }
        -- right. split; lia.
        -- by apply Hbest.
      * split; [destruct Hin; [by left | right; by right]|]. intros z Hz.
        assert (z = x ∨ (z = y0 ∨ z ∈ l)) as [->|Hz'].
        { destruct Hz as [->|Hz]; [by right; left|].
          apply elem_of_cons in Hz as [->|Hz]; [by left | by right; right]. }
        -- left. lia.
        -- by apply Hbest.
      * split; [destruct Hin; [by left | right; by right]|]. intros z Hz.
        assert (z = x ∨ (z = y0 ∨ z ∈ l)) as [->|Hz'].
        { destruct Hz as [->|Hz]; [by right; left|].
          apply elem_of_cons in Hz as [->|Hz]; [by left | by right; right]. }
        -- left. lia.
        -- by apply Hbest.
Qed.

(** X15. The year taken from the data is a most frequent one, and the
    smallest of the most frequent ones: [mode] yields a value of the list
    that no other value outnumbers, and that is no larger than any value
    occurring as often; it yields nothing only for the empty list. *)
Theorem mode_most_frequent_smallest (ys : list Z) :
  (mode ys = None ↔ ys = [])
  ∧ ∀ y, mode ys = Some y →
      y ∈ ys
      ∧ ∀ z, z ∈ ys →
          Pd.occurrences z ys < Pd.occurrences y ys
          ∨ (Pd.occurrences z ys = Pd.occurrences y ys ∧ (y ≤ z)%Z).
Proof.
  split; [by destruct ys|].
  intros y Hy. destruct ys as [|y0 ys']; [done|].
  unfold mode in Hy. injection Hy as Hy. subst y.
  pose proof (mode_fold (λ v, Pd.occurrences v (y0 :: ys')) y0 (y0 :: ys')) as [Hin Hbest].
  cbv zeta in *. split.
  - destruct Hin as [Hin|Hin]; [|exact Hin].
    apply elem_of_cons. left. exact Hin.
  - intros z Hz. exact (Hbest z (or_intror Hz)).
Qed.

(** *** Running the same input again *)

(** X21. Processing the same input file a second time appends its rows
    again: when no partition file of the resolved year is unreadable and
    the input is not itself a partition file, then for every quarter with
    rows the partition after the second run is the partition after the
    first run followed by the same rows once more. *)
Theorem rerun_appends_rows_again (fs : files) (file_path : string) (df : DataFrame) :
  let table := to_datetime parse_timestamp <$> rows df in
  let year := resolve_year file_path {| columns := columns df; rows := table |} in
  let fs1 := (process_single_file parse_timestamp cfg fs file_path).1 in
  let fs2 := (process_single_file parse_timestamp cfg fs1 file_path).1 in
  read_excel fs file_path = Ok df →
  timestamp_column ∈ columns df →
  (∀ q, q ∈ quarter_names →
        fs !! Config.get_quarterly_file_path cfg year q ≠ Some Unreadable) →
  (∀ year' q, q ∈ quarter_names →
        file_path ≠ Config.get_quarterly_file_path cfg year' q) →
  ∀ q, q ∈ quarter_names →
    filter (λ r, quarter_of r = Some q) table ≠ [] →
    ∃ first second,
      fs1 !! Config.get_quarterly_file_path cfg year q = Some (Workbook first)
      ∧ fs2 !! Config.get_quarterly_file_path cfg year q = Some (Workbook second)
      ∧ rows second = rows first ++ filter (λ r, quarter_of r = Some q) table
      ∧ length (rows second)
        = length (rows first) + length (filter (λ r, quarter_of r = Some q) table).
Proof.
  intros table year fs1 fs2 Hread Hcol Hok Hinput q Hq Hrows. subst table year.
  destruct (process_single_file_try_merges fs file_path df Hread Hcol Hok)
    as (fs1' & saved1 & Hrun1 & _ & Hfiles1).
  assert (fs1 = fs1') as Hfs1 by (subst fs1; by rewrite process_single_file_fst, Hrun1).
  assert (read_excel fs1 file_path = Ok df) as Hread1.
  { unfold read_excel in *. subst fs1.
    by rewrite process_single_file_fst,
         (process_single_file_try_frame fs file_path file_path Hinput). }
  assert (∀ q', q' ∈ quarter_names →
                fs1 !! Config.get_quarterly_file_path cfg
                         (resolve_year file_path
                            {| columns := columns df;
                               rows := to_datetime parse_timestamp <$> rows df |}) q'
                ≠ Some Unreadable) as Hok1.
  { intros q' Hq'. rewrite Hfs1, (Hfiles1 q' Hq'). case_decide; [by apply Hok | done]. }
  destruct (process_single_file_try_merges fs1 file_path df Hread1 Hcol Hok1)
    as (fs2' & saved2 & Hrun2 & _ & Hfiles2).
  assert (fs2 = fs2') as Hfs2 by (subst fs2; by rewrite process_single_file_fst, Hrun2).
  pose proof (Hfiles1 q Hq) as H1. pose proof (Hfiles2 q Hq) as H2.
  rewrite decide_False in H1, H2 by done.
  rewrite <- Hfs1 in H1. rewrite <- Hfs2 in H2.
  eexists _, _. split; [exact H1|]. split; [exact H2|].
  unfold merged at 1 3. rewrite H1. simpl. split; [done|].
  by rewrite length_app.
Qed.

(** X22. [process_all_files] reports one outcome for each configured
    year whose classified file exists when the run starts, and nothing
    when the source folder does not exist, in which case it changes
    nothing. *)
Theorem process_all_files_one_outcome_per_file (source_folder : string) (fs : files) :
  (exists_ fs source_folder →
   length (process_all_files parse_timestamp cfg source_folder fs).2
   = length (filter (λ year, exists_ fs (Path.join source_folder (results_name year)))
               (Config.ANALYSIS_YEARS cfg)))
  ∧ (¬ exists_ fs source_folder →
     process_all_files parse_timestamp cfg source_folder fs = (fs, [])).
Proof.
  unfold process_all_files. split; intros Hfolder.
  - rewrite decide_True by done.
    assert (∀ years : list Z,
              length (filter (λ filename, exists_ fs (Path.join source_folder filename))
                        ((λ year, "results_" +:+ Py.str year +:+ "_sentiment.xlsx") <$> years))
              = length (filter (λ year, exists_ fs (Path.join source_folder (results_name year)))
                          years)) as Hcount.
    { intros years. apply length_filter_fmap. by intros year. }
    rewrite <- Hcount.
    destruct (filter _ (_ <$> Config.ANALYSIS_YEARS cfg)) as [|name names]; [done|].
    apply process_files_all_reported.
  - by rewrite decide_False.
Qed.

End Properties.

(** *** Examples *)

Lemma partition_path_inj_witness :
  "unknown" = "unknown" ∧ "Q3" = "Q3".
Proof.
  apply (partition_path_inj cfg_data "unknown" "unknown" "Q3" "Q3").
  - unfold quarter_names. rewrite !elem_of_cons. auto.
  - unfold quarter_names. rewrite !elem_of_cons. auto.
  - reflexivity.
Defined.

Definition results_2024 : string := "data\results_2024_sentiment.xlsx".

Lemma process_single_file_writes_partitions_only_witness :
  (process_single_file parse_plain cfg_data (folder_with [row_jan; row_apr]) results_2024).1
    !! results_2024
  = folder_with [row_jan; row_apr] !! results_2024.
Proof.
  apply (process_single_file_writes_partitions_only parse_plain cfg_data
           (folder_with [row_jan; row_apr]) results_2024 results_2024).
  intros year q Hq. exact (partition_path_not_results cfg_data "data" 2024 year q Hq).
Defined.

Lemma no_timestamp_nothing_written_witness :
  process_single_file parse_plain cfg_data (folder_with [row_text; row_blank]) results_2024
  = (folder_with [row_text; row_blank], Generated 0 2 []).
Proof.
  apply (no_timestamp_nothing_written parse_plain cfg_data
           (folder_with [row_text; row_blank]) results_2024
           {| columns := cols3; rows := [row_text; row_blank] |}).
  - vm_compute. reflexivity.
  - unfold cols3, timestamp_column. simpl. rewrite !elem_of_cons. auto.
  - intros r Hr. simpl in Hr. rewrite !elem_of_cons in Hr.
    destruct Hr as [->|[->|Hr]]; [reflexivity | reflexivity | by apply elem_of_nil in Hr].
Defined.

Lemma process_single_file_merges_each_quarter_witness :
  ∃ fs' saved_files,
    process_single_file parse_plain cfg_data (folder_with [row_jan; row_text; row_oct])
      results_2024
    = (fs', Generated 2 1 saved_files)
    ∧ length saved_files = 2
    ∧ fs' !! "data\2024_Q4.xlsx" = Some (Workbook {| columns := cols3; rows := [row_oct] |}).
Proof.
  destruct (process_single_file_merges_each_quarter parse_plain cfg_data
              (folder_with [row_jan; row_text; row_oct]) results_2024
              {| columns := cols3; rows := [row_jan; row_text; row_oct] |})
    as (fs' & saved_files & Hrun & Hsaved & Hfiles).
  - vm_compute. reflexivity.
  - unfold cols3, timestamp_column. simpl. rewrite !elem_of_cons. auto.
  - intros q Hq. unfold quarter_names in Hq. rewrite !elem_of_cons in Hq.
    destruct Hq as [->|[->|[->|[->|Hq]]]]; [..|by apply elem_of_nil in Hq];
      vm_compute; discriminate.
  - exists fs', saved_files. split; [exact Hrun|]. split; [exact Hsaved|].
    etrans; [apply (Hfiles "Q4")|].
    + unfold quarter_names. rewrite !elem_of_cons. auto.
    + vm_compute. reflexivity.
Defined.

(** How a label is written to a cell in the example: a string as text,
    anything else as an empty cell. *)
Definition label_cell (l : json) : option cell :=
  match l with
  | JStr s => Some (CStr s)
  | _ => None
  end.

Definition classified_folder : files :=
  <[results_2024 :=
      Workbook (results_frame label_cell
                  [ {| SentimentAnalyzer.text := "t1";
                       SentimentAnalyzer.sentiment := SentimentAnalyzer.Positive |} ])]>
    (<["data" := Unreadable]> ∅).

Lemma process_all_files_rejects_classifier_output_witness :
  (process_all_files parse_plain cfg_data "data" classified_folder).1 = classified_folder
  ∧ Forall (λ o, o = Failed ValueError)
      (process_all_files parse_plain cfg_data "data" classified_folder).2.
Proof.
  apply (process_all_files_rejects_classifier_output parse_plain cfg_data label_cell
           "data" classified_folder).
  intros year Hyear Hex. simpl in Hyear. rewrite !elem_of_cons in Hyear.
  destruct Hyear as [->|[->|Hyear]]; [| |by apply elem_of_nil in Hyear].
  - exists [ {| SentimentAnalyzer.text := "t1";
                SentimentAnalyzer.sentiment := SentimentAnalyzer.Positive |} ].
    vm_compute. reflexivity.
  - destruct Hex as [f Hf]. vm_compute in Hf. discriminate.
Defined.

Example classifier_output_rejected :
  (process_all_files parse_plain cfg_data "data" classified_folder).2 = [Failed ValueError].
Proof. vm_compute. reflexivity. Qed.

Lemma numbered_file_year_from_name_witness :
  resolve_year "data\tweets_2023.xlsx" {| columns := cols3; rows := [row_jan] |} = "2023".
Proof.
  apply (numbered_file_year_from_name "data\tweets_2023.xlsx" "tweets" "2023" "xlsx");
    reflexivity.
Defined.

Lemma mode_most_frequent_smallest_witness :
  (2024%Z ∈ [2025; 2024; 2025; 2024; 2023]%Z).
Proof.
  apply (mode_most_frequent_smallest [2025; 2024; 2025; 2024; 2023]%Z).
  reflexivity.
Defined.

Lemma rerun_appends_rows_again_witness :
  ∃ first second,
    (process_single_file parse_plain cfg_data (folder_with [row_jan; row_oct]) results_2024).1
      !! "data\2024_Q4.xlsx" = Some (Workbook first)
    ∧ (process_single_file parse_plain cfg_data
         (process_single_file parse_plain cfg_data (folder_with [row_jan; row_oct])
            results_2024).1 results_2024).1
        !! "data\2024_Q4.xlsx" = Some (Workbook second)
    ∧ length (rows second) = length (rows first) + 1.
Proof.
  destruct (rerun_appends_rows_again parse_plain cfg_data (folder_with [row_jan; row_oct])
              results_2024 {| columns := cols3; rows := [row_jan; row_oct] |})
    with (q := "Q4") as (first & second & H1 & H2 & _ & Hlen).
  - vm_compute. reflexivity.
  - unfold cols3, timestamp_column. simpl. rewrite !elem_of_cons. auto.
  - intros q Hq. unfold quarter_names in Hq. rewrite !elem_of_cons in Hq.
    destruct Hq as [->|[->|[->|[->|Hq]]]]; [..|by apply elem_of_nil in Hq];
      vm_compute; discriminate.
  - intros year q Hq. exact (partition_path_not_results cfg_data "data" 2024 year q Hq).
  - unfold quarter_names. rewrite !elem_of_cons. auto 6.
  - intros Hnil. apply (f_equal length) in Hnil. vm_compute in Hnil. discriminate Hnil.
  - exists first, second.
    vm_compute in H1. vm_compute in H2. vm_compute in Hlen.
    split; [vm_compute; exact H1|]. split; [vm_compute; exact H2|].
    vm_compute. exact Hlen.
Defined.

Lemma process_all_files_one_outcome_per_file_witness :
  length (process_all_files parse_plain cfg_data "data" (folder_with [row_jan])).2 = 1.
Proof.
  etrans.
  - apply (process_all_files_one_outcome_per_file parse_plain cfg_data "data"
             (folder_with [row_jan])).
    vm_compute. eexists. reflexivity.
  - vm_compute. reflexivity.
Defined.

(** With the base path of [config.py], the file [process_all_files]
    looks for is the file [get_output_file_path] names: the second step
    reads what the first step writes. *)
Example second_step_default_path :
  Path.join (init Config.default None) (results_name 2024)
  = Config.get_output_file_path Config.default (Py.str 2024).
Proof. vm_compute. reflexivity. Qed.

End QuarterlyProperties.

(** ** Further properties of config.py *)

Module ConfigProperties.

(** [f"{cls.BASE_DATA_PATH}\\filtered_tweets_{year}.xlsx"] *)
Definition get_input_file_path (cfg : Config.config) (year : string) : string :=
  Config.BASE_DATA_PATH cfg +:+ "\filtered_tweets_" +:+ year +:+ ".xlsx".

(** X23. The file the classification step writes for a year is never one
    of the files it reads, whatever the years, and two different years
    never share an output file. *)
Theorem output_files_distinct (cfg : Config.config) :
  (∀ year1 year2 : string,
     Config.get_output_file_path cfg year1 ≠ get_input_file_path cfg year2)
  ∧ ∀ year1 year2 : Z,
      Config.get_output_file_path cfg (Py.str year1)
      = Config.get_output_file_path cfg (Py.str year2) →
      year1 = year2.
Proof.
  split.
  - intros year1 year2 Heq. unfold Config.get_output_file_path, get_input_file_path in Heq.
    apply String.app_inj in Heq. discriminate Heq.
  - intros year1 year2 Heq. unfold Config.get_output_file_path in Heq.
    do 2 apply String.app_inj in Heq.
    apply SentimentVisualizer.app_inj_tail in Heq as [Heq _]; [|done].
    by apply (inj pretty) in Heq.
Qed.

End ConfigProperties.

(** ** Further properties of line_chart_by_quarter.py *)

Module VisualizationProperties.

Import Pd SentimentVisualizer.

(** The six label spellings the percentages count. *)
Definition spellings : list cell :=
  [CStr "Positive"; CStr "positive"; CStr "Negative"; CStr "negative";
   CStr "Neutral"; CStr "neutral"].

(** The non-empty labels of a table. *)
Definition labels_of (df : DataFrame) : list cell := dropna (column df "sentiment").

(** Number of labels in one of the six spellings. *)
Definition counted (labels : list cell) : nat :=
  occurrences (CStr "Positive") labels + occurrences (CStr "positive") labels
  + (occurrences (CStr "Negative") labels + occurrences (CStr "negative") labels)
  + (occurrences (CStr "Neutral") labels + occurrences (CStr "neutral") labels).

(** The data of two states put together, list by list. *)
Definition append_data (a b : sentiment_data) : sentiment_data :=
  {| quarter := quarter a ++ quarter b;
     positive := positive a ++ positive b;
     negative := negative a ++ negative b;
     neutral := neutral a ++ neutral b |}.

(** [min(years)] and [max(years)] of a non-empty list. *)
Definition py_min (y : Z) (ys : list Z) : Z := foldr Z.min y ys.
Definition py_max (y : Z) (ys : list Z) : Z := foldr Z.max y ys.

(** The year range [main] asks for: from the smallest to the largest
    configured year, 2024 to 2025 when no year is configured. *)
Definition main_year_range (cfg : Config.config) : Z * Z :=
  match Config.ANALYSIS_YEARS cfg with
  | y :: ys => (py_min y ys, py_max y ys)
  | [] => (2024, 2025)%Z
  end.

Section Properties.

Variable cfg : Config.config.

(** *** Counting labels *)

Lemma occurrences_cons (v c : cell) (l : list cell) :
  occurrences v (c :: l) = (if decide (c = v) then 1 else 0) + occurrences v l.
Proof. unfold occurrences. rewrite filter_cons. by destruct (decide (c = v)). Qed.

Lemma counted_cons (c : cell) (l : list cell) :
  counted (c :: l) = (if decide (c ∈ spellings) then 1 else 0) + counted l.
Proof.
  unfold counted. rewrite !occurrences_cons.
  destruct (decide (c ∈ spellings)) as [Hin|Hnin].
  - unfold spellings in Hin. rewrite !elem_of_cons in Hin.
    destruct Hin as [->|[->|[->|[->|[->|[->|Hin]]]]]]; [..|by apply elem_of_nil in Hin];
      repeat case_decide; try discriminate; try congruence; lia.
  - assert (∀ v, v ∈ spellings → c ≠ v) as Hne by (intros v Hv ->; done).
    rewrite !decide_False; [lia|..]; apply Hne; unfold spellings; rewrite !elem_of_cons; auto 10.
Qed.

Lemma counted_le (l : list cell) : counted l ≤ length l.
Proof.
  induction l as [|c l IH]; [done|]. rewrite counted_cons. simpl.
  destruct (decide (c ∈ spellings)); lia.
Qed.

Lemma counted_all (l : list cell) : counted l = length l ↔ Forall (λ c, c ∈ spellings) l.
Proof.
  induction l as [|c l IH]; [by split|]. rewrite counted_cons, Forall_cons. simpl.
  pose proof (counted_le l). destruct (decide (c ∈ spellings)) as [Hin|Hnin].
  - rewrite <- IH. split; [intros; split; [done|lia] | intros [_ ?]; lia].
  - split; [lia | by intros [? _]].
Qed.

(** *** The percentages of a row *)

Lemma percent_bounds (a t : nat) :
  a ≤ t →
  (0 <= 100 * inject_Z (Z.of_nat a) / inject_Z (Z.of_nat t)
   ∧ 100 * inject_Z (Z.of_nat a) / inject_Z (Z.of_nat t) <= 100)%Q.
Proof.
  intros Hle. destruct t as [|t].
  - replace a with 0 by lia. split; vm_compute; discriminate.
  - assert (0 < inject_Z (Z.of_nat (S t)))%Q as Hpos.
    { change 0%Q with (inject_Z 0). rewrite <- Zlt_Qlt. lia. }
    split.
    + apply Qle_shift_div_l; [done|]. rewrite Qmult_0_l.
      change 100%Q with (inject_Z 100). rewrite <- inject_Z_mult.
      change 0%Q with (inject_Z 0). rewrite <- Zle_Qle. lia.
    + apply Qle_shift_div_r; [done|].
      change 100%Q with (inject_Z 100). rewrite <- !inject_Z_mult, <- Zle_Qle. lia.
Qed.

(** The three class percentages of a table, as [process_quarterly_file]
    computes them. *)
Definition class_percentage (df : DataFrame) (a b : string) : Q :=
  Float64.add (get (value_counts_percent (column df "sentiment")) (CStr a) 0)
              (get (value_counts_percent (column df "sentiment")) (CStr b) 0).

Lemma class_percentage_within (df : DataFrame) (a b : string) :
  (Z.of_nat (length (labels_of df)) < 2 ^ 53)%Z →
  Float64.within 3 (class_percentage df a b)
    (100 * inject_Z (Z.of_nat (occurrences (CStr a) (labels_of df)
                               + occurrences (CStr b) (labels_of df)))
     / inject_Z (Z.of_nat (length (labels_of df))))%Q.
Proof. intros Hlen. by apply two_spellings. Qed.

(** The sum of the three percentages is three roundings away from the
    exact share of the labels in one of the six spellings. *)
Lemma percent_sum (df : DataFrame) :
  (Z.of_nat (length (labels_of df)) < 2 ^ 53)%Z →
  Float64.within 3
    (class_percentage df "Positive" "positive"
     + class_percentage df "Negative" "negative"
     + class_percentage df "Neutral" "neutral")%Q
    (100 * inject_Z (Z.of_nat (counted (labels_of df)))
     / inject_Z (Z.of_nat (length (labels_of df))))%Q.
Proof.
  intros Hlen.
  eapply Float64.within_comp;
    [|apply Float64.within_add;
       [apply Float64.within_add|]; by apply class_percentage_within].
  unfold counted. rewrite !Nat2Z.inj_add, !inject_Z_plus. unfold Qdiv. ring.
Qed.

Lemma two_le_counted_length (a b : string) (l : list cell) :
  a ≠ b → occurrences (CStr a) l + occurrences (CStr b) l ≤ length l.
Proof.
  intros Hne. induction l as [|c l IH]; [done|]. rewrite !occurrences_cons. simpl.
  repeat case_decide; simplify_eq; lia.
Qed.

(** A value three roundings away from an exact percentage. *)
Lemma rounded_percentage_bounds (x : Q) (a t : nat) :
  a ≤ t →
  Float64.within 3 x (100 * inject_Z (Z.of_nat a) / inject_Z (Z.of_nat t))%Q →
  (0 <= x)%Q ∧ (x <= 100 * (1 + Float64.eps))%Q.
Proof.
  intros Hle Hx. destruct (percent_bounds a t Hle) as [H0 H100].
  split; [by eapply Float64.within_nonneg|].
  destruct (Float64.within_eps _ _ H0 Hx) as [_ Hhi].
  eapply Qle_trans; [exact Hhi|].
  apply Qmult_le_compat_r; [done | by vm_compute].
Qed.

(** X16. With fewer than [2^53] labels, every row
    [process_quarterly_file] adds has three percentages that are not
    negative and exceed 100 by at most [100 * 2^-51]; so does their
    sum. *)
Theorem row_percentages_bounded (fs : files) (sd : sentiment_data)
    (file_path name : string) (df : DataFrame) :
  read_excel fs file_path = Ok df →
  "sentiment" ∈ columns df →
  (Z.of_nat (length (labels_of df)) < 2 ^ 53)%Z →
  ∃ p n u : Q,
    process_quarterly_file fs sd file_path name
    = ({| quarter := quarter sd ++ [name];
          positive := positive sd ++ [p];
          negative := negative sd ++ [n];
          neutral := neutral sd ++ [u] |}, true)
    ∧ (0 <= p ∧ p <= 100 * (1 + Float64.eps))%Q
    ∧ (0 <= n ∧ n <= 100 * (1 + Float64.eps))%Q
    ∧ (0 <= u ∧ u <= 100 * (1 + Float64.eps))%Q
    ∧ (p + n + u <= 100 * (1 + Float64.eps))%Q.
Proof.
  intros Hread Hcol Hlen. unfold process_quarterly_file, find_sentiment_column.
  rewrite Hread, decide_True by done.
  do 3 eexists. split; [reflexivity|].
  split; [|split; [|split]].
  - eapply rounded_percentage_bounds; [|by apply class_percentage_within].
    apply two_le_counted_length. discriminate.
  - eapply rounded_percentage_bounds; [|by apply class_percentage_within].
    apply two_le_counted_length. discriminate.
  - eapply rounded_percentage_bounds; [|by apply class_percentage_within].
    apply two_le_counted_length. discriminate.
  - eapply rounded_percentage_bounds; [|by apply percent_sum]. apply counted_le.
Qed.

(** An exact percentage below 100 is below it by a label's share. *)
Lemma percent_gap (a t : nat) :
  a < t → (Z.of_nat t ≤ 2 ^ 50)%Z →
  (100 * inject_Z (Z.of_nat a) / inject_Z (Z.of_nat t) <= 100 * (1 - 2 * Float64.eps))%Q.
Proof.
  intros Hlt Ht.
  assert (0 < inject_Z (Z.of_nat t))%Q as Hpos.
  { change 0%Q with (inject_Z 0). rewrite <- Zlt_Qlt. lia. }
  apply Qle_shift_div_r; [done|].
  assert (100 * (1 - 2 * Float64.eps) == inject_Z (100 * (2 ^ 50 - 1)) / inject_Z (2 ^ 50))%Q
    as -> by (by vm_compute).
  unfold Qdiv. rewrite <- Qmult_assoc, (Qmult_comm (/ _)), Qmult_assoc.
  apply Qle_shift_div_l; [by vm_compute|].
  change 100%Q with (inject_Z 100). rewrite <- !inject_Z_mult, <- Zle_Qle. lia.
Qed.

(** X17. For a partition with at least one and at most [2^50] non-empty
    labels, the three percentages of its row add up to at least
    [100 * (1 - 2^-51)] if and only if every non-empty label is one of
    the six spellings [Positive], [positive], [Negative], [negative],
    [Neutral], [neutral].  The sum is the exact sum of the three
    floating point values; it need not be 100. *)
Theorem row_percentages_sum_to_100 (fs : files) (sd : sentiment_data)
    (file_path name : string) (df : DataFrame) :
  read_excel fs file_path = Ok df →
  "sentiment" ∈ columns df →
  labels_of df ≠ [] →
  (Z.of_nat (length (labels_of df)) ≤ 2 ^ 50)%Z →
  ∃ p n u : Q,
    process_quarterly_file fs sd file_path name
    = ({| quarter := quarter sd ++ [name];
          positive := positive sd ++ [p];
          negative := negative sd ++ [n];
          neutral := neutral sd ++ [u] |}, true)
    ∧ ((100 * (1 - Float64.eps) <= p + n + u)%Q
       ↔ Forall (λ c, c ∈ spellings) (labels_of df)).
Proof.
  intros Hread Hcol Hne Hlen. unfold process_quarterly_file, find_sentiment_column.
  rewrite Hread, decide_True by done.
  do 3 eexists. split; [reflexivity|].
  pose proof (percent_sum df ltac:(lia)) as Hsum.
  unfold class_percentage in Hsum.
  set (total := (_ + _ + _)%Q) in *.
  pose proof (counted_le (labels_of df)) as Hle.
  destruct (percent_bounds _ _ Hle) as [H0 _].
  destruct (Float64.within_eps _ _ H0 Hsum) as [Hlo Hhi].
  rewrite <- counted_all. split.
  - intros Hbig. destruct (decide (counted (labels_of df) = length (labels_of df)))
      as [|Hless]; [done|]. exfalso.
    pose proof (percent_gap (counted (labels_of df)) (length (labels_of df))
                  ltac:(lia) Hlen) as Hgap.
    set (exact := (100 * _ / _)%Q) in *.
    assert (exact * (1 + Float64.eps) <= 100 * (1 - 2 * Float64.eps) * (1 + Float64.eps))%Q
      as Hmul by (apply Qmult_le_compat_r; [done | by vm_compute]).
    assert (100 * (1 - 2 * Float64.eps) * (1 + Float64.eps) < 100 * (1 - Float64.eps))%Q
      as Hconst by (by vm_compute).
    lra.
  - intros Hall. rewrite Hall in Hlo.
    assert (100 * inject_Z (Z.of_nat (length (labels_of df)))
            / inject_Z (Z.of_nat (length (labels_of df))) == 100)%Q as Hfull.
    { field. change 0%Q with (inject_Z 0). rewrite inject_Z_injective.
      destruct (labels_of df); [done | simpl; lia]. }
    rewrite Hfull in Hlo. exact Hlo.
Qed.

(** X18. A partition without any non-empty label (no rows, or only empty
    sentiment cells) is not skipped: it adds a row whose three percentages
    are exactly 0. *)
Theorem unlabelled_partition_row_of_zeros (fs : files) (sd : sentiment_data)
    (file_path name : string) (df : DataFrame) :
  read_excel fs file_path = Ok df →
  "sentiment" ∈ columns df →
  labels_of df = [] →
  process_quarterly_file fs sd file_path name
  = ({| quarter := quarter sd ++ [name];
        positive := positive sd ++ [0%Q];
        negative := negative sd ++ [0%Q];
        neutral := neutral sd ++ [0%Q] |}, true).
Proof.
  intros Hread Hcol Hempty. unfold process_quarterly_file, find_sentiment_column.
  rewrite Hread, decide_True by done.
  unfold value_counts_percent. unfold labels_of in Hempty. rewrite Hempty. reflexivity.
Qed.

(** *** Collecting into a state that already holds rows *)

Lemma append_data_init (sd : sentiment_data) : append_data sd init = sd.
Proof. destruct sd. unfold append_data. simpl. by rewrite !app_nil_r. Qed.

Lemma append_data_assoc (a b c : sentiment_data) :
  append_data (append_data a b) c = append_data a (append_data b c).
Proof. unfold append_data. simpl. by rewrite !app_assoc. Qed.

Lemma process_quarterly_file_append fs (a b : sentiment_data) file_path name :
  process_quarterly_file fs (append_data a b) file_path name
  = (append_data a (process_quarterly_file fs b file_path name).1,
     (process_quarterly_file fs b file_path name).2).
Proof.
  unfold process_quarterly_file.
  destruct (read_excel fs file_path) as [df|e]; [|done].
  destruct (find_sentiment_column df); [|done].
  unfold append_data. simpl. by rewrite !app_assoc.
Qed.

Lemma collect_step_append fs (a b : sentiment_data) (n m : nat) year q :
  (collect_step cfg fs (append_data a b, n) year q).1
  = append_data a (collect_step cfg fs (b, m) year q).1.
Proof.
  unfold collect_step. destruct (decide (exists_ fs _)); [|done]. simpl.
  rewrite process_quarterly_file_append.
  by destruct (process_quarterly_file fs b _ _).
Qed.

Lemma collect_loop_append fs (keys : list (Z * string)) (a b : sentiment_data) (n m : nat) :
  (foldl (λ acc k, collect_step cfg fs acc k.1 k.2) (append_data a b, n) keys).1
  = append_data a (foldl (λ acc k, collect_step cfg fs acc k.1 k.2) (b, m) keys).1.
Proof.
  revert b n m. induction keys as [|[year q] keys IH]; intros b n m; [done|].
  simpl.
  pose proof (collect_step_append fs a b n m year q) as Hstep.
  destruct (collect_step cfg fs (append_data a b, n) year q) as [s1 n1].
  destruct (collect_step cfg fs (b, m) year q) as [s2 n2]. simpl in Hstep. subst s1.
  apply IH.
Qed.

Lemma collect_step_count fs (acc : sentiment_data * nat) year q :
  (collect_step cfg fs acc year q).2
  = acc.2 + (if decide (usable cfg fs year q) then 1 else 0).
Proof.
  unfold collect_step. destruct (decide (usable cfg fs year q)) as [Hu|Hu].
  - rewrite decide_True by by apply usable_exists.
    destruct (process_quarterly_file_usable cfg fs acc.1 year q (quarter_name year q) Hu)
      as (p & n & u & ->). simpl. lia.
  - rewrite (process_quarterly_file_unusable _ _ _ _ _ _ Hu).
    destruct (decide (exists_ fs _)); simpl; lia.
Qed.

Lemma collect_loop_count fs (keys : list (Z * string)) (acc : sentiment_data * nat) :
  (foldl (λ acc k, collect_step cfg fs acc k.1 k.2) acc keys).2
  = acc.2 + length (filter (λ k, usable cfg fs k.1 k.2) keys).
Proof.
  revert acc. induction keys as [|[year q] keys IH]; intros acc; [simpl; lia|].
  simpl. rewrite IH, collect_step_count, filter_cons. simpl.
  destruct (decide (usable cfg fs year q)); simpl; lia.
Qed.

(** X19. [collect_data] does not start from an empty state: called on a
    visualizer that already holds rows, it keeps them and appends after
    them exactly the rows a fresh visualizer would collect, so a second
    call over the same range holds every row twice; the count it reports
    is the number of rows this call added. *)
Theorem collect_data_appends (fs : files) (sd : sentiment_data) (first last : Z) :
  (collect_data cfg fs sd (first, last)).1
  = append_data sd (collect_data cfg fs init (first, last)).1
  ∧ (collect_data cfg fs sd (first, last)).2
    = length (quarter (collect_data cfg fs init (first, last)).1).
Proof.
  rewrite !collect_data_flat. split.
  - rewrite <- (append_data_init sd) at 1. apply collect_loop_append.
  - rewrite collect_loop_count. simpl.
    destruct (collect_loop_grown cfg fs (range_quarters first last) (init, 0)) as [-> _].
    simpl. by rewrite length_fmap.
Qed.

(** *** The range [main] asks for *)

Lemma py_min_le (y : Z) (ys : list Z) (z : Z) :
  z ∈ y :: ys → (py_min y ys ≤ z)%Z.
Proof.
  unfold py_min. induction ys as [|x ys IH]; simpl.
  - intros Hz. apply elem_of_cons in Hz as [->|Hz]; [lia | by apply elem_of_nil in Hz].
  - intros Hz. rewrite !elem_of_cons in Hz. destruct Hz as [->|[->|Hz]].
    + assert (foldr Z.min y ys ≤ y)%Z by (apply IH; by left). lia.
    + lia.
    + assert (foldr Z.min y ys ≤ z)%Z by (apply IH; by right). lia.
Qed.

Lemma py_max_ge (y : Z) (ys : list Z) (z : Z) :
  z ∈ y :: ys → (z ≤ py_max y ys)%Z.
Proof.
  unfold py_max. induction ys as [|x ys IH]; simpl.
  - intros Hz. apply elem_of_cons in Hz as [->|Hz]; [lia | by apply elem_of_nil in Hz].
  - intros Hz. rewrite !elem_of_cons in Hz. destruct Hz as [->|[->|Hz]].
    + assert (y ≤ foldr Z.max y ys)%Z by (apply IH; by left). lia.
    + lia.
    + assert (z ≤ foldr Z.max y ys)%Z by (apply IH; by right). lia.
Qed.

(** X20. The range [main] collects runs from the smallest to the largest
    configured year (2024 to 2025 when none is configured): every
    configured year lies in it, and every year between its ends has its
    usable partitions collected, whether that year is configured or
    not. *)
Theorem main_range_covers_years_between (fs : files) :
  (Config.ANALYSIS_YEARS cfg = [] → main_year_range cfg = (2024, 2025)%Z)
  ∧ (∀ y, y ∈ Config.ANALYSIS_YEARS cfg →
          ((main_year_range cfg).1 ≤ y ≤ (main_year_range cfg).2)%Z)
  ∧ ∀ year q,
      ((main_year_range cfg).1 ≤ year ≤ (main_year_range cfg).2)%Z →
      q ∈ quarters →
      usable cfg fs year q →
      quarter_name year q ∈ quarter (collect_data cfg fs init (main_year_range cfg)).1.
Proof.
  split; [|split].
  - unfold main_year_range. by intros ->.
  - intros y Hy. unfold main_year_range.
    destruct (Config.ANALYSIS_YEARS cfg) as [|y0 ys]; [by apply elem_of_nil in Hy|].
    simpl. split; [by apply py_min_le | by apply py_max_ge].
  - intros year q Hyear Hq Husable.
    destruct (main_year_range cfg) as [first last]. simpl in Hyear.
    rewrite collect_data_flat.
    destruct (collect_loop_grown cfg fs (range_quarters first last) (init, 0)) as [-> _].
    simpl. apply list_elem_of_fmap. exists (year, q). split; [done|].
    apply list_elem_of_filter. split; [done|]. by apply elem_of_range_quarters.
Qed.

End Properties.

(** *** Examples *)

Definition well_labelled : DataFrame :=
  {| columns := ["text"; "sentiment"];
     rows := [opinion "a" (Some "Positive"); opinion "b" (Some "negative");
              opinion "c" None; opinion "d" (Some "Neutral")] |}.

(** The bound is not 100: the row of [eleven_positive] exceeds it. *)
Lemma row_percentages_bounded_witness :
  ∃ p n u : Q,
    process_quarterly_file (<["p" := Workbook eleven_positive]> ∅) init "p" "2024_Q1"
    = ({| quarter := [] ++ ["2024_Q1"]; positive := [] ++ [p]; negative := [] ++ [n];
          neutral := [] ++ [u] |}, true)
    ∧ (0 <= p ∧ p <= 100 * (1 + Float64.eps))%Q
    ∧ (0 <= n ∧ n <= 100 * (1 + Float64.eps))%Q
    ∧ (0 <= u ∧ u <= 100 * (1 + Float64.eps))%Q
    ∧ (p + n + u <= 100 * (1 + Float64.eps))%Q.
Proof.
  apply (row_percentages_bounded (<["p" := Workbook eleven_positive]> ∅) init "p" "2024_Q1"
           eleven_positive).
  - vm_compute. reflexivity.
  - unfold eleven_positive. simpl. rewrite !elem_of_cons. auto.
  - vm_compute. reflexivity.
Defined.

Lemma row_percentages_sum_to_100_witness :
  ∃ p n u : Q,
    process_quarterly_file (<["p" := Workbook well_labelled]> ∅) init "p" "2024_Q1"
    = ({| quarter := [] ++ ["2024_Q1"]; positive := [] ++ [p]; negative := [] ++ [n];
          neutral := [] ++ [u] |}, true)
    ∧ ((100 * (1 - Float64.eps) <= p + n + u)%Q
       ↔ Forall (λ c, c ∈ spellings) (labels_of well_labelled)).
Proof.
  apply (row_percentages_sum_to_100 (<["p" := Workbook well_labelled]> ∅) init "p"
           "2024_Q1" well_labelled).
  - vm_compute. reflexivity.
  - unfold well_labelled. simpl. rewrite !elem_of_cons. auto.
  - vm_compute. discriminate.
  - vm_compute. discriminate.
Defined.

Example shouting_sums_to_50 :
  ∃ p n u, (process_quarterly_file (<["p" := Workbook shouting]> ∅) init "p" "2024_Q1").1
           = {| quarter := ["2024_Q1"]; positive := [p]; negative := [n]; neutral := [u] |}
           ∧ (p + n + u == 50)%Q.
Proof. do 3 eexists. split; vm_compute; reflexivity. Qed.

Lemma unlabelled_partition_row_of_zeros_witness :
  process_quarterly_file
    (<["p" := Workbook {| columns := ["text"; "sentiment"]; rows := [opinion "a" None] |}]> ∅)
    init "p" "2024_Q1"
  = ({| quarter := [] ++ ["2024_Q1"]; positive := [] ++ [0%Q]; negative := [] ++ [0%Q];
        neutral := [] ++ [0%Q] |}, true).
Proof.
  apply (unlabelled_partition_row_of_zeros
           (<["p" := Workbook {| columns := ["text"; "sentiment"];
                                 rows := [opinion "a" None] |}]> ∅)
           init "p" "2024_Q1"
           {| columns := ["text"; "sentiment"]; rows := [opinion "a" None] |}).
  - vm_compute. reflexivity.
  - simpl. rewrite !elem_of_cons. auto.
  - vm_compute. reflexivity.
Defined.

(** Years 2023 and 2025 configured: the partitions of 2024 are collected
    too. *)
Definition cfg_gap : Config.config := {|
  Config.BASE_DATA_PATH := "data";
  Config.BATCH_SIZE := 30;
  Config.ANALYSIS_TOPIC := "nuclear power";
  Config.ANALYSIS_YEARS := [2025; 2023]%Z
|}.

Lemma main_range_covers_years_between_witness :
  quarter_name 2024 "Q2"
    ∈ quarter (collect_data cfg_gap partitions_2024 init (main_year_range cfg_gap)).1.
Proof.
  apply (main_range_covers_years_between cfg_gap partitions_2024).
  - simpl. lia.
  - unfold quarters. rewrite !elem_of_cons. auto.
  - apply (bool_decide_unpack _). vm_compute. exact I.
Defined.

Example second_collect_doubles :
  quarter (collect_data cfg_data partitions_2024
             (collect_data cfg_data partitions_2024 init (2024, 2024)%Z).1
             (2024, 2024)%Z).1
  = ["2024_Q2"; "2024_Q2"].
Proof. vm_compute. reflexivity. Qed.

End VisualizationProperties.
